(** * pinecone-search: a shallow embedding of the ingestion and search paths

    The development follows the Python sources under [app/]:
    - [app/utils/constants.py]   : [OBJECT_TYPE], [STORE_TYPE]
    - [app/utils/common.py]      : [sanitize_metadata], [collect_values],
                                   [is_nonempty]
    - [app/services/*.py]        : [CacheService], [PineconeService],
                                   [EmbeddingService], the text synthesizer
                                   and its three templates
    - [app/api/ingest_routes.py] : [ingest_document], the batch pipeline
    - [app/api/search_routes.py] : [search_documents]

    Python values are modelled by the inductive [pyval]; a Python [dict] is an
    insertion-ordered association list whose keys are pairwise distinct.
    Effectful code runs in a small writer-and-exception monad [Eff] that
    records every call to an external collaborator; calls handed to the
    thread pool are merged by an [Executor], which stands for the order of
    time the program does not fix; the threaded batch pipeline is a labelled
    transition system. *)

From Stdlib Require Import List String Ascii ZArith Lia Bool Arith.
From Stdlib Require Import Floats DecimalString.
From Stdlib Require Import Permutation.
Import ListNotations.

#[local] Set Warnings "-register-all".
#[local] Open Scope string_scope.

(* ================================================================== *)
(** ** Python values *)

(** The values a request body can carry after pydantic's [.dict()]:
    JSON scalars, members of a [StrEnum] (the [type] field), lists and
    dicts.  [.dict()] leaves no [BaseModel] instance inside the value, so
    the [isinstance(_, BaseModel)] branches of [common.py] are not taken on
    these values.  A text is a [string], read as a sequence of code points
    below 256. *)
Inductive pyval : Type :=
| VNone
| VBool (b : bool)
| VInt (z : Z)
| VFloat (f : float)
| VStr (s : string)
| VEnum (value : string)
| VList (items : list pyval)
| VDict (kvs : list (string * pyval)).

(** A Python dict: insertion-ordered, keys pairwise distinct. *)
Definition dict := list (string * pyval).

Definition keys (d : dict) : list string := map fst d.

Definition wf_dict (d : dict) : Prop := NoDup (keys d).

(** Induction over [pyval] that reaches the values nested below lists and
    dicts. *)
Section pyval_nested_ind.
Variable P : pyval -> Prop.
Hypothesis HNone : P VNone.
Hypothesis HBool : forall b, P (VBool b).
Hypothesis HInt : forall z, P (VInt z).
Hypothesis HFloat : forall f, P (VFloat f).
Hypothesis HStr : forall s, P (VStr s).
Hypothesis HEnum : forall s, P (VEnum s).
Hypothesis HList : forall l, Forall P l -> P (VList l).
Hypothesis HDict : forall kvs, Forall (fun kv => P (snd kv)) kvs -> P (VDict kvs).

Fixpoint pyval_nested_ind (v : pyval) : P v :=
  match v with
  | VNone => HNone
  | VBool b => HBool b
  | VInt z => HInt z
  | VFloat f => HFloat f
  | VStr s => HStr s
  | VEnum s => HEnum s
  | VList l =>
      HList l
        ((fix go (l : list pyval) : Forall P l :=
            match l with
            | [] => Forall_nil P
            | x :: r => Forall_cons x (pyval_nested_ind x) (go r)
            end) l)
  | VDict kvs =>
      HDict kvs
        ((fix go (kvs : dict) : Forall (fun kv => P (snd kv)) kvs :=
            match kvs with
            | [] => Forall_nil _
            | kv :: r =>
                Forall_cons (P := fun kv => P (snd kv)) kv
                  (pyval_nested_ind (snd kv)) (go r)
            end) kvs)
  end.
End pyval_nested_ind.

(** [x is None], [isinstance(x, dict)], [isinstance(x, list)]. *)
Definition is_None (v : pyval) : bool :=
  match v with VNone => true | _ => false end.

Definition is_container (v : pyval) : bool :=
  match v with VList _ | VDict _ => true | _ => false end.

(** A value the vector store accepts as it is: neither null nor a
    container. *)
Definition is_scalar (v : pyval) : bool :=
  negb (is_None v) && negb (is_container v).

(* ------------------------------------------------------------------ *)
(** *** Strings *)

Definition nonempty_str (s : string) : bool :=
  match s with EmptyString => false | String _ _ => true end.

(** A string is a sequence of code points below 256.  White space as
    [str.strip] and [str.isspace] understand it on that range: the ASCII
    controls 9 to 13 and 28 to 31, the space, NEXT LINE (133) and the
    no-break space (160). *)
Definition is_space (c : ascii) : bool :=
  let n := nat_of_ascii c in
  Nat.eqb n 32 || (Nat.leb 9 n && Nat.leb n 13) || (Nat.leb 28 n && Nat.leb n 31)
  || Nat.eqb n 133 || Nat.eqb n 160.

(** A digit as [str.isdigit] understands it on that range: the ASCII digits
    and the superscripts two (178), three (179) and one (185). *)
Definition is_digit (c : ascii) : bool :=
  let n := nat_of_ascii c in
  (Nat.leb 48 n && Nat.leb n 57) || Nat.eqb n 178 || Nat.eqb n 179 || Nat.eqb n 185.

Fixpoint lstrip (s : string) : string :=
  match s with
  | EmptyString => EmptyString
  | String c r => if is_space c then lstrip r else s
  end.

Fixpoint rstrip (s : string) : string :=
  match s with
  | EmptyString => EmptyString
  | String c r =>
      match rstrip r with
      | EmptyString => if is_space c then EmptyString else String c EmptyString
      | r' => String c r'
      end
  end.

(** [s.strip()] *)
Definition strip (s : string) : string := rstrip (lstrip s).

Fixpoint all_digits (s : string) : bool :=
  match s with
  | EmptyString => true
  | String c r => is_digit c && all_digits r
  end.

(** [s.isdigit()]: at least one character, all of them digits. *)
Definition isdigit (s : string) : bool := nonempty_str s && all_digits s.

(** [str(i)] for a list index and for an [int]. *)
Definition str_nat (n : nat) : string := NilEmpty.string_of_uint (Nat.to_uint n).
Definition str_int (z : Z) : string := NilZero.string_of_int (Z.to_int z).

(* ------------------------------------------------------------------ *)
(** *** Builtins of the Python runtime

    The printing of floats and [repr], as well as the JSON codec, belong to
    the interpreter and its standard library; the development is
    parametric in them. *)
Class PyRuntime : Type := {
  float_str : float -> string;
  float_str_nonempty : forall f, float_str f <> "";
  py_repr : pyval -> string;
  json_loads : string -> option pyval;   (* [None]: the call raises *)
  json_dumps : pyval -> option string    (* [None]: the call raises *)
}.

(** [bool(x)] *)
Definition truthy (v : pyval) : bool :=
  match v with
  | VNone => false
  | VBool b => b
  | VInt z => negb (Z.eqb z 0)
  | VFloat f => negb (PrimFloat.eqb f 0%float)
  | VStr s => nonempty_str s
  | VEnum s => nonempty_str s
  | VList l => match l with [] => false | _ => true end
  | VDict d => match d with [] => false | _ => true end
  end.

(** [a or b] *)
Definition py_or (a b : pyval) : pyval := if truthy a then a else b.

Section Str.
Context `{PyRuntime}.

(** [str(x)] *)
Definition py_str (v : pyval) : string :=
  match v with
  | VNone => "None"
  | VBool true => "True"
  | VBool false => "False"
  | VInt z => str_int z
  | VFloat f => float_str f
  | VStr s => s
  | VEnum s => s
  | VList l => "[" ++ String.concat ", " (map py_repr l) ++ "]"
  | VDict d =>
      "{" ++ String.concat ", "
               (map (fun kv => py_repr (VStr (fst kv)) ++ ": " ++ py_repr (snd kv)) d)
          ++ "}"
  end.
End Str.

(* ------------------------------------------------------------------ *)
(** *** Dict operations *)

(** [key in d] *)
Definition dict_mem (d : dict) (k : string) : bool :=
  existsb (fun kv => String.eqb (fst kv) k) d.

Fixpoint dict_lookup (d : dict) (k : string) : option pyval :=
  match d with
  | [] => None
  | (k', v) :: r => if String.eqb k' k then Some v else dict_lookup r k
  end.

(** [d.get(k, None)] *)
Definition dict_get (d : dict) (k : string) : pyval :=
  match dict_lookup d k with Some v => v | None => VNone end.

(** [d[k] = v]: an existing key keeps its position, a new one goes last. *)
Fixpoint dict_set (d : dict) (k : string) (v : pyval) : dict :=
  match d with
  | [] => [(k, v)]
  | (k', v') :: r =>
      if String.eqb k' k then (k', v) :: r else (k', v') :: dict_set r k v
  end.

(** [d.update(new)] *)
Definition dict_update (d new : dict) : dict :=
  fold_left (fun acc kv => dict_set acc (fst kv) (snd kv)) new d.

(* ================================================================== *)
(** ** [app/utils/constants.py] *)

Inductive OBJECT_TYPE := PRODUCTS | BLOGS | STORES | ALL.

(** The string a [StrEnum] member stands for, which is also what [str] and
    an f-string print. *)
Definition OBJECT_TYPE_value (t : OBJECT_TYPE) : string :=
  match t with
  | PRODUCTS => "products"
  | BLOGS => "blogs"
  | STORES => "stores"
  | ALL => "all"
  end.

Definition OBJECT_TYPE_eqb (a b : OBJECT_TYPE) : bool :=
  String.eqb (OBJECT_TYPE_value a) (OBJECT_TYPE_value b).

(* ================================================================== *)
(** ** [app/utils/common.py] *)

(** [sanitize_metadata(data, parent_key, sep)].  The [elif isinstance(data,
    (dict, list))] test of the last branch is dead code: both types are
    taken by the branches before it. *)
Fixpoint sanitize_metadata (data : pyval) (parent_key sep : string) : dict :=
  match data with
  | VDict kvs =>
      fold_left
        (fun items kv =>
           let new_key :=
             if nonempty_str parent_key
             then parent_key ++ sep ++ fst kv
             else fst kv in
           dict_update items (sanitize_metadata (snd kv) new_key sep))
        kvs []
  | VList l =>
      snd (fold_left
             (fun st value =>
                let new_key := parent_key ++ sep ++ str_nat (fst st) in
                (S (fst st),
                 dict_update (snd st) (sanitize_metadata value new_key sep)))
             l (0, []))
  | VNone => []
  | _ => [(parent_key, data)]
  end.

(** [is_nonempty(v)].  A [StrEnum] member is a [str]. *)
Definition is_nonempty (v : pyval) : bool :=
  match v with
  | VNone => false
  | VStr s | VEnum s => nonempty_str (strip s)
  | VList l => Nat.ltb 0 (List.length l)
  | VDict d => Nat.ltb 0 (List.length d)
  | _ => true
  end.

Section Collect.
Context `{PyRuntime}.

(** [collect_values(obj)].  The result is [None] where the Python function
    returns [None] (the bare [return] of the large-number filter).  Every
    call starts from a fresh [value_parts]; the recursive calls on the
    members of a dict or a list are made and their results dropped. *)
Fixpoint collect_values (obj : pyval) : option (list string) :=
  let value_parts : list string := [] in
  match obj with
  | VNone => Some value_parts
  | VEnum val =>
      if is_nonempty (VStr val)
      then Some (value_parts ++ [py_str (VStr val)])%list
      else Some value_parts
  | VDict kvs =>
      let _ := map (fun kv => collect_values (snd kv)) kvs in
      Some value_parts
  | VList l =>
      let _ := map collect_values l in
      Some value_parts
  | _ =>
      if is_nonempty obj then
        let s := strip (py_str obj) in
        if isdigit s && Nat.ltb 4 (String.length s)
        then None
        else Some (value_parts ++ [s])%list
      else Some value_parts
  end.
End Collect.

(* ================================================================== *)
(** ** Exceptions, events and the effect monad *)

Inductive exn :=
| PyError (kind msg : string)
| HTTPException (status_code : nat) (detail : string).

(** [str(e)] *)
Definition exn_str (e : exn) : string :=
  match e with
  | PyError _ msg => msg
  | HTTPException _ detail => detail
  end.

Inductive result (A : Type) :=
| Ok (a : A)
| Raise (e : exn).
Arguments Ok {A} a.
Arguments Raise {A} e.

(** A vector as the store takes it. *)
Record Vector := {
  v_id : string;
  v_values : list float;
  v_metadata : dict
}.

(** What leaves the process, in the order of time. *)
Inductive event :=
| EvLog (level msg : string)
| EvEmbed (text : string)
| EvIndexUpsert (vectors : list Vector) (namespace : option string)
| EvIndexQuery (vector : list float) (top_k : Z) (namespace : option string)
| EvCacheSearch (prompt : string)
| EvCacheSet (prompt response : string)
| EvAddTask (query : string) (value : pyval).

Definition Eff (A : Type) : Type := (list event * result A)%type.

Definition ret {A} (a : A) : Eff A := ([], Ok a).

Definition raise {A} (e : exn) : Eff A := ([], Raise e).

Definition bind {A B} (m : Eff A) (k : A -> Eff B) : Eff B :=
  match snd m with
  | Ok a => ((fst m ++ fst (k a))%list, snd (k a))
  | Raise e => (fst m, Raise e)
  end.

(** [try: m except Exception as e: h e] *)
Definition try_except {A} (m : Eff A) (h : exn -> Eff A) : Eff A :=
  match snd m with
  | Ok a => m
  | Raise e => ((fst m ++ fst (h e))%list, snd (h e))
  end.

Definition emit (e : event) : Eff unit := ([e], Ok tt).

Definition log (level msg : string) : Eff unit := emit (EvLog level msg).

(** A call to a collaborator: the call is recorded, then it answers. *)
Definition call {A} (e : event) (answer : result A) : Eff A := ([e], answer).

Definition lift_result {A} (r : result A) : Eff A := ([], r).

Declare Scope eff_scope.
Delimit Scope eff_scope with eff.
Notation "x <- m ;; k" := (bind m (fun x => k))
  (at level 61, m at next level, right associativity) : eff_scope.
Notation "m ;;; k" := (bind m (fun _ => k))
  (at level 61, right associativity) : eff_scope.

Definition trace {A} (m : Eff A) : list event := fst m.
Definition outcome {A} (m : Eff A) : result A := snd m.

Definition is_embed (e : event) : bool :=
  match e with EvEmbed _ => true | _ => false end.
Definition is_index_query (e : event) : bool :=
  match e with EvIndexQuery _ _ _ => true | _ => false end.
Definition is_index_upsert (e : event) : bool :=
  match e with EvIndexUpsert _ _ => true | _ => false end.

(** The calls to the index's [upsert], in order. *)
Definition index_upserts (t : list event) : list (list Vector * option string) :=
  flat_map (fun e => match e with
                     | EvIndexUpsert vs ns => [(vs, ns)]
                     | _ => []
                     end) t.

#[local] Open Scope eff_scope.

(** [for x in l: s = body(s, x)] *)
Fixpoint for_each {A S : Type} (l : list A) (body : S -> A -> Eff S) (s : S) : Eff S :=
  match l with
  | [] => ret s
  | x :: r => s' <- body s x ;; for_each r body s'
  end.

(** [[f(x) for x in l]], stopping at the first exception. *)
Fixpoint map_eff {A B : Type} (f : A -> Eff B) (l : list A) : Eff (list B) :=
  match l with
  | [] => ret []
  | x :: r => y <- f x ;; ys <- map_eff f r ;; ret (y :: ys)
  end.

(** *** Calls handed to the executor *)

(** The merges of two traces, and of several: every trace keeps its own
    order, nothing is lost and nothing is added. *)
Inductive merge {A : Type} : list A -> list A -> list A -> Prop :=
| merge_nil : merge [] [] []
| merge_left (x : A) (t l r : list A) : merge t l r -> merge (x :: t) l (x :: r)
| merge_right (x : A) (t l r : list A) : merge t l r -> merge t (x :: l) (x :: r).

Inductive interleaving {A : Type} : list (list A) -> list A -> Prop :=
| interleaving_nil : interleaving [] []
| interleaving_cons (t : list A) (ts : list (list A)) (l r : list A) :
    interleaving ts l -> merge t l r -> interleaving (t :: ts) r.

(** The thread pool and the event loop.  The program does not fix the order
    in time of calls that run in the pool: [interleave] answers in which
    order their events left the process, [first_raised] which of the calls
    that raised did so first.  Any merge of the traces and any of the
    exceptions raised is a possible answer. *)
Record Executor := {
  interleave : list (list event) -> list event;
  first_raised : exn -> list exn -> exn;
  interleave_ok : forall ts, interleaving ts (interleave ts);
  first_raised_ok : forall e es, In (first_raised e es) (e :: es)
}.

(** The results of the calls that returned, and the exceptions of those
    that raised, in the order of the calls. *)
Definition returned {A : Type} (runs : list (Eff A)) : list A :=
  flat_map (fun run => match outcome run with Ok a => [a] | Raise _ => [] end) runs.

Definition raised {A : Type} (runs : list (Eff A)) : list exn :=
  flat_map (fun run => match outcome run with Ok _ => [] | Raise e => [e] end) runs.

(** [await asyncio.gather] of the tasks, over calls submitted with
    [loop.run_in_executor].  Every call runs, also when another one raises:
    a call in the pool is not cancelled, and what it sends out after the
    exception has reached the handler is part of the trace.  The results
    come in the order of the calls; the exception, if any call raised, is
    the first one raised in time. *)
Definition gather {A : Type} (executor : Executor) (tasks : list (Eff A))
  : Eff (list A) :=
  (interleave executor (map trace tasks),
   match raised tasks with
   | [] => Ok (returned tasks)
   | e :: es => Raise (first_raised executor e es)
   end).

(** [l[i:j]] for [0 <= i]. *)
Definition py_slice {A : Type} (l : list A) (i j : nat) : list A :=
  firstn (j - i) (skipn i l).

(** [range(start, stop, step)] for a positive [step]. *)
Definition py_range (start stop step : nat) : list nat :=
  map (fun j => start + j * step) (seq 0 ((stop - start + step - 1) / step)).

(** [for x in v], and [m.get(key)] on a value that may not be a dict. *)
Definition py_iter (v : pyval) : result (list pyval) :=
  match v with
  | VList l => Ok l
  | VDict d => Ok (map (fun kv => VStr (fst kv)) d)
  | VStr s | VEnum s =>
      Ok (map (fun c => VStr (String c EmptyString)) (list_ascii_of_string s))
  | _ => Raise (PyError "TypeError" "object is not iterable")
  end.

Definition py_get (m : pyval) (key : string) : result pyval :=
  match m with
  | VDict d => Ok (dict_get d key)
  | _ => Raise (PyError "AttributeError" "object has no attribute 'get'")
  end.

(* ================================================================== *)
(** ** [app/services/generate_text_service.py] *)

(** The synthesizer is written over the per-entity description templates,
    which yield the [parts] of the description, or raise; the templates of
    the source are [source_templates] below. *)
Record Templates := {
  product_parts : dict -> result (list string);
  post_parts : dict -> result (list string);
  store_to_text : dict -> result string
}.

Section Synthesizer.
Context `{PyRuntime}.
Variable templates : Templates.

(** The tail shared by [product_to_semantic_texts] and
    [post_to_semantic_texts]: description, then the values-only string.
    [" ".join(None)] raises. *)
Definition semantic_text (parts : list string) (record : pyval) : result string :=
  let description := String.concat ". " parts ++ "." in
  match collect_values record with
  | Some value_parts =>
      let values_string := String.concat " " value_parts in
      Ok (description ++ " " ++ values_string)
  | None => Raise (PyError "TypeError" "can only join an iterable")
  end.

Definition product_to_semantic_texts (product : dict) : result string :=
  match product_parts templates product with
  | Ok parts => semantic_text parts (VDict product)
  | Raise e => Raise e
  end.

Definition post_to_semantic_texts (post : dict) : result string :=
  match post_parts templates post with
  | Ok parts => semantic_text parts (VDict post)
  | Raise e => Raise e
  end.

Definition reraise_logged {A : Type} (msg : string) (m : Eff A) : Eff A :=
  try_except m (fun e => log "error" msg ;;; raise e).

(** [generate_text(metadata, object_type)] *)
Definition generate_text (metadata : dict) (object_type : OBJECT_TYPE) : Eff string :=
  reraise_logged "Error generating text"
    match object_type with
    | PRODUCTS =>
        reraise_logged "Error generating product text"
          (lift_result (product_to_semantic_texts metadata))
    | BLOGS =>
        reraise_logged "Error generating blog text"
          (lift_result (post_to_semantic_texts metadata))
    | STORES =>
        reraise_logged "Error generating store text"
          (lift_result (store_to_text templates metadata))
    | ALL =>
        raise (PyError "ValueError"
                 ("Unknown object type: " ++ OBJECT_TYPE_value object_type))
    end.
End Synthesizer.

(* ================================================================== *)
(** ** [app/services/embedding_service.py] *)

Record EmbeddingService := {
  embeddings_create : string -> result (list float)
}.

Definition _get_embedding (svc : EmbeddingService) (text : string) : Eff (list float) :=
  reraise_logged "Error calling OpenAI API"
    (call (EvEmbed text) (embeddings_create svc text)).

Definition generate_embedding (svc : EmbeddingService) (text : string) : Eff (list float) :=
  reraise_logged "Error generating embedding" (_get_embedding svc text).

(* ================================================================== *)
(** ** [app/services/pinecone_service.py] *)

Record PineconeService := {
  index_upsert : list Vector -> option string -> result pyval;
  index_query : list float -> Z -> option string -> result (list dict)
}.

Record UpsertResult := {
  total_upserted : nat;
  batches : list pyval
}.

(** [if namespace]: a namespace that is neither [None] nor empty. *)
Definition truthy_namespace (namespace : option string) : bool :=
  match namespace with
  | Some s => nonempty_str s
  | None => false
  end.

(** One turn of the loop of [upsert].  The loop variable [batch_size] is
    overwritten with the length of the batch just cut. *)
Definition upsert_step (svc : PineconeService) (vectors : list Vector)
    (namespace : option string) (st : nat * list pyval) (i : nat)
  : Eff (nat * list pyval) :=
  let '(batch_size, responses) := st in
  let batch := py_slice vectors i (i + batch_size) in
  batch_num <- (if Nat.eqb batch_size 0
                then raise (PyError "ZeroDivisionError" "integer division or modulo by zero")
                else ret (i / batch_size + 1)) ;;
  let batch_size := List.length batch in
  log "debug" "Upserting batch" ;;;
  response <- (if truthy_namespace namespace
               then call (EvIndexUpsert batch namespace) (index_upsert svc batch namespace)
               else call (EvIndexUpsert batch None) (index_upsert svc batch None)) ;;
  ret (batch_size, (responses ++ [response])%list).

(** [PineconeService.upsert(vectors, namespace)] *)
Definition PineconeService_upsert (svc : PineconeService) (vectors : list Vector)
    (namespace : option string) : Eff UpsertResult :=
  reraise_logged "Error upserting vectors to Pinecone"
    (let batch_size := 100 in
     let total_vectors := List.length vectors in
     log "info" "Upserting vectors to Pinecone" ;;;
     st <- for_each (py_range 0 total_vectors batch_size)
             (upsert_step svc vectors namespace) (batch_size, []) ;;
     log "info" "Successfully upserted vectors" ;;;
     ret {| total_upserted := total_vectors; batches := snd st |}).

(** [PineconeService.query(query_embedding, top_k, namespace)] *)
Definition PineconeService_query (svc : PineconeService) (query_embedding : list float)
    (top_k : Z) (namespace : option string) : Eff (list dict) :=
  reraise_logged "Error querying Pinecone"
    (log "info" "Querying Pinecone" ;;;
     matches <- (if truthy_namespace namespace
                 then call (EvIndexQuery query_embedding top_k namespace)
                        (index_query svc query_embedding top_k namespace)
                 else call (EvIndexQuery query_embedding top_k None)
                        (index_query svc query_embedding top_k None)) ;;
     log "info" "Query completed" ;;;
     ret matches).

(* ================================================================== *)
(** ** [app/services/cache_service.py] *)

Record CacheEntry := { response : string }.

Record CacheSearchResult := { data : list CacheEntry }.

(** The LangCache client. *)
Record LangCache := {
  lc_search : string -> result (option CacheSearchResult);
  lc_set : string -> string -> result unit
}.

Record CacheService := { client : option LangCache }.

(** [CacheService.__init__]: the constructor of the client is called
    outside any [try]. *)
Definition CacheService_init (LangCache_new : result LangCache) : Eff CacheService :=
  c <- lift_result LangCache_new ;;
  log "info" "Connected to Redis cache using LangCache" ;;;
  ret {| client := Some c |}.

(** [CacheService.get(query)] *)
Definition CacheService_get (self : CacheService) (query : string)
  : Eff (option CacheSearchResult) :=
  match client self with
  | None =>
      log "warning" "Cache connection not available, skipping cache get" ;;;
      ret None
  | Some c =>
      try_except
        (value <- call (EvCacheSearch query) (lc_search c query) ;;
         match value with
         | Some v =>
             if negb (Nat.eqb (List.length (data v)) 0)
             then log "info" "Cache hit for query" ;;; ret (Some v)
             else log "info" "Cache miss for query" ;;; ret None
         | None => log "info" "Cache miss for query" ;;; ret None
         end)
        (fun e => log "error" "Error getting from cache" ;;; ret None)
  end.

Section CacheSet.
Context `{PyRuntime}.

(** [CacheService.set(query, value)] *)
Definition CacheService_set (self : CacheService) (query : string) (value : pyval)
  : Eff bool :=
  match client self with
  | None =>
      log "warning" "Cache connection not available, skipping cache set" ;;;
      ret false
  | Some c =>
      try_except
        (payload <- match json_dumps value with
                    | Some s => ret s
                    | None => raise (PyError "TypeError" "not JSON serializable")
                    end ;;
         call (EvCacheSet query payload) (lc_set c query payload) ;;;
         log "info" "Cached value for query" ;;;
         ret true)
        (fun e => log "error" "Error setting cache" ;;; ret false)
  end.
End CacheSet.

(* ================================================================== *)
(** ** [app/api/ingest_routes.py] *)

Record IngestRequest := {
  ir_location_id : option string;
  ir_id : option string;
  ir_type : OBJECT_TYPE;
  ir_metadata : dict              (* [request.metadata.dict()] *)
}.

Record BatchIngestRequest := {
  br_location_id : option string;
  br_id : option string;
  br_type : OBJECT_TYPE;
  br_metadata : list dict
}.

Record StatusResponse := {
  status : string;
  message : string
}.

(** [location_id or 'orphan'] *)
Definition location_or_orphan (location_id : option string) : string :=
  match location_id with
  | Some s => if nonempty_str s then s else "orphan"
  | None => "orphan"
  end.

(** The namespace both ingest handlers compute:
    [type if type != PRODUCTS else f"{location_id or 'orphan'}-{type}"]. *)
Definition ingest_namespace (object_type : OBJECT_TYPE) (location_id : option string)
  : string :=
  if negb (OBJECT_TYPE_eqb object_type PRODUCTS)
  then OBJECT_TYPE_value object_type
  else location_or_orphan location_id ++ "-" ++ OBJECT_TYPE_value object_type.

(** [metadata.get("id") or metadata.get("databaseId") or metadata.get("zip")] *)
Definition identity_value (metadata : dict) : pyval :=
  py_or (py_or (dict_get metadata "id") (dict_get metadata "databaseId"))
        (dict_get metadata "zip").

Section Ingest.
Context `{PyRuntime}.
Variable generate_text_service : Templates.
Variable embedding_service : EmbeddingService.
Variable pinecone_service : PineconeService.

Definition vector_id (metadata : dict) : string := py_str (identity_value metadata).

Definition make_vector (metadata : dict) (embedding : list float) : Vector :=
  {| v_id := vector_id metadata;
     v_values := embedding;
     v_metadata := sanitize_metadata (VDict metadata) "" "_" |}.

(** [POST /ingest].  The call [pinecone_service.upsert(vectors=[vector],
    namespace=namespace)] is commented out in the handler: the vector and
    the namespace are computed, two lines are logged, and the handler
    answers. *)
Definition ingest_document (request : IngestRequest) : Eff StatusResponse :=
  try_except
    (let metadata := ir_metadata request in
     text <- generate_text generate_text_service metadata (ir_type request) ;;
     embedding <- generate_embedding embedding_service text ;;
     let vector := make_vector metadata embedding in
     let namespace := ingest_namespace (ir_type request) (ir_location_id request) in
     log "info" "Upserting vector" ;;;
     log "info" "Successfully ingested document" ;;;
     ret {| status := "success";
            message := OBJECT_TYPE_value (ir_type request) ++ " ingested successfully" |})
    (fun e =>
       log "error" "Error ingesting document" ;;;
       raise (HTTPException 500 (exn_str e))).

(** *** The batch pipeline of [POST /batch-ingest] *)

Definition batch_size : nat := 100.

(** [process_metadata(metadata)]: [Some vector] is what the worker puts on
    the queue; an exception is logged and swallowed. *)
Definition process_metadata (object_type : OBJECT_TYPE) (metadata : dict)
  : Eff (option Vector) :=
  try_except
    (text <- generate_text generate_text_service metadata object_type ;;
     log "debug" "Generated text for document" ;;;
     embedding <- generate_embedding embedding_service text ;;
     let vector := make_vector metadata embedding in
     log "info" "Processed document" ;;;
     ret (Some vector))
    (fun e => log "error" "Error processing document" ;;; ret None).

(** What a worker leaves on the queue for one record. *)
Definition produced (object_type : OBJECT_TYPE) (metadata : dict) : option Vector :=
  match outcome (process_metadata object_type metadata) with
  | Ok (Some v) => Some v
  | _ => None
  end.

Inductive thread_status := Running | Finished | Crashed.

(** The locals of [batch_upsert] and what the thread has sent out. *)
Record consumer := {
  vectors_to_upsert : list Vector;
  total_processed : nat;
  sent : list event;
  state : thread_status
}.

(** The body of [while total_processed < len(metadata_list)], for what
    [vector_queue.get(timeout=1)] gave: a vector, or [queue.Empty].  An
    exception of [pinecone_service.upsert] is not a [queue.Empty] and ends
    the thread. *)
Definition batch_upsert_body (n : nat) (namespace : string) (c : consumer)
    (got : option Vector) : consumer :=
  match got with
  | Some vector =>
      let vs := (vectors_to_upsert c ++ [vector])%list in
      let tp := total_processed c + 1 in
      if Nat.leb batch_size (List.length vs) || Nat.eqb tp n then
        match vs with
        | _ :: _ =>
            let call := PineconeService_upsert pinecone_service vs (Some namespace) in
            let out := (sent c ++ EvLog "info" "Upserting batch to Pinecone"
                               :: trace call)%list in
            match outcome call with
            | Ok _ =>
                {| vectors_to_upsert := []; total_processed := tp;
                   sent := out; state := Running |}
            | Raise _ =>
                {| vectors_to_upsert := vs; total_processed := tp;
                   sent := out; state := Crashed |}
            end
        | [] =>
            {| vectors_to_upsert := vs; total_processed := tp;
               sent := sent c; state := Running |}
        end
      else
        {| vectors_to_upsert := vs; total_processed := tp;
           sent := sent c; state := Running |}
  | None =>
      if Nat.ltb (total_processed c) n
      then c
      else {| vectors_to_upsert := vectors_to_upsert c;
              total_processed := total_processed c;
              sent := sent c; state := Finished |}
  end.

(** The threads of one job: the records no worker has taken yet, the
    queue, and the consumer. *)
Record pipeline := {
  pending : list dict;
  vector_queue : list Vector;
  cons : consumer
}.

Definition start (request : BatchIngestRequest) : pipeline :=
  {| pending := br_metadata request;
     vector_queue := [];
     cons := {| vectors_to_upsert := []; total_processed := 0;
                sent := []; state := Running |} |}.

Definition with_state (c : consumer) (s : thread_status) : consumer :=
  {| vectors_to_upsert := vectors_to_upsert c;
     total_processed := total_processed c;
     sent := sent c; state := s |}.

(** The interleavings of the worker pool and the consumer thread.  A
    worker takes any pending record; the consumer tests its loop
    condition and either leaves the loop or runs the body once, on the
    head of the queue or on [queue.Empty]. *)
Inductive step (request : BatchIngestRequest) : pipeline -> pipeline -> Prop :=
| step_worker : forall l1 m l2 q c,
    step request
      {| pending := l1 ++ m :: l2; vector_queue := q; cons := c |}
      {| pending := l1 ++ l2;
         vector_queue := match produced (br_type request) m with
                         | Some v => q ++ [v]
                         | None => q
                         end;
         cons := c |}
| step_get : forall p v q c,
    state c = Running ->
    total_processed c < List.length (br_metadata request) ->
    step request
      {| pending := p; vector_queue := v :: q; cons := c |}
      {| pending := p; vector_queue := q;
         cons := batch_upsert_body (List.length (br_metadata request))
                   (ingest_namespace (br_type request) (br_location_id request))
                   c (Some v) |}
| step_empty : forall p c,
    state c = Running ->
    total_processed c < List.length (br_metadata request) ->
    step request
      {| pending := p; vector_queue := []; cons := c |}
      {| pending := p; vector_queue := [];
         cons := batch_upsert_body (List.length (br_metadata request))
                   (ingest_namespace (br_type request) (br_location_id request))
                   c None |}
| step_exit : forall p q c,
    state c = Running ->
    ~ total_processed c < List.length (br_metadata request) ->
    step request
      {| pending := p; vector_queue := q; cons := c |}
      {| pending := p; vector_queue := q; cons := with_state c Finished |}.

Inductive reachable (request : BatchIngestRequest) : pipeline -> Prop :=
| reach_start : reachable request (start request)
| reach_step : forall s s',
    reachable request s -> step request s s' -> reachable request s'.

(** [POST /batch-ingest]: the handler starts the background thread, whose
    threads then run from [start request], and answers at once. *)
Definition batch_ingest_documents (request : BatchIngestRequest)
  : Eff StatusResponse * pipeline :=
  (try_except
     (log "info" "Starting background batch ingestion" ;;;
      ret {| status := "success";
             message := "Batch ingestion of "
                        ++ str_nat (List.length (br_metadata request)) ++ " "
                        ++ OBJECT_TYPE_value (br_type request)
                        ++ " documents started in background" |})
     (fun e =>
        log "error" "Error setting up batch ingestion" ;;;
        raise (HTTPException 500 (exn_str e))),
   start request).

(** The vectors the consumer has handed to the vector store so far. *)
Definition upserted (s : pipeline) : list Vector :=
  flat_map fst (index_upserts (sent (cons s))).

(** The records of a job for which a worker produces a vector. *)
Definition good_records (object_type : OBJECT_TYPE) (l : list dict) : nat :=
  List.length (filter (fun m => match produced object_type m with
                                | Some _ => true
                                | None => false
                                end) l).
End Ingest.

(* ================================================================== *)
(** ** [app/api/search_routes.py] *)

Record SearchRequest := {
  sr_query : string;
  sr_top_k : Z;
  sr_location_id : option string;
  sr_namespace : option OBJECT_TYPE
}.

Record SearchMatch := {
  sm_id : option string;
  sm_metadata : option dict;
  sm_score : option float;
  sm_values : list float
}.

Record SearchResponse := {
  results : list SearchMatch;
  query_rewritten : option string;
  total_results : nat
}.

(** [[request.namespace] if request.namespace != ALL else [PRODUCTS, BLOGS,
    STORES]] *)
Definition query_namespaces (namespace : option OBJECT_TYPE) : list (option OBJECT_TYPE) :=
  match namespace with
  | Some ALL => [Some PRODUCTS; Some BLOGS; Some STORES]
  | _ => [namespace]
  end.

(** [str(x)] and [f"{x}"] of an optional enum member or string. *)
Definition str_opt_type (namespace : option OBJECT_TYPE) : string :=
  match namespace with
  | Some t => OBJECT_TYPE_value t
  | None => "None"
  end.

Definition fmt_opt (o : option string) : string :=
  match o with
  | Some s => s
  | None => "None"
  end.

(** The namespace the search handler queries for one entry of
    [query_namespaces]. *)
Definition search_namespace (location_id : option string) (namespace : option OBJECT_TYPE)
  : string :=
  let namespace_str := str_opt_type namespace in
  if String.eqb namespace_str (OBJECT_TYPE_value PRODUCTS)
  then fmt_opt location_id ++ "-" ++ namespace_str
  else namespace_str.

(** [cached_results and cached_results.data and
    cached_results.data[0].response]: the stored response when all three are
    truthy. *)
Definition cache_hit (cached_results : option CacheSearchResult) : option string :=
  match cached_results with
  | Some v =>
      match data v with
      | e :: _ => if nonempty_str (response e) then Some (response e) else None
      | [] => None
      end
  | None => None
  end.

Section Search.
Context `{PyRuntime}.
(** pydantic's validation of [SearchMatch(id=.., metadata=.., score=..)]. *)
Variable SearchMatch_new : pyval -> pyval -> pyval -> result SearchMatch.
Variable executor : Executor.
Variable embedding_service : EmbeddingService.
Variable pinecone_service : PineconeService.
Variable cache_service : CacheService.

Definition cached_match (m : pyval) : Eff SearchMatch :=
  id <- lift_result (py_get m "id") ;;
  metadata <- lift_result (py_get m "metadata") ;;
  score <- lift_result (py_get m "score") ;;
  lift_result (SearchMatch_new id metadata score).

Definition fresh_match (m : dict) : Eff (pyval * SearchMatch) :=
  let id := dict_get m "id" in
  let metadata := dict_get m "metadata" in
  let score := dict_get m "score" in
  let result := VDict [("id", id); ("metadata", metadata); ("score", score)] in
  search_match <- lift_result (SearchMatch_new id metadata score) ;;
  ret (result, search_match).

(** The branch of the handler taken on a hit: decode the stored response,
    iterate over it, build the matches, answer. *)
Definition hit_branch (stored : string) : Eff SearchResponse :=
  cache_results <- match json_loads stored with
                   | Some v => ret v
                   | None => raise (PyError "JSONDecodeError" "invalid JSON")
                   end ;;
  entries <- lift_result (py_iter cache_results) ;;
  cached_matches <- map_eff cached_match entries ;;
  ret {| results := cached_matches;
         query_rewritten := None;
         total_results := List.length cached_matches |}.

(** [POST /search].  The per-namespace queries are handed to the executor
    in the order of [query_namespaces] and gathered. *)
Definition search_documents (request : SearchRequest) : Eff SearchResponse :=
  try_except
    (let query := sr_query request in
     let top_k := sr_top_k request in
     let namespaces := query_namespaces (sr_namespace request) in
     cached_results <- CacheService_get cache_service query ;;
     match cache_hit cached_results with
     | Some stored => hit_branch stored
     | None =>
         query_embedding <- generate_embedding embedding_service query ;;
         let tasks :=
           map (fun namespace =>
                  PineconeService_query pinecone_service query_embedding top_k
                    (Some (search_namespace (sr_location_id request) namespace)))
               namespaces in
         parallel_results <- gather executor tasks ;;
         let all_results := List.concat parallel_results in
         built <- map_eff fresh_match all_results ;;
         let cache_results := map fst built in
         let search_matches := map snd built in
         emit (EvAddTask query (VList cache_results)) ;;;
         ret {| results := search_matches;
                query_rewritten := None;
                total_results := List.length search_matches |}
     end)
    (fun e => raise (HTTPException 500 (exn_str e))).
End Search.

(* ================================================================== *)
(** ** Notions the properties are stated with *)

(** A step from a value to one of its members: a dict key or a list index. *)
Inductive comp :=
| Key (k : string)
| Idx (i : nat).

Definition comp_str (c : comp) : string :=
  match c with
  | Key k => k
  | Idx i => str_nat i
  end.

(** The ancestors of a leaf, root first, joined with the separator. *)
Definition join_path (sep : string) (p : list comp) : string :=
  String.concat sep (map comp_str p).

(** [leaf_at data p v]: following [p] from [data] ends at the scalar [v]. *)
Inductive leaf_at : pyval -> list comp -> pyval -> Prop :=
| leaf_here : forall v, is_scalar v = true -> leaf_at v [] v
| leaf_key : forall kvs k child p v,
    In (k, child) kvs -> leaf_at child p v -> leaf_at (VDict kvs) (Key k :: p) v
| leaf_idx : forall l i child p v,
    nth_error l i = Some child -> leaf_at child p v -> leaf_at (VList l) (Idx i :: p) v.

(** The key [sanitize_metadata] builds along a path, from the parent key it
    starts with. *)
Fixpoint path_key (sep parent_key : string) (p : list comp) : string :=
  match p with
  | [] => parent_key
  | Key k :: r =>
      path_key sep (if nonempty_str parent_key then parent_key ++ sep ++ k else k) r
  | Idx i :: r => path_key sep (parent_key ++ sep ++ str_nat i) r
  end.

(** A metadata record as the handlers pass it: a dict whose top-level keys
    are not empty (or a bare scalar). *)
Definition record_shaped (data : pyval) : Prop :=
  match data with
  | VList _ => False
  | VDict kvs => Forall (fun kv => fst kv <> "") kvs
  | _ => True
  end.

(** A flat map of scalars. *)
Definition flat (d : dict) : Prop :=
  wf_dict d /\ Forall (fun kv => is_scalar (snd kv) = true) d.

(** The three identity keys, in priority order. *)
Definition identity_candidates (metadata : dict) : list pyval :=
  [dict_get metadata "id"; dict_get metadata "databaseId"; dict_get metadata "zip"].

Definition first_non_null (l : list pyval) : option pyval :=
  find (fun v => negb (is_None v)) l.

Definition first_truthy (l : list pyval) : option pyval := find truthy l.

(* ------------------------------------------------------------------ *)
(** *** Fixed collaborators for the closed examples *)

(** A runtime whose float printer and [repr] answer a placeholder and whose
    JSON codec knows the texts used below. *)
#[local] Instance example_runtime : PyRuntime.
Proof.
  refine {| float_str := fun _ => "0.5";
            py_repr := fun _ => "_";
            json_loads := fun s =>
              if String.eqb s "[]" then Some (VList [])
              else if String.eqb s "[{}]" then Some (VList [VDict []])
              else None;
            json_dumps := fun v =>
              match v with
              | VList [] => Some "[]"
              | _ => None
              end |}.
  intros f; discriminate.
Defined.

(** [float(i)] for an [int]: the nearest float, ties to even. *)
Definition float_of_int (z : Z) : float :=
  SF2Prim (binary_normalize prec emax z 0 false).

Definition is_store_type (v : pyval) : bool :=
  match v with
  | VStr s | VEnum s =>
      String.eqb s "recreational" || String.eqb s "medical" || String.eqb s "both"
  | _ => false
  end.

(** A validator for the examples, after the fields [SearchMatch] declares:
    an id that is null or a string; metadata that is null or a dict whose
    [type] is a store type, as [MetaData] requires; a score that is null, a
    float, or an int that [float] can hold, which is converted. *)
Definition example_SearchMatch_new (id metadata score : pyval) : result SearchMatch :=
  let invalid := Raise (PyError "ValidationError" "validation error for SearchMatch") in
  let valid_id := match id with VNone | VStr _ | VEnum _ => true | _ => false end in
  let valid_metadata :=
    match metadata with
    | VNone => true
    | VDict d => is_store_type (dict_get d "type")
    | _ => false
    end in
  let valid_score :=
    match score with
    | VNone | VFloat _ => true
    | VInt z => Z.ltb (Z.abs z) (2 ^ 1024)
    | _ => false
    end in
  if valid_id && valid_metadata && valid_score
  then Ok {| sm_id := match id with VStr s | VEnum s => Some s | _ => None end;
             sm_metadata := match metadata with VDict d => Some d | _ => None end;
             sm_score := match score with
                         | VFloat f => Some f
                         | VInt z => Some (float_of_int z)
                         | _ => None
                         end;
             sm_values := [] |}
  else invalid.

Definition example_embedding : EmbeddingService :=
  {| embeddings_create := fun text =>
       if nonempty_str text then Ok [0.5%float]
       else Raise (PyError "BadRequestError" "empty input") |}.

Definition example_pinecone : PineconeService :=
  {| index_upsert := fun vs _ => Ok (VInt (Z.of_nat (List.length vs)));
     index_query := fun _ _ _ => Ok [] |}.

(** Two executors: one under which the calls run one after the other in the
    order of their submission, and one under which they run in the opposite
    order. *)
Definition in_order_executor : Executor.
Proof.
  assert (Hright : forall l : list event, merge [] l l).
  { induction l; constructor; assumption. }
  assert (Hleft : forall t l : list event, merge t l (t ++ l)%list).
  { induction t as [| x t IH]; intros l; cbn [app]; [apply Hright | constructor; apply IH]. }
  refine {| interleave := @List.concat event; first_raised := fun e _ => e |}.
  - induction ts as [| t ts IH]; [constructor |].
    cbn [List.concat]. econstructor; [exact IH | apply Hleft].
  - intros e es. now left.
Defined.

Definition last_first_executor : Executor.
Proof.
  assert (Hleft : forall t : list event, merge t [] t).
  { induction t; constructor; assumption. }
  assert (Hright : forall t l : list event, merge t l (l ++ t)%list).
  { intros t. induction l as [| x l IH]; cbn [app]; [apply Hleft | constructor; apply IH]. }
  refine {| interleave := fun ts => List.concat (rev ts);
            first_raised := fun e es => last (e :: es) e |}.
  - induction ts as [| t ts IH]; [constructor |].
    cbn [rev]. rewrite concat_app. cbn [List.concat]. rewrite app_nil_r.
    econstructor; [exact IH | apply Hright].
  - intros e es.
    assert (Hlast : forall l : list exn, l <> [] -> In (last l e) l).
    { induction l as [| x l IH]; intros Hl; [now destruct Hl |].
      destruct l as [| y l]; [now left |].
      right. change (last (x :: y :: l) e) with (last (y :: l) e).
      apply IH. discriminate. }
    apply Hlast. discriminate.
Defined.

(* ------------------------------------------------------------------ *)
(** *** Batches *)

(** The consecutive sublists of [n] elements of a list, the last one
    shorter when the length is not a multiple of [n]. *)
Definition consecutive_batches {A : Type} (n : nat) (l : list A) : list (list A) :=
  map (fun i => py_slice l i (i + n)) (py_range 0 (List.length l) n).

(** Every index of the list but the last leaves room for a batch of 100. *)
Fixpoint full_until_last (total : nat) (indices : list nat) : Prop :=
  match indices with
  | [] => True
  | i :: r =>
      match r with
      | [] => True
      | _ :: _ => i + 100 <= total /\ full_until_last total r
      end
  end.

(** The namespace argument the index receives. *)
Definition sent_namespace (namespace : option string) : option string :=
  if truthy_namespace namespace then namespace else None.

(** An index that answers every upsert. *)
Definition index_accepts (svc : PineconeService) : Prop :=
  forall batch namespace, exists r, index_upsert svc batch namespace = Ok r.

(** *** Records and requests of the closed examples *)

Definition nested_record : pyval :=
  VDict [("name", VStr "Red Shoes"); ("price", VNone);
         ("brand", VDict [("name", VStr "Acme")]);
         ("tags", VList [VStr "new"; VNone; VInt 7])].

Definition flat_record : dict :=
  [("name", VStr "Red Shoes"); ("price", VFloat 9.5%float); ("stock", VInt 3);
   ("type", VEnum "recreational"); ("active", VBool true)].

Definition example_vectors (n : nat) : list Vector :=
  map (fun i => {| v_id := str_nat i; v_values := [0.5%float]; v_metadata := [] |})
      (seq 0 n).

(** The request of the spec's scenario: a product without a location. *)
Definition red_shoes_request : IngestRequest :=
  {| ir_location_id := None;
     ir_id := None;
     ir_type := PRODUCTS;
     ir_metadata := [("type", VEnum "recreational"); ("id", VStr "p1");
                     ("name", VStr "Red Shoes");
                     ("brand", VDict [("name", VStr "Acme")])] |}.

(** A cache client that holds one stored response for every prompt, and a
    client whose calls fail. *)
Definition example_cache_client : LangCache :=
  {| lc_search := fun _ => Ok (Some {| data := [ {| response := "[{}]" |} ] |});
     lc_set := fun _ _ => Ok tt |}.

Definition failing_cache_client : LangCache :=
  {| lc_search := fun _ => Raise (PyError "ConnectionError" "cache unreachable");
     lc_set := fun _ _ => Raise (PyError "ConnectionError" "cache unreachable") |}.

Definition example_search_request : SearchRequest :=
  {| sr_query := "red shoes"; sr_top_k := 5%Z;
     sr_location_id := None; sr_namespace := Some PRODUCTS |}.

(** A job of two stores.  The second holds a null [state], on which
    [store_to_text] raises. *)
Definition one_bad_record_job : BatchIngestRequest :=
  {| br_location_id := None;
     br_id := None;
     br_type := STORES;
     br_metadata := [ [("type", VEnum "both"); ("id", VStr "s1");
                       ("title", VStr "Main Street")];
                      [("type", VEnum "both"); ("id", VStr "s2");
                       ("title", VStr "Elm Street"); ("state", VNone)] ] |}.

(** A job of two records that both go through. *)
Definition two_good_records_job : BatchIngestRequest :=
  {| br_location_id := Some "loc1";
     br_id := None;
     br_type := PRODUCTS;
     br_metadata := [ [("type", VEnum "medical"); ("id", VStr "p1");
                       ("name", VStr "Red Shoes")];
                      [("type", VEnum "medical"); ("id", VStr "p2");
                       ("name", VStr "Blue Hat")] ] |}.

(** No call to the index's upsert, no call to the embedding provider or to
    the index's query. *)
Definition no_upsert (e : event) : Prop := is_index_upsert e = false.

Definition no_embed_no_query (e : event) : Prop :=
  is_embed e = false /\ is_index_query e = false.

(** The job with one bad record once both workers are done and the consumer
    has taken the only vector off the queue. *)
Definition stuck_state : pipeline :=
  {| pending := [];
     vector_queue := [];
     cons := {| vectors_to_upsert :=
                  [ {| v_id := "s1"; v_values := [0.5%float];
                       v_metadata := [("type", VEnum "both"); ("id", VStr "s1");
                                      ("title", VStr "Main Street")] |} ];
                total_processed := 1;
                sent := [];
                state := Running |} |}.

(** What every state of a job with a bad record satisfies: the vectors
    consumed, queued and still to come do not exceed the good records; the
    consumer holds no more than it has consumed, and less than a batch
    while it runs; it has not left its loop; every batch it has handed to
    the index is a full one; and in a job that fits one batch it has sent
    nothing. *)
Definition waiting `{PyRuntime} (templates : Templates)
    (embedding_service : EmbeddingService) (request : BatchIngestRequest)
    (s : pipeline) : Prop :=
  total_processed (cons s) + List.length (vector_queue s)
    + good_records templates embedding_service (br_type request) (pending s)
    <= good_records templates embedding_service (br_type request) (br_metadata request) /\
  List.length (vectors_to_upsert (cons s)) <= total_processed (cons s) /\
  state (cons s) <> Finished /\
  (state (cons s) = Running -> List.length (vectors_to_upsert (cons s)) < batch_size) /\
  Forall (fun call => List.length (fst call) = batch_size)
         (index_upserts (sent (cons s))) /\
  (List.length (br_metadata request) <= batch_size ->
   sent (cons s) = [] /\ state (cons s) = Running).

(* ================================================================== *)
(** ** Further code of the same files *)

(** *** [app/utils/common.py]: [safe_get] *)

(** [safe_get(d, *keys, default=default)].  [cur.get(k, default)] answers
    the default for a missing key only; a key present with [None] is caught
    by the test that follows. *)
Fixpoint safe_get (cur : pyval) (keys : list string) (default : pyval) : pyval :=
  match keys with
  | [] => cur
  | k :: r =>
      match cur with
      | VDict d =>
          let cur' := match dict_lookup d k with
                      | Some v => v
                      | None => default
                      end in
          if is_None cur' then default else safe_get cur' r default
      | _ => default
      end
  end.

Definition is_dict (v : pyval) : bool :=
  match v with VDict _ => true | _ => false end.

(** [isinstance(v, str)]; a [StrEnum] member is one. *)
Definition is_str (v : pyval) : bool :=
  match v with VStr _ | VEnum _ => true | _ => false end.

(** *** [app/services/embedding_service.py]: [generate_embeddings] *)

Definition generate_embeddings (svc : EmbeddingService) (texts : list string)
  : Eff (list (list float)) :=
  reraise_logged "Error generating batch embeddings"
    (for_each texts
       (fun embeddings text =>
          embedding <- _get_embedding svc text ;;
          ret (embeddings ++ [embedding])%list)
       []).

(** The texts sent to the embedding provider and the queries sent to the
    index, in order. *)
Definition embed_calls (t : list event) : list string :=
  flat_map (fun e => match e with EvEmbed text => [text] | _ => [] end) t.

Definition index_queries (t : list event) : list (list float * Z * option string) :=
  flat_map (fun e => match e with
                     | EvIndexQuery v k ns => [(v, k, ns)]
                     | _ => []
                     end) t.

Definition cache_tasks (t : list event) : list (string * pyval) :=
  flat_map (fun e => match e with EvAddTask q v => [(q, v)] | _ => [] end) t.

(** *** [app/services/__init__.py]: the cache service singleton *)

(** [get_cache_service()], from the module global [_cache_service] to the
    service returned and the global afterwards.  An exception of the
    constructor leaves the global as it was. *)
Definition get_cache_service (_cache_service : option CacheService)
    (LangCache_new : result LangCache) : Eff CacheService * option CacheService :=
  match _cache_service with
  | None =>
      let made := CacheService_init LangCache_new in
      (made, match outcome made with
             | Ok svc => Some svc
             | Raise _ => None
             end)
  | Some svc => (ret svc, Some svc)
  end.

(** *** [app/services/generate_text_service.py]: [store_to_text] *)

Definition rbind {A B : Type} (r : result A) (k : A -> result B) : result B :=
  match r with
  | Ok a => k a
  | Raise e => Raise e
  end.

(** [sep.join(items)]: raises unless every item is a [str]. *)
Fixpoint py_join_items (items : list pyval) : result (list string) :=
  match items with
  | [] => Ok []
  | VStr s :: r | VEnum s :: r =>
      rbind (py_join_items r) (fun l => Ok (s :: l))
  | _ :: _ => Raise (PyError "TypeError" "sequence item: expected str instance")
  end.

Definition py_join (sep : string) (items : list pyval) : result string :=
  rbind (py_join_items items) (fun l => Ok (String.concat sep l)).

Definition is_lower (c : ascii) : bool :=
  let n := nat_of_ascii c in Nat.leb 97 n && Nat.leb n 122.

Definition is_upper (c : ascii) : bool :=
  let n := nat_of_ascii c in Nat.leb 65 n && Nat.leb n 90.

Definition to_upper (c : ascii) : ascii :=
  if is_lower c then ascii_of_nat (nat_of_ascii c - 32) else c.

Definition to_lower (c : ascii) : ascii :=
  if is_upper c then ascii_of_nat (nat_of_ascii c + 32) else c.

(** [s.title()] on ASCII text: a letter after a letter is lowered, any other
    letter is raised. *)
Fixpoint title_from (after_letter : bool) (s : string) : string :=
  match s with
  | EmptyString => EmptyString
  | String c r =>
      if is_lower c || is_upper c
      then String (if after_letter then to_lower c else to_upper c) (title_from true r)
      else String c (title_from false r)
  end.

Definition py_title (s : string) : string := title_from false s.

Definition week : list string :=
  ["monday"; "tuesday"; "wednesday"; "thursday"; "friday"; "saturday"; "sunday"].

Section StoreText.
Context `{PyRuntime}.

(** [if store.get(key): parts.append(f"{label}{store[key]}")] *)
Definition labelled (store : dict) (label key : string) (parts : list string)
  : list string :=
  if truthy (dict_get store key)
  then (parts ++ [(label ++ py_str (dict_get store key))%string])%list
  else parts.

(** [if store.get(key): address_bits.append(store[key])] *)
Definition address_bit (store : dict) (key : string) (bits : list pyval) : list pyval :=
  if truthy (dict_get store key) then (bits ++ [dict_get store key])%list else bits.

(** The loop over the days of the week. *)
Fixpoint hours_loop (hours : dict) (days : list string) (hours_parts : list string)
  : result (list string) :=
  match days with
  | [] => Ok hours_parts
  | day :: r =>
      if dict_mem hours day then
        rbind (py_get (dict_get hours day) "open") (fun open_t =>
        rbind (py_get (dict_get hours day) "closed") (fun close_t =>
        hours_loop hours r
          (if truthy open_t && truthy close_t
           then (hours_parts
                   ++ [(py_title day ++ " " ++ py_str open_t ++ " - "
                          ++ py_str close_t)%string])%list
           else hours_parts)))
      else hours_loop hours r hours_parts
  end.

(** [store_to_text(store)] *)
Definition source_store_to_text (store : dict) : result string :=
  let parts := labelled store "Store: " "title" [] in
  let parts := labelled store "Slug: " "slug" parts in
  let parts := labelled store "Status: " "location_status" parts in
  let address_bits := address_bit store "address_1" [] in
  let address_bits := address_bit store "city" address_bits in
  rbind (py_get (match dict_lookup store "state" with
                 | Some v => v
                 | None => VDict []
                 end) "abbr") (fun abbr =>
  let address_bits :=
    if truthy abbr then (address_bits ++ [abbr])%list else address_bits in
  let address_bits := address_bit store "zip" address_bits in
  rbind (match address_bits with
         | [] => Ok parts
         | _ :: _ =>
             rbind (py_join ", " address_bits) (fun joined =>
             Ok (parts ++ [("Address: " ++ joined)%string])%list)
         end) (fun parts =>
  let parts := labelled store "Type: " "type" parts in
  let parts := labelled store "Medical Store ID: " "medicalStoreId" parts in
  let parts := labelled store "Recreational Store ID: " "recreationalStoreId" parts in
  rbind (match dict_lookup store "hours" with
         | Some (VDict hours) =>
             rbind (hours_loop hours week []) (fun hours_parts =>
             match hours_parts with
             | [] => Ok parts
             | _ :: _ =>
                 Ok (parts ++ [("Hours: " ++ String.concat "; " hours_parts)%string])%list
             end)
         | _ => Ok parts
         end) (fun parts =>
  Ok (String.concat " | " parts)))).

End StoreText.

(** *** [app/services/generate_text_service.py]: the description templates *)

(** [re.sub(r"<[^>]*>", "", s)]: a [<] is dropped with everything up to the
    first [>] after it; a [<] with no [>] after it stays.  [tag] holds the
    text read since an open [<]. *)
Fixpoint drop_tags (tag : option string) (s : string) : string :=
  match s with
  | EmptyString => match tag with Some held => held | None => EmptyString end
  | String c r =>
      match tag with
      | None =>
          if Ascii.eqb c "<"
          then drop_tags (Some (String c EmptyString)) r
          else String c (drop_tags None r)
      | Some held =>
          if Ascii.eqb c ">"
          then drop_tags None r
          else drop_tags (Some (held ++ String c EmptyString)) r
      end
  end.

Section Descriptions.
Context `{PyRuntime}.

(** [if is_nonempty(v): parts.append(f"{before}{v}{after}")] *)
Definition described (v : pyval) (before after : string) (parts : list string)
  : list string :=
  if is_nonempty v
  then (parts ++ [(before ++ py_str v ++ after)%string])%list
  else parts.

(** [if isinstance(v, list) and v: parts.append(f"{label} approx {v[0]}%")
    elif is_nonempty(v): parts.append(f"{label} approx {v}%")] *)
Definition lab_value (v : pyval) (label : string) (parts : list string) : list string :=
  match v with
  | VList (first :: _) =>
      (parts ++ [(label ++ " approx " ++ py_str first ++ "%")%string])%list
  | _ => described v (label ++ " approx ") "%" parts
  end.

(** The block on the first variant. *)
Definition variant_parts (product : dict) (parts : list string) : result (list string) :=
  let variant_list := match dict_lookup product "variants" with
                      | Some v => v
                      | None => VList []
                      end in
  match variant_list with
  | VList (var0 :: _) =>
      rbind (py_get var0 "name") (fun vname =>
      let parts := described vname "available as " "" parts in
      let thc := safe_get var0 ["labTests"; "thc"; "value"] VNone in
      let parts := lab_value thc "THC" parts in
      let cbd := safe_get var0 ["labTests"; "cbd"; "value"] VNone in
      let parts := lab_value cbd "CBD" parts in
      rbind (py_get var0 "price") (fun price =>
      let parts := described price "price " "" parts in
      rbind (py_get var0 "promoPrice") (fun promo =>
      Ok (described promo "promo " "" parts))))
  | _ => Ok parts
  end.

(** [[t.get("name") for t in terpenes if is_nonempty(t.get("name"))]] *)
Fixpoint terpene_names (terpenes : list pyval) : result (list pyval) :=
  match terpenes with
  | [] => Ok []
  | t :: r =>
      rbind (py_get t "name") (fun name =>
      rbind (terpene_names r) (fun names =>
      Ok (if is_nonempty name then name :: names else names)))
  end.

Definition terpene_parts (product : dict) (parts : list string) : result (list string) :=
  match safe_get (VDict product) ["strain"; "terpenes"] VNone with
  | VList (t :: r) =>
      rbind (terpene_names (t :: r)) (fun terp_names =>
      match terp_names with
      | [] => Ok parts
      | _ :: _ =>
          let top := firstn 5 terp_names in
          rbind (py_join ", " top) (fun joined =>
          Ok (parts ++ [("terpenes: " ++ joined)%string])%list)
      end)
  | _ => Ok parts
  end.

(** The [parts] of [product_to_semantic_texts(product)]. *)
Definition source_product_parts (product : dict) : result (list string) :=
  let parts := described (dict_get product "name") "" "" [] in
  let parts := described (dict_get product "type") "is a " " product" parts in
  let brand := safe_get (VDict product) ["brand"; "name"] VNone in
  let parts := described brand "by " "" parts in
  let strain_prev := safe_get (VDict product) ["strain"; "prevalence"; "name"] VNone in
  let parts := described strain_prev "of type " "" parts in
  let category := safe_get (VDict product) ["category"; "name"] VNone in
  let subcategory := safe_get (VDict product) ["subcategory"; "name"] VNone in
  let parts :=
    if is_nonempty category then
      if is_nonempty subcategory
      then (parts ++ [("in category " ++ py_str category ++ " > "
                         ++ py_str subcategory)%string])%list
      else (parts ++ [("in category " ++ py_str category)%string])%list
    else parts in
  rbind (variant_parts product parts) (fun parts =>
  terpene_parts product parts).

(** The excerpt of a post, without its tags. *)
Definition excerpt_parts (excerpt : pyval) (parts : list string) : result (list string) :=
  if is_nonempty excerpt then
    match excerpt with
    | VStr s | VEnum s =>
        let clean_excerpt := strip (drop_tags None s) in
        Ok (parts ++ [("Excerpt: " ++ clean_excerpt)%string])%list
    | _ => Raise (PyError "TypeError" "expected string or bytes-like object")
    end
  else Ok parts.

Definition category_parts (post : dict) (parts : list string) : result (list string) :=
  match safe_get (VDict post) ["categories"; "edges"] (VList []) with
  | VList (edge :: r) =>
      let cat_names := map (fun edge => safe_get edge ["node"; "name"] VNone) (edge :: r) in
      let cat_names := filter is_nonempty cat_names in
      match cat_names with
      | [] => Ok parts
      | _ :: _ =>
          rbind (py_join ", " cat_names) (fun joined =>
          Ok (parts ++ [("in categories: " ++ joined)%string])%list)
      end
  | _ => Ok parts
  end.

(** The [parts] of [post_to_semantic_texts(post)]. *)
Definition source_post_parts (post : dict) : result (list string) :=
  let parts := described (dict_get post "title") "Blog post titled '" "'" [] in
  rbind (excerpt_parts (dict_get post "excerpt") parts) (fun parts =>
  let author := safe_get (VDict post) ["author"; "node"; "nickname"] VNone in
  let parts := described author "written by " "" parts in
  let parts := described (dict_get post "date") "published on " "" parts in
  rbind (category_parts post parts) (fun parts =>
  let featured_alt := safe_get (VDict post) ["featuredImage"; "node"; "altText"] VNone in
  Ok (described featured_alt "featured image showing " "" parts))).

(** The templates of the source. *)
Definition source_templates : Templates :=
  {| product_parts := source_product_parts;
     post_parts := source_post_parts;
     store_to_text := source_store_to_text |}.
End Descriptions.

(** *** The batch pipeline: what the workers produce *)

(** The vectors the workers produce for a list of records, in the order of
    the records. *)
Definition vectors_of `{PyRuntime} (templates : Templates)
    (embedding_service : EmbeddingService) (object_type : OBJECT_TYPE) (l : list dict)
  : list Vector :=
  flat_map (fun m => match produced templates embedding_service object_type m with
                     | Some v => [v]
                     | None => []
                     end) l.

(** A store as the listings have it, and the same with its zip as a number. *)
Definition example_store : dict :=
  [("type", VEnum "both"); ("title", VStr "Main Street"); ("slug", VStr "main-street");
   ("address_1", VStr "1 Main St"); ("city", VStr "Springfield");
   ("state", VDict [("abbr", VStr "IL")]); ("zip", VStr "62701");
   ("hours", VDict [("monday", VDict [("open", VStr "9am"); ("closed", VStr "9pm")]);
                    ("sunday", VDict [("open", VNone); ("closed", VStr "5pm")])])].

Definition numeric_zip_store : dict :=
  [("type", VEnum "both"); ("title", VStr "Main Street"); ("zip", VInt 62701)].

Definition null_state_store : dict :=
  [("type", VEnum "both"); ("title", VStr "Main Street"); ("state", VNone)].

Definition nested_product : pyval :=
  VDict [("brand", VDict [("name", VStr "Acme")]);
         ("strain", VDict [("prevalence", VNone)])].

(** An event that is a log line. *)
Definition is_log (e : event) : Prop :=
  match e with EvLog _ _ => True | _ => False end.

(** Anything but the scheduling of a cache write. *)
Definition no_cache_task (e : event) : Prop :=
  match e with EvAddTask _ _ => False | _ => True end.

(** A computation that, if it raises, has sent out only events of [Q]. *)
Definition raises_within {A : Type} (Q : event -> Prop) (m : Eff A) : Prop :=
  forall e, outcome m = Raise e -> Forall Q (trace m).

(** The dict the search handler builds for a match of the index. *)
Definition match_record (m : dict) : pyval :=
  VDict [("id", dict_get m "id"); ("metadata", dict_get m "metadata");
         ("score", dict_get m "score")].

Definition all_request : IngestRequest :=
  {| ir_location_id := None; ir_id := None; ir_type := ALL;
     ir_metadata := [("type", VEnum "both"); ("id", VStr "x1")] |}.

(** An index that holds one match in every namespace. *)
Definition one_match_pinecone : PineconeService :=
  {| index_upsert := fun vs _ => Ok (VInt (Z.of_nat (List.length vs)));
     index_query := fun _ _ _ =>
       Ok [ [("id", VStr "p1"); ("score", VFloat 0.5%float)] ] |}.

Definition all_search_request : SearchRequest :=
  {| sr_query := "red shoes"; sr_top_k := 5%Z;
     sr_location_id := Some "loc1"; sr_namespace := Some ALL |}.

(** The branch of [search_documents] taken on a miss: embed the query, hand
    one query per namespace to the executor, gather, build the matches,
    schedule the cache write, answer. *)
Definition miss_branch `{PyRuntime}
    (SearchMatch_new : pyval -> pyval -> pyval -> result SearchMatch)
    (executor : Executor)
    (embedding_service : EmbeddingService) (pinecone_service : PineconeService)
    (request : SearchRequest) : Eff SearchResponse :=
  query_embedding <- generate_embedding embedding_service (sr_query request) ;;
  parallel_results <-
    gather executor
      (map (fun namespace =>
              PineconeService_query pinecone_service query_embedding (sr_top_k request)
                (Some (search_namespace (sr_location_id request) namespace)))
           (query_namespaces (sr_namespace request))) ;;
  built <- map_eff (fresh_match SearchMatch_new) (List.concat parallel_results) ;;
  emit (EvAddTask (sr_query request) (VList (map fst built))) ;;;
  ret {| results := map snd built;
         query_rewritten := None;
         total_results := List.length (map snd built) |}.

(** The fields of a store that [store_to_text] reads. *)
Definition store_fields : list string :=
  ["title"; "slug"; "location_status"; "address_1"; "city"; "state"; "zip"; "type";
   "medicalStoreId"; "recreationalStoreId"; "hours"].

(** The fields whose values are joined into the address line. *)
Definition address_fields : list string := ["address_1"; "city"; "zip"].

(** An event of a query of the index: the call, or a log line. *)
Definition query_event (e : event) : Prop :=
  match e with
  | EvLog _ _ | EvIndexQuery _ _ _ => True
  | _ => False
  end.

(** A stored response that the hit branch cannot read: it is not JSON, or
    what it decodes to cannot be iterated, or an item of it is not a dict. *)
Definition unreadable `{PyRuntime} (stored : string) : Prop :=
  match json_loads stored with
  | None => True
  | Some v =>
      match py_iter v with
      | Raise _ => True
      | Ok entries => Exists (fun entry => is_dict entry = false) entries
      end
  end.

(** What can stop a search, given what the cache answered, with the detail
    of the HTTP error it ends in.  On a hit: a stored response that cannot
    be read, or a stored entry that is not a valid match.  On a miss: the
    embedding provider refusing the query, the index refusing the query of
    one of the namespaces, or a match of the index that is not valid.  But
    for the first, the detail is the message of the exception of the
    collaborator. *)
Inductive stopped_by `{PyRuntime}
    (SearchMatch_new : pyval -> pyval -> pyval -> result SearchMatch)
    (embedding_service : EmbeddingService) (pinecone_service : PineconeService)
    (request : SearchRequest) (cached : option CacheSearchResult) : string -> Prop :=
| stopped_by_stored (stored detail : string) :
    cache_hit cached = Some stored -> unreadable stored ->
    stopped_by SearchMatch_new embedding_service pinecone_service request cached detail
| stopped_by_entry (stored : string) (v : pyval) (entries : list pyval) (entry : dict)
    (e : exn) :
    cache_hit cached = Some stored ->
    json_loads stored = Some v -> py_iter v = Ok entries -> In (VDict entry) entries ->
    SearchMatch_new (dict_get entry "id") (dict_get entry "metadata")
      (dict_get entry "score") = Raise e ->
    stopped_by SearchMatch_new embedding_service pinecone_service request cached
      (exn_str e)
| stopped_by_embedding (e : exn) :
    cache_hit cached = None ->
    embeddings_create embedding_service (sr_query request) = Raise e ->
    stopped_by SearchMatch_new embedding_service pinecone_service request cached
      (exn_str e)
| stopped_by_index (query_embedding : list float) (namespace : option OBJECT_TYPE)
    (e : exn) :
    cache_hit cached = None ->
    embeddings_create embedding_service (sr_query request) = Ok query_embedding ->
    In namespace (query_namespaces (sr_namespace request)) ->
    index_query pinecone_service query_embedding (sr_top_k request)
      (Some (search_namespace (sr_location_id request) namespace)) = Raise e ->
    stopped_by SearchMatch_new embedding_service pinecone_service request cached
      (exn_str e)
| stopped_by_match (query_embedding : list float) (namespace : option OBJECT_TYPE)
    (ms : list dict) (m : dict) (e : exn) :
    cache_hit cached = None ->
    embeddings_create embedding_service (sr_query request) = Ok query_embedding ->
    In namespace (query_namespaces (sr_namespace request)) ->
    index_query pinecone_service query_embedding (sr_top_k request)
      (Some (search_namespace (sr_location_id request) namespace)) = Ok ms ->
    In m ms ->
    SearchMatch_new (dict_get m "id") (dict_get m "metadata") (dict_get m "score")
      = Raise e ->
    stopped_by SearchMatch_new embedding_service pinecone_service request cached
      (exn_str e).

(** An index that does not know the stores, and one that has gone away. *)
Definition no_stores_pinecone : PineconeService :=
  {| index_upsert := fun vs _ => Ok (VInt (Z.of_nat (List.length vs)));
     index_query := fun _ _ namespace =>
       match namespace with
       | Some "stores" => Raise (PyError "NotFoundException" "namespace not found")
       | _ => Ok [ [("id", VStr "p1"); ("score", VFloat 0.5%float)] ]
       end |}.

(** A product and a post with the fields the templates render. *)
Definition blue_dream_product : dict :=
  [("type", VEnum "medical"); ("id", VStr "p7"); ("name", VStr "Blue Dream");
   ("brand", VDict [("name", VStr "Acme")]);
   ("strain", VDict [("prevalence", VDict [("name", VStr "Sativa")]);
                     ("terpenes", VList [VDict [("name", VStr "Myrcene")];
                                         VDict [("name", VStr "")];
                                         VDict [("name", VStr "Limonene")]])]);
   ("category", VDict [("name", VStr "Flower")]);
   ("subcategory", VDict [("name", VStr "Pre-rolls")]);
   ("variants", VList [VDict [("name", VStr "1g");
                              ("labTests", VDict [("thc", VDict [("value", VList [VInt 21])]);
                                                  ("cbd", VDict [("value", VStr "0.1")])]);
                              ("price", VInt 12); ("promoPrice", VNone)]])].

Definition hello_post : dict :=
  [("type", VEnum "both"); ("id", VStr "b1"); ("title", VStr "Hello");
   ("excerpt", VStr "<p>Hi <b>there</b></p> ");
   ("author", VDict [("node", VDict [("nickname", VStr "sam")])]);
   ("date", VStr "2024-01-01");
   ("categories", VDict [("edges", VList [VDict [("node", VDict [("name", VStr "News")])];
                                          VDict [("node", VDict [])]])]);
   ("featuredImage", VDict [("node", VDict [("altText", VStr "a leaf")])])].

(* ================================================================== *)
(** * Properties *)

(** ** Namespace routing *)

Lemma ingest_namespace_other (t : OBJECT_TYPE) (loc : option string) :
  t <> PRODUCTS -> ingest_namespace t loc = OBJECT_TYPE_value t.
Proof. destruct t; intros Ht; try reflexivity. now elim Ht. Qed.

Lemma search_namespace_other (t : OBJECT_TYPE) (loc : option string) :
  t <> PRODUCTS -> search_namespace loc (Some t) = OBJECT_TYPE_value t.
Proof. destruct t; intros Ht; try reflexivity. now elim Ht. Qed.

(** The two handlers agree on blogs and stores, and on products of a
    request that names a location. *)
Lemma namespace_agree_located (t : OBJECT_TYPE) (loc : string) :
  loc <> "" -> ingest_namespace t (Some loc) = search_namespace (Some loc) (Some t).
Proof.
  intros Hloc. destruct t; try reflexivity.
  unfold ingest_namespace, search_namespace; simpl.
  destruct loc; [now elim Hloc | reflexivity].
Qed.

(** C1.  A product ingested without a location is written to
    ["orphan-products"], while a search for products without a location
    queries ["None-products"]: on this input the namespace of the ingest
    path and that of the search path differ. *)
Theorem namespace_orphan_mismatch :
  ingest_namespace PRODUCTS None = "orphan-products" /\
  map (search_namespace None) (query_namespaces (Some PRODUCTS)) = ["None-products"] /\
  ingest_namespace PRODUCTS None <> search_namespace None (Some PRODUCTS).
Proof. repeat split. discriminate. Qed.

(** The same holds for the product part of a search over all namespaces and
    for an empty location. *)
Lemma namespace_orphan_mismatch_all :
  map (search_namespace None) (query_namespaces (Some ALL))
    = ["None-products"; "blogs"; "stores"] /\
  ingest_namespace PRODUCTS (Some "") = "orphan-products" /\
  search_namespace (Some "") (Some PRODUCTS) = "-products".
Proof. repeat split. Qed.

(* ------------------------------------------------------------------ *)
(** ** Vector identity *)

Lemma str_int_nonempty (z : Z) : str_int z <> "".
Proof.
  unfold str_int. destruct (Z.to_int z) as [d | d]; simpl.
  - destruct d; discriminate.
  - discriminate.
Qed.

Section Identity.
Context `{PyRuntime}.

Lemma py_str_truthy_nonempty (v : pyval) : truthy v = true -> py_str v <> "".
Proof.
  destruct v; simpl; intros Hv; try discriminate.
  - destruct b; discriminate.
  - apply str_int_nonempty.
  - apply float_str_nonempty.
  - destruct s; discriminate.
  - destruct value; discriminate.
Qed.

Lemma identity_value_first_truthy (metadata : dict) (v : pyval) :
  first_truthy (identity_candidates metadata) = Some v -> identity_value metadata = v.
Proof.
  unfold first_truthy, identity_candidates, identity_value, py_or; simpl.
  destruct (truthy (dict_get metadata "id")) eqn:E1; simpl.
  - rewrite E1. now intros [= <-].
  - destruct (truthy (dict_get metadata "databaseId")) eqn:E2; simpl.
    + now intros [= <-].
    + destruct (truthy (dict_get metadata "zip")) eqn:E3; [now intros [= <-] | discriminate].
Qed.

(** C8, as the code has it.  The vector id is the string form of the first
    of [id], [databaseId], [zip] whose value is truthy (present, not null,
    and neither [0], [""] nor another falsy value), and it is then a
    non-empty string. *)
Theorem vector_id_first_truthy (metadata : dict) (v : pyval) :
  first_truthy (identity_candidates metadata) = Some v ->
  vector_id metadata = py_str v /\ vector_id metadata <> "".
Proof.
  intros Hv. unfold vector_id.
  rewrite (identity_value_first_truthy _ _ Hv). split; [reflexivity |].
  apply py_str_truthy_nonempty.
  unfold first_truthy in Hv. now apply find_some in Hv.
Qed.
End Identity.

Lemma vector_id_first_truthy_witness :
  first_truthy (identity_candidates [("id", VInt 0); ("databaseId", VStr "db7")])
    = Some (VStr "db7") /\
  vector_id [("id", VInt 0); ("databaseId", VStr "db7")] = "db7" /\
  vector_id [("id", VInt 0); ("databaseId", VStr "db7")] <> "".
Proof.
  split; [reflexivity |].
  apply (vector_id_first_truthy [("id", VInt 0); ("databaseId", VStr "db7")] (VStr "db7")).
  reflexivity.
Defined.

(** C8, as the claim has it, fails: a present [id] of [0] is passed over for
    [databaseId], and a record whose only identity key is [id = ""] gets the
    id ["None"]. *)
Lemma vector_id_not_first_non_null :
  ~ (forall metadata v,
       first_non_null (identity_candidates metadata) = Some v ->
       vector_id metadata = py_str v).
Proof.
  intros Hclaim.
  specialize (Hclaim [("id", VInt 0); ("databaseId", VStr "db7")] (VInt 0) eq_refl).
  discriminate Hclaim.
Qed.

Lemma vector_id_None_string :
  vector_id [("id", VStr "")] = "None" /\ vector_id [] = "None" /\
  vector_id [("id", VInt 0); ("zip", VStr "")] = "".
Proof. repeat split. Qed.

(* ------------------------------------------------------------------ *)
(** ** The values-only string *)

Section Values.
Context `{PyRuntime}.

Lemma collect_values_dict (kvs : dict) : collect_values (VDict kvs) = Some [].
Proof. reflexivity. Qed.

Lemma collect_values_list (l : list pyval) : collect_values (VList l) = Some [].
Proof. reflexivity. Qed.

(** C5.  On a record, which is a dict, [collect_values] returns the empty
    list whatever the record holds, and the synthesized text is the
    description followed by a single blank: no leaf value of the record
    reaches the values-only string. *)
Theorem collect_values_record_empty (record : dict) (parts : list string) :
  collect_values (VDict record) = Some [] /\
  semantic_text parts (VDict record) = Ok ((String.concat ". " parts ++ ".") ++ " ").
Proof. split; reflexivity. Qed.
End Values.

(** The record of the spec's scenario: its leaves never show. *)
Example collect_values_red_shoes :
  let record := [("type", VEnum "recreational"); ("id", VStr "p1");
                 ("name", VStr "Red Shoes"); ("brand", VDict [("name", VStr "Acme")])] in
  collect_values (VDict record) = Some [] /\
  product_to_semantic_texts source_templates record
    = Ok "Red Shoes. is a recreational product. by Acme. ".
Proof. split; reflexivity. Qed.

(** The templates of the source on a product and on a post that carry the
    fields they render; a product whose first variant is not a dict, and a
    post whose excerpt is not a text, are rejected. *)
Example source_templates_texts :
  product_to_semantic_texts source_templates blue_dream_product
    = Ok "Blue Dream. is a medical product. by Acme. of type Sativa. in category Flower > Pre-rolls. available as 1g. THC approx 21%. CBD approx 0.1%. price 12. terpenes: Myrcene, Limonene. " /\
  post_to_semantic_texts source_templates hello_post
    = Ok "Blog post titled 'Hello'. Excerpt: Hi there. written by sam. published on 2024-01-01. in categories: News. featured image showing a leaf. " /\
  (exists msg,
     product_to_semantic_texts source_templates [("variants", VList [VStr "1g"])]
       = Raise (PyError "AttributeError" msg)) /\
  (exists msg,
     post_to_semantic_texts source_templates [("excerpt", VInt 7)]
       = Raise (PyError "TypeError" msg)).
Proof. repeat split; eexists; reflexivity. Qed.

(** White space and digits beyond ASCII: a lone no-break space is an empty
    text, and a superscript two is a digit. *)
Example strip_and_isdigit_latin1 :
  is_nonempty (VStr (String (ascii_of_nat 160) EmptyString)) = false /\
  isdigit (String (ascii_of_nat 178) EmptyString) = true /\
  strip (String (ascii_of_nat 133) "a ") = "a".
Proof. repeat split. Qed.

(** On a bare scalar the function does what its branches say. *)
Example collect_values_scalars :
  collect_values (VStr " Red Shoes ") = Some ["Red Shoes"] /\
  collect_values (VEnum "medical") = Some ["medical"] /\
  collect_values (VInt 2024) = Some ["2024"] /\
  collect_values (VStr "123456") = None /\
  collect_values (VStr "  ") = Some [].
Proof. repeat split. Qed.

(* ------------------------------------------------------------------ *)
(** ** The metadata sanitizer *)

Lemma str_app_assoc (a b c : string) : (a ++ b) ++ c = a ++ b ++ c.
Proof. induction a; simpl; [reflexivity | now rewrite IHa]. Qed.

Lemma str_app_nonempty (a b : string) : a <> "" -> a ++ b <> "".
Proof. destruct a; [intros Ha; now elim Ha | discriminate]. Qed.

Lemma nonempty_str_true (s : string) : nonempty_str s = true <-> s <> "".
Proof. destruct s; simpl; split; try discriminate; try reflexivity. intros Hs; now elim Hs. Qed.

(** *** Dict updates *)

Lemma dict_set_In (d : dict) (k0 : string) (v0 : pyval) (kv : string * pyval) :
  In kv (dict_set d k0 v0) -> In kv d \/ kv = (k0, v0).
Proof.
  induction d as [| [k' v'] r IH]; simpl.
  - intros [<- | []]. now right.
  - destruct (String.eqb_spec k' k0) as [-> | Hne]; simpl.
    + intros [<- | Hin]; [now right | left; now right].
    + intros [<- | Hin]; [left; now left |].
      destruct (IH Hin) as [Hr | ->]; [left; now right | now right].
Qed.

Lemma dict_update_In (new d : dict) (kv : string * pyval) :
  In kv (dict_update d new) -> In kv d \/ In kv new.
Proof.
  unfold dict_update. revert d.
  induction new as [| [k v] r IH]; simpl; intros d Hin; [now left |].
  destruct (IH _ Hin) as [Hd | Hr]; [| right; now right].
  destruct (dict_set_In _ _ _ _ Hd) as [Hd' | ->]; [now left | right; now left].
Qed.

Lemma keys_dict_set (d : dict) (k : string) (v : pyval) :
  keys (dict_set d k v) = if dict_mem d k then keys d else (keys d ++ [k])%list.
Proof.
  unfold keys, dict_mem.
  induction d as [| [k' v'] r IH]; simpl; [reflexivity |].
  destruct (String.eqb k' k); simpl; [reflexivity |].
  rewrite IH. now destruct (existsb _ r).
Qed.

Lemma dict_mem_false (d : dict) (k : string) : dict_mem d k = false <-> ~ In k (keys d).
Proof.
  unfold dict_mem, keys. induction d as [| [k' v'] r IH]; simpl.
  - split; [intros _ [] | reflexivity].
  - destruct (String.eqb_spec k' k) as [-> | Hne]; simpl.
    + split; [discriminate | intros Hn; elim Hn; now left].
    + rewrite IH. split; [intros Hn [He | Hin]; [now elim Hne | now elim Hn] | tauto].
Qed.

Lemma dict_set_wf (d : dict) (k : string) (v : pyval) :
  wf_dict d -> wf_dict (dict_set d k v).
Proof.
  unfold wf_dict. intros Hd. rewrite keys_dict_set.
  destruct (dict_mem d k) eqn:E; [assumption |].
  apply dict_mem_false in E.
  apply NoDup_app; [assumption | repeat constructor; intros [] | ].
  intros x Hx [<- | []]. now elim E.
Qed.

Lemma dict_update_wf (new d : dict) : wf_dict d -> wf_dict (dict_update d new).
Proof.
  unfold dict_update. revert d.
  induction new as [| [k v] r IH]; simpl; intros d Hd; [assumption |].
  apply IH. now apply dict_set_wf.
Qed.

Lemma dict_set_fresh (d : dict) (k : string) (v : pyval) :
  ~ In k (keys d) -> dict_set d k v = (d ++ [(k, v)])%list.
Proof.
  induction d as [| [k' v'] r IH]; simpl; intros Hn; [reflexivity |].
  destruct (String.eqb_spec k' k) as [-> | Hne]; [elim Hn; now left |].
  rewrite IH; [reflexivity | intros Hin; elim Hn; now right].
Qed.

(** *** The two loops of [sanitize_metadata] *)

Lemma sanitize_metadata_dict (kvs : dict) (parent_key sep : string) :
  sanitize_metadata (VDict kvs) parent_key sep =
  fold_left
    (fun items kv =>
       dict_update items
         (sanitize_metadata (snd kv)
            (if nonempty_str parent_key then parent_key ++ sep ++ fst kv else fst kv) sep))
    kvs [].
Proof. reflexivity. Qed.

Lemma sanitize_metadata_list (l : list pyval) (parent_key sep : string) :
  sanitize_metadata (VList l) parent_key sep =
  snd (fold_left
         (fun st value =>
            (S (fst st),
             dict_update (snd st)
               (sanitize_metadata value (parent_key ++ sep ++ str_nat (fst st)) sep)))
         l (0, [])).
Proof. reflexivity. Qed.

Lemma sanitize_metadata_scalar (v : pyval) (parent_key sep : string) :
  is_scalar v = true -> sanitize_metadata v parent_key sep = [(parent_key, v)].
Proof. destruct v; simpl; intros Hv; try reflexivity; discriminate. Qed.

Section Loops.
Variable g : string -> pyval -> dict.
Variable h : nat -> pyval -> dict.

Lemma dict_loop_In (kvs items : dict) (x : string * pyval) :
  In x (fold_left (fun items kv => dict_update items (g (fst kv) (snd kv))) kvs items) ->
  In x items \/ exists key child, In (key, child) kvs /\ In x (g key child).
Proof.
  revert items. induction kvs as [| [key child] r IH]; simpl; intros items Hin.
  - now left.
  - destruct (IH _ Hin) as [Hu | (key' & child' & Hr & Hg)].
    + destruct (dict_update_In _ _ _ Hu) as [Hi | Hg]; [now left |].
      right. exists key, child. split; [now left | assumption].
    + right. exists key', child'. split; [now right | assumption].
Qed.

Lemma dict_loop_wf (kvs items : dict) :
  wf_dict items ->
  wf_dict (fold_left (fun items kv => dict_update items (g (fst kv) (snd kv))) kvs items).
Proof.
  revert items. induction kvs as [| kv r IH]; simpl; intros items Hw; [assumption |].
  apply IH. now apply dict_update_wf.
Qed.

Lemma list_loop_In (l : list pyval) (i0 : nat) (items : dict) (x : string * pyval) :
  In x (snd (fold_left (fun st value =>
                          (S (fst st), dict_update (snd st) (h (fst st) value)))
                       l (i0, items))) ->
  In x items \/ exists j child, nth_error l j = Some child /\ In x (h (i0 + j) child).
Proof.
  revert i0 items. induction l as [| child r IH]; simpl; intros i0 items Hin.
  - now left.
  - destruct (IH _ _ Hin) as [Hu | (j & child' & Hr & Hg)].
    + destruct (dict_update_In _ _ _ Hu) as [Hi | Hg]; [now left |].
      right. exists 0, child. rewrite Nat.add_0_r. split; [reflexivity | assumption].
    + right. exists (S j), child'. rewrite Nat.add_succ_r. split; assumption.
Qed.

Lemma list_loop_wf (l : list pyval) (i0 : nat) (items : dict) :
  wf_dict items ->
  wf_dict (snd (fold_left (fun st value =>
                             (S (fst st), dict_update (snd st) (h (fst st) value)))
                          l (i0, items))).
Proof.
  revert i0 items. induction l as [| child r IH]; simpl; intros i0 items Hw; [assumption |].
  apply IH. now apply dict_update_wf.
Qed.
End Loops.

(** *** Keys are unique, values are scalars, keys follow paths *)

Lemma sanitize_metadata_wf (data : pyval) (parent_key sep : string) :
  wf_dict (sanitize_metadata data parent_key sep).
Proof.
  destruct data;
    try (unfold wf_dict; simpl; repeat constructor; intros []).
  - rewrite sanitize_metadata_list.
    apply (list_loop_wf
             (fun i value => sanitize_metadata value (parent_key ++ sep ++ str_nat i) sep)).
    constructor.
  - rewrite sanitize_metadata_dict.
    apply (dict_loop_wf
             (fun key value =>
                sanitize_metadata value
                  (if nonempty_str parent_key then parent_key ++ sep ++ key else key) sep)).
    constructor.
Qed.

Lemma leaf_at_scalar (data : pyval) (p : list comp) (v : pyval) :
  leaf_at data p v -> is_scalar v = true.
Proof. induction 1; assumption. Qed.

Lemma sanitize_metadata_paths (sep : string) (data : pyval) :
  forall parent_key k v,
    In (k, v) (sanitize_metadata data parent_key sep) ->
    exists p, leaf_at data p v /\ k = path_key sep parent_key p.
Proof.
  induction data as [| b | z | f | s | s | l IH | kvs IH] using pyval_nested_ind;
    intros parent_key k v Hin;
    try (destruct Hin as [[= <- <-] | []]; exists []; split;
         [now constructor | reflexivity]).
  - destruct Hin.
  - rewrite sanitize_metadata_list in Hin.
    apply (list_loop_In
             (fun i value => sanitize_metadata value (parent_key ++ sep ++ str_nat i) sep))
      in Hin.
    destruct Hin as [[] | (j & child & Hnth & Hin)].
    rewrite Forall_forall in IH.
    destruct (IH child (nth_error_In _ _ Hnth) _ _ _ Hin) as (p & Hp & ->).
    exists (Idx j :: p). split; [now apply leaf_idx with child | reflexivity].
  - rewrite sanitize_metadata_dict in Hin.
    apply (dict_loop_In
             (fun key value =>
                sanitize_metadata value
                  (if nonempty_str parent_key then parent_key ++ sep ++ key else key) sep))
      in Hin.
    destruct Hin as [[] | (key & child & Hkv & Hin)].
    rewrite Forall_forall in IH.
    destruct (IH (key, child) Hkv _ _ _ Hin) as (p & Hp & ->).
    exists (Key key :: p). split; [now apply leaf_key with child | reflexivity].
Qed.

Lemma sanitize_metadata_flat (data : pyval) (parent_key sep : string) :
  flat (sanitize_metadata data parent_key sep).
Proof.
  split; [apply sanitize_metadata_wf |].
  apply Forall_forall. intros [k v] Hin.
  destruct (sanitize_metadata_paths _ _ _ _ _ Hin) as (p & Hp & _).
  exact (leaf_at_scalar _ _ _ Hp).
Qed.

Lemma concat_cons_nonempty (sep a b : string) (rest : list string) :
  String.concat sep ((a ++ sep ++ b) :: rest) = String.concat sep (a :: b :: rest).
Proof.
  destruct rest as [| y rest]; simpl; [reflexivity |].
  now rewrite !str_app_assoc.
Qed.

Lemma path_key_nonempty (sep : string) (p : list comp) :
  forall parent_key,
    parent_key <> "" ->
    path_key sep parent_key p = String.concat sep (parent_key :: map comp_str p).
Proof.
  induction p as [| c r IH]; intros parent_key Hne; [reflexivity |].
  assert (Hstep : path_key sep parent_key (c :: r)
                  = path_key sep (parent_key ++ sep ++ comp_str c) r).
  { destruct c; simpl; [| reflexivity].
    apply nonempty_str_true in Hne. now rewrite Hne. }
  rewrite Hstep, IH by now apply str_app_nonempty.
  apply concat_cons_nonempty.
Qed.

Lemma path_key_record (sep : string) (data : pyval) (p : list comp) (v : pyval) :
  record_shaped data -> leaf_at data p v -> path_key sep "" p = join_path sep p.
Proof.
  intros Hshape Hleaf. destruct Hleaf as [v Hv | kvs k child p v Hin Hleaf | l i child p v Hnth Hleaf].
  - reflexivity.
  - simpl in Hshape. rewrite Forall_forall in Hshape.
    specialize (Hshape _ Hin). simpl in *.
    now apply path_key_nonempty.
  - destruct Hshape.
Qed.

(** C6, as the code has it.  For every metadata value the result is a flat
    map: its keys are pairwise distinct and none of its values is null, a
    dict or a list.  When the value is a record (a dict whose top-level
    keys are not empty, or a bare scalar), every key of the result is the
    join, with the separator, of the dict keys and list indices on the path
    from the root to a scalar leaf, and the value stored is that leaf. *)
Theorem sanitize_metadata_record_keys (data : pyval) (sep : string) :
  flat (sanitize_metadata data "" sep) /\
  (record_shaped data ->
   forall k v,
     In (k, v) (sanitize_metadata data "" sep) ->
     exists p, leaf_at data p v /\ k = join_path sep p).
Proof.
  split; [apply sanitize_metadata_flat |].
  intros Hshape k v Hin.
  destruct (sanitize_metadata_paths _ _ _ _ _ Hin) as (p & Hp & ->).
  exists p. split; [assumption |].
  now apply path_key_record with data v.
Qed.

Example sanitize_metadata_nested :
  sanitize_metadata nested_record "" "_" =
  [("name", VStr "Red Shoes"); ("brand_name", VStr "Acme");
   ("tags_0", VStr "new"); ("tags_2", VInt 7)].
Proof. reflexivity. Qed.

Lemma sanitize_metadata_record_keys_witness :
  record_shaped nested_record /\
  flat (sanitize_metadata nested_record "" "_") /\
  (forall k v,
     In (k, v) (sanitize_metadata nested_record "" "_") ->
     exists p, leaf_at nested_record p v /\ k = join_path "_" p).
Proof.
  assert (Hshape : record_shaped nested_record)
    by (repeat constructor; discriminate).
  split; [exact Hshape |].
  split.
  - exact (proj1 (sanitize_metadata_record_keys nested_record "_")).
  - exact (proj2 (sanitize_metadata_record_keys nested_record "_") Hshape).
Defined.

(** C6, as the claim has it, fails on a value that is a list: the key of its
    first element is ["_0"], the separator followed by the index, while the
    path to that element joins to ["0"]. *)
Lemma sanitize_metadata_root_list_key :
  ~ (forall data k v,
       In (k, v) (sanitize_metadata data "" "_") ->
       exists p, leaf_at data p v /\ k = join_path "_" p).
Proof.
  intros Hclaim.
  destruct (Hclaim (VList [VInt 1]) "_0" (VInt 1)) as (p & Hp & Hk).
  { left. reflexivity. }
  inversion Hp; subst.
  match goal with Hnth : nth_error _ ?i = Some _ |- _ =>
    destruct i as [| [| i]]; simpl in Hnth; try discriminate Hnth;
    injection Hnth as <-
  end.
  match goal with Hleaf : leaf_at (VInt 1) _ _ |- _ => inversion Hleaf; subst end.
  discriminate Hk.
Qed.

(** The same happens below a top-level key that is empty: the key of the
    member drops the separator. *)
Lemma sanitize_metadata_empty_key :
  sanitize_metadata (VDict [("", VDict [("a", VInt 1)])]) "" "_" = [("a", VInt 1)] /\
  join_path "_" [Key ""; Key "a"] = "_a".
Proof. split; reflexivity. Qed.

(** *** Idempotence *)

Lemma keys_app (a b : dict) : keys (a ++ b)%list = (keys a ++ keys b)%list.
Proof. apply map_app. Qed.

Lemma flat_loop (sep : string) (kvs items : dict) :
  wf_dict (items ++ kvs)%list ->
  Forall (fun kv => is_scalar (snd kv) = true) kvs ->
  fold_left
    (fun items kv => dict_update items (sanitize_metadata (snd kv) (fst kv) sep))
    kvs items = (items ++ kvs)%list.
Proof.
  revert items. induction kvs as [| [k v] r IH]; simpl; intros items Hw Hs.
  - now rewrite app_nil_r.
  - inversion Hs as [| ? ? Hv Hr]; subst. simpl in Hv.
    rewrite (sanitize_metadata_scalar _ _ _ Hv).
    unfold dict_update at 2; simpl.
    assert (Hfresh : ~ In k (keys items)).
    { unfold wf_dict in Hw. rewrite keys_app in Hw. simpl in Hw.
      apply NoDup_remove_2 in Hw. intros Hin. apply Hw.
      apply in_or_app. now left. }
    rewrite (dict_set_fresh _ _ _ Hfresh).
    rewrite IH; [now rewrite <- app_assoc | now rewrite <- app_assoc | assumption].
Qed.

Lemma sanitize_metadata_flat_id (d : dict) (sep : string) :
  flat d -> sanitize_metadata (VDict d) "" sep = d.
Proof.
  intros [Hw Hs]. rewrite sanitize_metadata_dict.
  exact (flat_loop sep d [] Hw Hs).
Qed.

(** C7.  On a flat map of non-null scalars [sanitize_metadata] is the
    identity, and sanitizing the result of a sanitization changes nothing. *)
Theorem sanitize_metadata_idempotent (d : dict) (x : pyval) (sep : string) :
  (flat d -> sanitize_metadata (VDict d) "" sep = d) /\
  sanitize_metadata (VDict (sanitize_metadata x "" sep)) "" sep
    = sanitize_metadata x "" sep.
Proof.
  split; [apply sanitize_metadata_flat_id |].
  apply sanitize_metadata_flat_id, sanitize_metadata_flat.
Qed.

Lemma flat_record_flat : flat flat_record.
Proof.
  split.
  - unfold wf_dict; simpl.
    repeat (constructor; [simpl; intuition discriminate |]). constructor.
  - repeat constructor.
Defined.

Lemma sanitize_metadata_idempotent_witness :
  flat flat_record /\
  sanitize_metadata (VDict flat_record) "" "_" = flat_record /\
  sanitize_metadata (VDict (sanitize_metadata nested_record "" "_")) "" "_"
    = sanitize_metadata nested_record "" "_".
Proof.
  split; [exact flat_record_flat |].
  split.
  - exact (proj1 (sanitize_metadata_idempotent flat_record nested_record "_")
             flat_record_flat).
  - exact (proj2 (sanitize_metadata_idempotent flat_record nested_record "_")).
Defined.

(* ------------------------------------------------------------------ *)
(** ** The effect monad *)

Lemma bind_ok {A B : Type} (m : Eff A) (k : A -> Eff B) (a : A) :
  outcome m = Ok a ->
  bind m k = ((trace m ++ trace (k a))%list, outcome (k a)).
Proof. unfold bind, outcome, trace. now intros ->. Qed.

Lemma bind_raise {A B : Type} (m : Eff A) (k : A -> Eff B) (e : exn) :
  outcome m = Raise e -> bind m k = (trace m, Raise e).
Proof. unfold bind, outcome, trace. now intros ->. Qed.

Lemma try_except_ok {A : Type} (m : Eff A) (h : exn -> Eff A) (a : A) :
  outcome m = Ok a -> try_except m h = m.
Proof. unfold try_except, outcome. now intros ->. Qed.

Lemma for_each_cons {A S : Type} (x : A) (r : list A) (body : S -> A -> Eff S) (s : S) :
  for_each (x :: r) body s = bind (body s x) (fun s' => for_each r body s').
Proof. reflexivity. Qed.

Lemma index_upserts_app (t1 t2 : list event) :
  index_upserts (t1 ++ t2) = (index_upserts t1 ++ index_upserts t2)%list.
Proof. apply flat_map_app. Qed.

(* ------------------------------------------------------------------ *)
(** ** Batching of [PineconeService.upsert] *)

Lemma firstn_add {A : Type} (a b : nat) (l : list A) :
  firstn (a + b) l = (firstn a l ++ firstn b (skipn a l))%list.
Proof.
  revert l. induction a as [| a IH]; intros l; [reflexivity |].
  destruct l as [| x l]; simpl.
  - now rewrite firstn_nil.
  - now rewrite IH.
Qed.

Lemma py_slice_width {A : Type} (l : list A) (i n : nat) :
  py_slice l i (i + n) = firstn n (skipn i l).
Proof. unfold py_slice. now replace (i + n - i) with n by lia. Qed.

Lemma py_slice_length {A : Type} (l : list A) (i n : nat) :
  List.length (py_slice l i (i + n)) = Nat.min n (List.length l - i).
Proof. now rewrite py_slice_width, length_firstn, length_skipn. Qed.

Lemma py_range_100 (total : nat) :
  py_range 0 total 100 = map (fun j => j * 100) (seq 0 ((total + 99) / 100)).
Proof.
  unfold py_range. replace (total - 0 + 100 - 1) with (total + 99) by lia.
  apply map_ext. intros j. reflexivity.
Qed.

Lemma ceil_100_bounds (total : nat) :
  100 * ((total + 99) / 100) <= total + 99 /\ total <= 100 * ((total + 99) / 100).
Proof.
  pose proof (Nat.div_mod_eq (total + 99) 100) as Hdm.
  pose proof (Nat.mod_upper_bound (total + 99) 100) as Hlt.
  lia.
Qed.

Lemma concat_slices {A : Type} (l : list A) (m : nat) :
  List.concat (map (fun i => py_slice l i (i + 100)) (map (fun j => j * 100) (seq 0 m)))
  = firstn (m * 100) l.
Proof.
  induction m as [| m IH]; [reflexivity |].
  rewrite seq_S, !map_app, concat_app, IH. cbn [map List.concat Nat.add].
  rewrite app_nil_r, py_slice_width.
  replace (S m * 100) with (m * 100 + 100) by lia.
  now rewrite firstn_add.
Qed.

Lemma consecutive_batches_concat {A : Type} (l : list A) :
  List.concat (consecutive_batches 100 l) = l.
Proof.
  unfold consecutive_batches. rewrite py_range_100, concat_slices.
  apply firstn_all2. pose proof (ceil_100_bounds (List.length l)). lia.
Qed.

Lemma py_range_100_In (total i : nat) :
  In i (py_range 0 total 100) -> i < total.
Proof.
  rewrite py_range_100, in_map_iff. intros (j & <- & Hj).
  apply in_seq in Hj. pose proof (ceil_100_bounds total). lia.
Qed.

Lemma consecutive_batches_sizes {A : Type} (l : list A) :
  Forall (fun b => 0 < List.length b <= 100) (consecutive_batches 100 l).
Proof.
  unfold consecutive_batches. apply Forall_forall. intros b Hb.
  apply in_map_iff in Hb. destruct Hb as (i & <- & Hi).
  apply py_range_100_In in Hi. rewrite py_slice_length. lia.
Qed.

Lemma full_until_last_seq (total a n : nat) :
  (a + n) * 100 <= total + 99 ->
  full_until_last total (map (fun j => j * 100) (seq a n)).
Proof.
  revert a. induction n as [| n IH]; intros a Hle; [exact I |].
  cbn [seq map full_until_last].
  destruct n as [| n]; [exact I |].
  change (map (fun j => j * 100) (seq (S a) (S n)))
    with (S a * 100 :: map (fun j => j * 100) (seq (S (S a)) n)).
  cbv beta iota. split; [lia |].
  apply (IH (S a)). lia.
Qed.

Lemma full_until_last_range (total : nat) :
  full_until_last total (py_range 0 total 100).
Proof.
  rewrite py_range_100. apply full_until_last_seq.
  pose proof (ceil_100_bounds total). lia.
Qed.

Section UpsertLoop.
Variable svc : PineconeService.
Variable vectors : list Vector.
Variable namespace : option string.
Hypothesis Haccepts : index_accepts svc.

Lemma upsert_step_ok (size i : nat) (responses : list pyval) (r : pyval) :
  size <> 0 ->
  index_upsert svc (py_slice vectors i (i + size)) (sent_namespace namespace) = Ok r ->
  upsert_step svc vectors namespace (size, responses) i =
  ([EvLog "debug" "Upserting batch";
    EvIndexUpsert (py_slice vectors i (i + size)) (sent_namespace namespace)],
   Ok (List.length (py_slice vectors i (i + size)), (responses ++ [r])%list)).
Proof.
  intros Hsize Hr. unfold upsert_step, sent_namespace in *.
  apply Nat.eqb_neq in Hsize. rewrite Hsize.
  destruct (truthy_namespace namespace);
    unfold bind, ret, log, emit, call; cbn [fst snd]; rewrite Hr; reflexivity.
Qed.

Lemma upsert_loop (indices : list nat) :
  forall responses,
    full_until_last (List.length vectors) indices ->
    (forall i, In i indices -> i < List.length vectors) ->
    exists t size more,
      for_each indices (upsert_step svc vectors namespace) (100, responses)
        = (t, Ok (size, (responses ++ more)%list)) /\
      index_upserts t
        = map (fun i => (py_slice vectors i (i + 100), sent_namespace namespace)) indices /\
      List.length more = List.length indices.
Proof.
  induction indices as [| i rest IH]; intros responses Hfull Hlt.
  - exists [], 100, []. rewrite app_nil_r. repeat split.
  - destruct (Haccepts (py_slice vectors i (i + 100)) (sent_namespace namespace))
      as [r Hr].
    rewrite for_each_cons.
    rewrite (upsert_step_ok 100 i responses r) by (try assumption; discriminate).
    destruct rest as [| i2 rest].
    + eexists _, _, [r]. unfold bind. cbn [fst snd for_each ret].
      repeat split.
    + destruct Hfull as [Hroom Hfull].
      assert (Hlen : List.length (py_slice vectors i (i + 100)) = 100).
      { rewrite py_slice_length. lia. }
      rewrite Hlen.
      destruct (IH (responses ++ [r])%list Hfull) as (t & size & more & Hrun & Hcalls & Hmore).
      { intros j Hj. apply Hlt. now right. }
      exists ([EvLog "debug" "Upserting batch";
               EvIndexUpsert (py_slice vectors i (i + 100)) (sent_namespace namespace)]
              ++ t)%list, size, (r :: more).
      unfold bind. cbn [fst snd]. rewrite Hrun. cbn [fst snd].
      rewrite <- app_assoc. repeat split.
      * rewrite index_upserts_app, Hcalls. reflexivity.
      * cbn [List.length]. now rewrite Hmore.
Qed.

(** C10.  Against an index that answers, [upsert] cuts the input into the
    consecutive batches of 100 (the last one shorter), in input order, and
    sends each batch to the index in exactly one call; the batches put
    together are the input, none is empty or longer than 100, and the
    result reports the length of the input as [total_upserted], with one
    response per batch. *)
Theorem PineconeService_upsert_batches :
  index_upserts (trace (PineconeService_upsert svc vectors namespace))
    = map (fun b => (b, sent_namespace namespace)) (consecutive_batches 100 vectors) /\
  List.concat (consecutive_batches 100 vectors) = vectors /\
  Forall (fun b => 0 < List.length b <= 100) (consecutive_batches 100 vectors) /\
  exists out,
    outcome (PineconeService_upsert svc vectors namespace) = Ok out /\
    total_upserted out = List.length vectors /\
    List.length (batches out) = List.length (consecutive_batches 100 vectors).
Proof.
  destruct (upsert_loop (py_range 0 (List.length vectors) 100) [])
    as (t & size & more & Hrun & Hcalls & Hmore).
  { apply full_until_last_range. }
  { apply py_range_100_In. }
  assert (Hwhole :
    PineconeService_upsert svc vectors namespace =
    ((EvLog "info" "Upserting vectors to Pinecone" :: t
        ++ [EvLog "info" "Successfully upserted vectors"])%list,
     Ok {| total_upserted := List.length vectors; batches := more |})).
  { unfold PineconeService_upsert, reraise_logged, try_except, bind, log, emit, ret.
    cbn [fst snd]. rewrite Hrun. cbn [fst snd]. rewrite app_nil_r. reflexivity. }
  rewrite Hwhole. unfold trace, outcome. cbn [fst snd].
  split; [| split; [apply consecutive_batches_concat |
                    split; [apply consecutive_batches_sizes |]]].
  - change (EvLog "info" "Upserting vectors to Pinecone" :: t
              ++ [EvLog "info" "Successfully upserted vectors"])%list
      with ([EvLog "info" "Upserting vectors to Pinecone"] ++ t
              ++ [EvLog "info" "Successfully upserted vectors"])%list.
    rewrite !index_upserts_app, Hcalls. cbn [index_upserts flat_map app].
    rewrite app_nil_r. unfold consecutive_batches. now rewrite map_map.
  - eexists. split; [reflexivity |]. cbn [total_upserted batches].
    split; [reflexivity |].
    rewrite Hmore. unfold consecutive_batches. now rewrite length_map.
Qed.
End UpsertLoop.

(** A list of exactly 100 vectors goes to the index in one call, whether or
    not the index accepts it. *)
Lemma upsert_full_batch_calls (svc : PineconeService) (vectors : list Vector)
    (namespace : option string) :
  List.length vectors = 100 ->
  index_upserts (trace (PineconeService_upsert svc vectors namespace))
    = [(vectors, sent_namespace namespace)].
Proof.
  intros Hlen.
  assert (Hslice : py_slice vectors 0 (0 + 100) = vectors).
  { rewrite py_slice_width. cbn [skipn]. apply firstn_all2. lia. }
  unfold PineconeService_upsert. rewrite Hlen.
  change (py_range 0 100 100) with [0].
  cbn [for_each]. unfold upsert_step. change (Nat.eqb 100 0) with false.
  cbv iota. rewrite Hslice. fold (sent_namespace namespace).
  unfold sent_namespace.
  destruct (truthy_namespace namespace);
    match goal with
    | |- context [index_upsert svc vectors ?ns] =>
        destruct (index_upsert svc vectors ns); reflexivity
    end.
Qed.

Lemma PineconeService_upsert_batches_witness :
  index_accepts example_pinecone /\
  index_upserts (trace (PineconeService_upsert example_pinecone (example_vectors 3)
                          (Some "blogs")))
    = map (fun b => (b, sent_namespace (Some "blogs")))
          (consecutive_batches 100 (example_vectors 3)) /\
  List.concat (consecutive_batches 100 (example_vectors 3)) = example_vectors 3 /\
  Forall (fun b => 0 < List.length b <= 100) (consecutive_batches 100 (example_vectors 3)) /\
  exists out,
    outcome (PineconeService_upsert example_pinecone (example_vectors 3) (Some "blogs"))
      = Ok out /\
    total_upserted out = List.length (example_vectors 3) /\
    List.length (batches out) = List.length (consecutive_batches 100 (example_vectors 3)).
Proof.
  assert (Hacc : index_accepts example_pinecone)
    by (intros b ns; eexists; reflexivity).
  split; [exact Hacc |].
  exact (PineconeService_upsert_batches example_pinecone (example_vectors 3)
           (Some "blogs") Hacc).
Defined.

(** 250 vectors leave in batches of 100, 100 and 50. *)
Example PineconeService_upsert_250 :
  map (fun c => List.length (fst c))
      (index_upserts (trace (PineconeService_upsert example_pinecone (example_vectors 250)
                               (Some "blogs"))))
    = [100; 100; 50] /\
  option_map total_upserted
    (match outcome (PineconeService_upsert example_pinecone (example_vectors 250)
                      (Some "blogs")) with
     | Ok out => Some out
     | Raise _ => None
     end) = Some 250.
Proof. vm_compute. split; reflexivity. Qed.

(* ------------------------------------------------------------------ *)
(** ** What a handler sends out *)

Section Traces.
Variable Q : event -> Prop.

Lemma trace_bind {A B : Type} (m : Eff A) (k : A -> Eff B) :
  Forall Q (trace m) -> (forall a, Forall Q (trace (k a))) ->
  Forall Q (trace (bind m k)).
Proof.
  intros Hm Hk. unfold bind, trace in *. destruct (snd m); cbn [fst].
  - apply Forall_app. split; [assumption | apply Hk].
  - assumption.
Qed.

Lemma trace_try_except {A : Type} (m : Eff A) (h : exn -> Eff A) :
  Forall Q (trace m) -> (forall e, Forall Q (trace (h e))) ->
  Forall Q (trace (try_except m h)).
Proof.
  intros Hm Hh. unfold try_except, trace in *. destruct (snd m); cbn [fst].
  - assumption.
  - apply Forall_app. split; [assumption | apply Hh].
Qed.

Lemma trace_ret {A : Type} (a : A) : Forall Q (trace (ret a)).
Proof. constructor. Qed.

Lemma trace_raise {A : Type} (e : exn) : Forall Q (trace (@raise A e)).
Proof. constructor. Qed.

Lemma trace_lift_result {A : Type} (r : result A) : Forall Q (trace (lift_result r)).
Proof. constructor. Qed.

Lemma trace_log (level msg : string) :
  Q (EvLog level msg) -> Forall Q (trace (log level msg)).
Proof. intros Hq. repeat constructor. exact Hq. Qed.

Lemma trace_call {A : Type} (e : event) (r : result A) :
  Q e -> Forall Q (trace (call e r)).
Proof. intros Hq. repeat constructor. exact Hq. Qed.

Lemma trace_reraise_logged {A : Type} (msg : string) (m : Eff A) :
  Q (EvLog "error" msg) -> Forall Q (trace m) ->
  Forall Q (trace (reraise_logged msg m)).
Proof.
  intros Hq Hm. unfold reraise_logged. apply trace_try_except; [assumption |].
  intros e. apply trace_bind; [now apply trace_log | intros; apply trace_raise].
Qed.

Lemma trace_map_eff {A B : Type} (f : A -> Eff B) (l : list A) :
  (forall x, Forall Q (trace (f x))) -> Forall Q (trace (map_eff f l)).
Proof.
  intros Hf. induction l as [| x r IH]; cbn [map_eff]; [apply trace_ret |].
  apply trace_bind; [apply Hf |]. intros y.
  apply trace_bind; [apply IH |]. intros ys. apply trace_ret.
Qed.

Hypothesis Qlog : forall level msg, Q (EvLog level msg).

Lemma trace_generate_text `{PyRuntime} (templates : Templates) (metadata : dict)
    (object_type : OBJECT_TYPE) :
  Forall Q (trace (generate_text templates metadata object_type)).
Proof.
  unfold generate_text. apply trace_reraise_logged; [apply Qlog |].
  destruct object_type;
    try (apply trace_reraise_logged; [apply Qlog | apply trace_lift_result]).
  apply trace_raise.
Qed.

Lemma trace_generate_embedding (svc : EmbeddingService) (text : string) :
  Q (EvEmbed text) -> Forall Q (trace (generate_embedding svc text)).
Proof.
  intros Hq. unfold generate_embedding, _get_embedding.
  do 2 (apply trace_reraise_logged; [apply Qlog |]).
  now apply trace_call.
Qed.
End Traces.

(* ------------------------------------------------------------------ *)
(** ** Single ingest *)

Lemma no_upsert_index_upserts (t : list event) :
  Forall no_upsert t -> index_upserts t = [].
Proof.
  induction 1 as [| e t He _ IH]; [reflexivity |].
  unfold index_upserts in *. cbn [flat_map]. rewrite IH.
  destruct e; try reflexivity. discriminate He.
Qed.

(** C3.  Whatever the request and whatever the collaborators answer, the
    handler of [POST /ingest] sends nothing to the vector store: no event of
    its run is an upsert.  On a request it answers with success, it has
    embedded the text and logged that it upserts, and has returned without
    the upsert. *)
Theorem ingest_document_never_upserts `{PyRuntime} (templates : Templates)
    (embedding_service : EmbeddingService) (request : IngestRequest) :
  Forall no_upsert (trace (ingest_document templates embedding_service request)) /\
  index_upserts (trace (ingest_document templates embedding_service request)) = [].
Proof.
  assert (Hq : Forall no_upsert (trace (ingest_document templates embedding_service request))).
  { unfold ingest_document.
    apply trace_try_except.
    - apply trace_bind; [apply trace_generate_text; reflexivity |]. intros text.
      apply trace_bind; [apply trace_generate_embedding; reflexivity |]. intros embedding.
      apply trace_bind; [apply trace_log; reflexivity |]. intros _.
      apply trace_bind; [apply trace_log; reflexivity |]. intros _.
      apply trace_ret.
    - intros e. apply trace_bind; [apply trace_log; reflexivity |]. intros _.
      apply trace_raise. }
  split; [exact Hq | now apply no_upsert_index_upserts].
Qed.

(** The request of the spec's scenario is answered with success after these
    events: one embedding call and two log lines. *)
Example ingest_document_red_shoes :
  ingest_document source_templates example_embedding red_shoes_request =
  ([EvEmbed "Red Shoes. is a recreational product. by Acme. ";
    EvLog "info" "Upserting vector";
    EvLog "info" "Successfully ingested document"],
   Ok {| status := "success"; message := "products ingested successfully" |}).
Proof. reflexivity. Qed.

(* ------------------------------------------------------------------ *)
(** ** The cache service *)

Lemma CacheService_get_no_client (query : string) :
  outcome (CacheService_get {| client := None |} query) = Ok None.
Proof. reflexivity. Qed.



Lemma CacheService_get_hit (c : LangCache) (query : string) (v : CacheSearchResult)
    (e : CacheEntry) (rest : list CacheEntry) :
  lc_search c query = Ok (Some v) -> data v = e :: rest ->
  CacheService_get {| client := Some c |} query =
  ([EvCacheSearch query; EvLog "info" "Cache hit for query"], Ok (Some v)).
Proof.
  intros Hs Hd. unfold CacheService_get, try_except, bind, call, log, emit, ret.
  cbn [client fst snd]. rewrite Hs. cbn [fst snd]. rewrite Hd. reflexivity.
Qed.

(* ------------------------------------------------------------------ *)
(** ** Search: the cache hit *)

Lemma silent_nil (t : list event) : Forall (fun _ => False) t -> t = [].
Proof. destruct 1 as [| e t []]. reflexivity. Qed.

Lemma try_except_raise_trace {A : Type} (m : Eff A) (h : exn -> Eff A) :
  (forall e, trace (h e) = []) -> trace (try_except m h) = trace m.
Proof.
  intros Hh. unfold try_except, trace in *. destruct (snd m); cbn [fst]; [reflexivity |].
  now rewrite Hh, app_nil_r.
Qed.

Section CacheHit.
Context `{PyRuntime}.
Variable SearchMatch_new : pyval -> pyval -> pyval -> result SearchMatch.
Variable executor : Executor.
Variable embedding_service : EmbeddingService.
Variable pinecone_service : PineconeService.
Variable c : LangCache.
Variable request : SearchRequest.
Variable v : CacheSearchResult.
Variable e : CacheEntry.
Variable rest : list CacheEntry.

(** The cache answers the query with a stored response that is not empty. *)
Hypothesis Hsearch : lc_search c (sr_query request) = Ok (Some v).
Hypothesis Hdata : data v = e :: rest.
Hypothesis Hresponse : response e <> "".

Lemma cache_hit_stored : cache_hit (Some v) = Some (response e).
Proof.
  unfold cache_hit. rewrite Hdata.
  apply nonempty_str_true in Hresponse. now rewrite Hresponse.
Qed.

Lemma cached_match_silent (m : pyval) :
  Forall (fun _ => False) (trace (cached_match SearchMatch_new m)).
Proof.
  unfold cached_match.
  repeat (apply trace_bind; [apply trace_lift_result | intros ?]).
  apply trace_lift_result.
Qed.

Lemma hit_branch_silent (stored : string) :
  trace (hit_branch SearchMatch_new stored) = [].
Proof.
  apply silent_nil. unfold hit_branch.
  apply trace_bind; [destruct (json_loads stored); [apply trace_ret | apply trace_raise] |].
  intros cache_results.
  apply trace_bind; [apply trace_lift_result |]. intros entries.
  apply trace_bind; [apply trace_map_eff, cached_match_silent |]. intros ms.
  apply trace_ret.
Qed.

(** The matches built from stored entries: each from the id, the metadata
    and the score of its entry. *)
Lemma cached_matches_run (stored : list dict) (matches : list SearchMatch) :
  Forall2 (fun entry search_match =>
             SearchMatch_new (dict_get entry "id") (dict_get entry "metadata")
               (dict_get entry "score") = Ok search_match)
          stored matches ->
  outcome (map_eff (cached_match SearchMatch_new) (map VDict stored)) = Ok matches.
Proof.
  induction 1 as [| entry search_match stored matches Hnew _ IH]; [reflexivity |].
  assert (Hone : cached_match SearchMatch_new (VDict entry) = ([], Ok search_match)).
  { unfold cached_match, bind, lift_result. cbn [py_get fst snd app]. now rewrite Hnew. }
  cbn [map map_eff]. rewrite Hone.
  unfold outcome, bind, ret in *. cbn [fst snd]. rewrite IH. reflexivity.
Qed.

Lemma search_documents_hit :
  search_documents SearchMatch_new executor embedding_service pinecone_service
    {| client := Some c |} request =
  try_except
    ([EvCacheSearch (sr_query request); EvLog "info" "Cache hit for query"],
     outcome (hit_branch SearchMatch_new (response e)))
    (fun e => raise (HTTPException 500 (exn_str e))).
Proof.
  unfold search_documents. cbv zeta.
  rewrite (bind_ok _ _ (Some v))
    by (now rewrite (CacheService_get_hit _ _ _ _ _ Hsearch Hdata)).
  rewrite (CacheService_get_hit _ _ _ _ _ Hsearch Hdata).
  rewrite cache_hit_stored, hit_branch_silent. reflexivity.
Qed.

(** C4.  On a cache hit with a non-empty stored response the handler sends
    out the cache lookup and nothing else, so neither the embedding provider
    nor the vector store is called; and when the stored response decodes to
    a list of entries, each of which gives a valid match, the handler
    returns one match per stored entry, in their order, each built from the
    id, the metadata and the score of its entry, with [total_results] the
    number of stored entries. *)
Theorem search_documents_cache_hit :
  trace (search_documents SearchMatch_new executor embedding_service pinecone_service
           {| client := Some c |} request)
    = [EvCacheSearch (sr_query request); EvLog "info" "Cache hit for query"] /\
  Forall no_embed_no_query
    (trace (search_documents SearchMatch_new executor embedding_service pinecone_service
              {| client := Some c |} request)) /\
  (forall (stored : list dict) (matches : list SearchMatch),
     json_loads (response e) = Some (VList (map VDict stored)) ->
     Forall2 (fun entry search_match =>
                SearchMatch_new (dict_get entry "id") (dict_get entry "metadata")
                  (dict_get entry "score") = Ok search_match)
             stored matches ->
     outcome (search_documents SearchMatch_new executor embedding_service pinecone_service
                {| client := Some c |} request)
       = Ok {| results := matches;
               query_rewritten := None;
               total_results := List.length stored |}).
Proof.
  rewrite search_documents_hit.
  assert (Htrace :
    trace (try_except
             ([EvCacheSearch (sr_query request); EvLog "info" "Cache hit for query"],
              outcome (hit_branch SearchMatch_new (response e)))
             (fun e => raise (HTTPException 500 (exn_str e))))
    = [EvCacheSearch (sr_query request); EvLog "info" "Cache hit for query"]).
  { now rewrite try_except_raise_trace. }
  split; [exact Htrace |]. split.
  - rewrite Htrace. repeat constructor.
  - intros stored matches Hjson Hbuilt.
    assert (Hout : outcome (hit_branch SearchMatch_new (response e))
                   = Ok {| results := matches; query_rewritten := None;
                           total_results := List.length stored |}).
    { unfold hit_branch. rewrite Hjson.
      pose proof (cached_matches_run stored matches Hbuilt) as Hrun.
      pose proof (Forall2_length Hbuilt) as Hlen.
      unfold bind, ret, lift_result, outcome in *. cbn [fst snd py_iter].
      rewrite Hrun. cbn [fst snd]. now rewrite Hlen. }
    rewrite Hout. reflexivity.
Qed.
End CacheHit.

Lemma search_documents_cache_hit_witness :
  lc_search example_cache_client (sr_query example_search_request)
    = Ok (Some {| data := [ {| response := "[{}]" |} ] |}) /\
  trace (search_documents example_SearchMatch_new in_order_executor example_embedding
           example_pinecone {| client := Some example_cache_client |}
           example_search_request)
    = [EvCacheSearch "red shoes"; EvLog "info" "Cache hit for query"] /\
  Forall no_embed_no_query
    (trace (search_documents example_SearchMatch_new in_order_executor example_embedding
              example_pinecone {| client := Some example_cache_client |}
              example_search_request)) /\
  (forall (stored : list dict) (matches : list SearchMatch),
     json_loads "[{}]" = Some (VList (map VDict stored)) ->
     Forall2 (fun entry search_match =>
                example_SearchMatch_new (dict_get entry "id") (dict_get entry "metadata")
                  (dict_get entry "score") = Ok search_match)
             stored matches ->
     outcome (search_documents example_SearchMatch_new in_order_executor
                example_embedding example_pinecone
                {| client := Some example_cache_client |} example_search_request)
       = Ok {| results := matches;
               query_rewritten := None;
               total_results := List.length stored |}).
Proof.
  split; [reflexivity |].
  apply (search_documents_cache_hit example_SearchMatch_new in_order_executor
           example_embedding example_pinecone example_cache_client example_search_request
           {| data := [ {| response := "[{}]" |} ] |} {| response := "[{}]" |} []).
  - reflexivity.
  - reflexivity.
  - discriminate.
Defined.

(** The run of the example: one stored entry, one match, no embedding. *)
Example search_documents_hit_run :
  search_documents example_SearchMatch_new in_order_executor example_embedding
    example_pinecone {| client := Some example_cache_client |} example_search_request =
  ([EvCacheSearch "red shoes"; EvLog "info" "Cache hit for query"],
   Ok {| results := [ {| sm_id := None; sm_metadata := None; sm_score := None;
                         sm_values := [] |} ];
         query_rewritten := None;
         total_results := 1 |}).
Proof. reflexivity. Qed.

(** With a cache whose calls fail the search goes on as on a miss: the text
    is embedded and the index queried, here in the namespace
    ["None-products"]. *)
Example search_documents_failing_cache :
  search_documents example_SearchMatch_new in_order_executor example_embedding example_pinecone
    {| client := Some failing_cache_client |} example_search_request =
  ([EvCacheSearch "red shoes"; EvLog "error" "Error getting from cache";
    EvEmbed "red shoes";
    EvLog "info" "Querying Pinecone";
    EvIndexQuery [0.5%float] 5 (Some "None-products");
    EvLog "info" "Query completed";
    EvAddTask "red shoes" (VList [])],
   Ok {| results := []; query_rewritten := None; total_results := 0 |}).
Proof. reflexivity. Qed.

(* ------------------------------------------------------------------ *)
(** ** The batch pipeline *)

Section Pipeline.
Context `{PyRuntime}.
Variable templates : Templates.
Variable embedding_service : EmbeddingService.
Variable pinecone_service : PineconeService.

#[local] Abbreviation body := (batch_upsert_body pinecone_service).
#[local] Abbreviation good := (good_records templates embedding_service).

Lemma good_records_app (t : OBJECT_TYPE) (l1 l2 : list dict) :
  good t (l1 ++ l2) = good t l1 + good t l2.
Proof. unfold good_records. now rewrite filter_app, length_app. Qed.

Lemma good_records_cons (t : OBJECT_TYPE) (m : dict) (l : list dict) :
  good t (m :: l) =
  (match produced templates embedding_service t m with Some _ => 1 | None => 0 end)
  + good t l.
Proof.
  unfold good_records. cbn [filter].
  now destruct (produced templates embedding_service t m).
Qed.

Lemma body_get_total (n : nat) (ns : string) (c : consumer) (v : Vector) :
  total_processed (body n ns c (Some v)) = total_processed c + 1.
Proof.
  unfold batch_upsert_body.
  destruct (_ || _); [| reflexivity].
  destruct (vectors_to_upsert c ++ [v])%list; [reflexivity |].
  now destruct (outcome _).
Qed.

Lemma body_get_state (n : nat) (ns : string) (c : consumer) (v : Vector) :
  state (body n ns c (Some v)) <> Finished.
Proof.
  unfold batch_upsert_body.
  destruct (_ || _); [| discriminate].
  destruct (vectors_to_upsert c ++ [v])%list; [discriminate |].
  destruct (outcome _); discriminate.
Qed.

Lemma body_get_held (n : nat) (ns : string) (c : consumer) (v : Vector) :
  List.length (vectors_to_upsert (body n ns c (Some v)))
    <= List.length (vectors_to_upsert c) + 1.
Proof.
  unfold batch_upsert_body.
  assert (Hlen : List.length (vectors_to_upsert c ++ [v])
                 = List.length (vectors_to_upsert c) + 1)
    by now rewrite length_app.
  destruct (_ || _); [| cbn [vectors_to_upsert]; lia].
  destruct (vectors_to_upsert c ++ [v])%list eqn:E; [cbn; lia |].
  destruct (outcome _); cbn [vectors_to_upsert List.length] in *; lia.
Qed.

(** Below the threshold and before the last item the vector is kept. *)
Lemma body_get_keeps (n : nat) (ns : string) (c : consumer) (v : Vector) :
  List.length (vectors_to_upsert c) + 1 < batch_size ->
  total_processed c + 1 <> n ->
  body n ns c (Some v) =
  {| vectors_to_upsert := (vectors_to_upsert c ++ [v])%list;
     total_processed := total_processed c + 1;
     sent := sent c;
     state := Running |}.
Proof.
  intros Hsmall Hnot. unfold batch_upsert_body.
  replace (Nat.leb batch_size (List.length (vectors_to_upsert c ++ [v]))) with false.
  - apply Nat.eqb_neq in Hnot. now rewrite Hnot.
  - symmetry. apply Nat.leb_gt. rewrite length_app. cbn [List.length]. lia.
Qed.

(** Before the last item only a full batch is flushed. *)
Lemma body_get_full (n : nat) (ns : string) (c : consumer) (v : Vector) :
  List.length (vectors_to_upsert c) < batch_size ->
  total_processed c + 1 <> n ->
  Forall (fun call => List.length (fst call) = batch_size) (index_upserts (sent c)) ->
  Forall (fun call => List.length (fst call) = batch_size)
         (index_upserts (sent (body n ns c (Some v)))) /\
  (state (body n ns c (Some v)) = Running ->
   List.length (vectors_to_upsert (body n ns c (Some v))) < batch_size).
Proof.
  intros Hsmall Hnot Hfull. unfold batch_upsert_body.
  assert (Hlen : List.length (vectors_to_upsert c ++ [v])
                 = List.length (vectors_to_upsert c) + 1)
    by now rewrite length_app.
  apply Nat.eqb_neq in Hnot. rewrite Hnot, orb_false_r.
  destruct (Nat.leb batch_size (List.length (vectors_to_upsert c ++ [v]))) eqn:E.
  - apply Nat.leb_le in E.
    assert (H100 : List.length (vectors_to_upsert c ++ [v]) = 100)
      by (unfold batch_size in *; lia).
    pose proof (upsert_full_batch_calls pinecone_service _ (Some ns) H100) as Hcall.
    destruct (vectors_to_upsert c ++ [v])%list as [| x vs] eqn:Evs; [discriminate H100 |].
    assert (Hsent :
      Forall (fun call => List.length (fst call) = batch_size)
        (index_upserts
           (sent c ++ EvLog "info" "Upserting batch to Pinecone"
                   :: trace (PineconeService_upsert pinecone_service (x :: vs) (Some ns))))).
    { rewrite index_upserts_app. apply Forall_app. split; [assumption |].
      change (index_upserts (EvLog "info" "Upserting batch to Pinecone"
                :: trace (PineconeService_upsert pinecone_service (x :: vs) (Some ns))))
        with (index_upserts
                (trace (PineconeService_upsert pinecone_service (x :: vs) (Some ns)))).
      rewrite Hcall. repeat constructor. exact H100. }
    destruct (outcome (PineconeService_upsert pinecone_service (x :: vs) (Some ns)));
      cbn [sent state vectors_to_upsert]; (split; [exact Hsent |]).
    + intros _. cbn. unfold batch_size. lia.
    + discriminate.
  - apply Nat.leb_gt in E. cbn [sent state vectors_to_upsert].
    split; [assumption | now intros _].
Qed.

Lemma body_empty_waits (n : nat) (ns : string) (c : consumer) :
  total_processed c < n -> body n ns c None = c.
Proof.
  intros Hlt. unfold batch_upsert_body.
  apply Nat.ltb_lt in Hlt. now rewrite Hlt.
Qed.

Variable request : BatchIngestRequest.

#[local] Abbreviation N := (List.length (br_metadata request)).
#[local] Abbreviation G := (good (br_type request) (br_metadata request)).
#[local] Abbreviation job_waits := (waiting templates embedding_service request).

(** At least one record of the job fails. *)
Hypothesis Hbad : G < N.

Lemma waiting_start : job_waits (start request).
Proof.
  unfold waiting, start. cbn [cons pending vector_queue total_processed
    vectors_to_upsert sent state List.length].
  split; [lia |]. split; [lia |]. split; [discriminate |].
  split; [intros _; unfold batch_size; lia |]. split; [constructor | now intros _].
Qed.

Lemma waiting_step (s s' : pipeline) :
  job_waits s -> step templates embedding_service pinecone_service request s s' ->
  job_waits s'.
Proof.
  unfold waiting at 1.
  intros (Hcount & Hheld & Hstate & Hpart & Hfull & Hsmall) Hstep.
  destruct Hstep as [l1 m l2 q c | p v q c Hrun Hlt | p c Hrun Hlt | p q c Hrun Hge];
    unfold waiting in *; cbn [pending vector_queue cons] in *.
  - rewrite good_records_app in *. rewrite good_records_cons in Hcount.
    repeat split; try assumption; try (now apply Hsmall).
    destruct (produced templates embedding_service (br_type request) m);
      [rewrite length_app; cbn [List.length] |]; lia.
  - cbn [List.length] in Hcount.
    pose proof (body_get_held N (ingest_namespace (br_type request) (br_location_id request))
                  c v) as Hheld'.
    destruct (body_get_full N (ingest_namespace (br_type request) (br_location_id request))
                c v (Hpart Hrun)) as [Hfull' Hpart']; [lia | assumption |].
    rewrite body_get_total.
    split; [lia |]. split; [lia |]. split; [apply body_get_state |].
    split; [exact Hpart' |]. split; [exact Hfull' |].
    intros Hn. unfold batch_size in *.
    rewrite body_get_keeps by (unfold batch_size; lia).
    cbn [sent state]. split; [now apply Hsmall | reflexivity].
  - rewrite body_empty_waits by assumption. tauto.
  - lia.
Qed.

Lemma reachable_waiting (s : pipeline) :
  reachable templates embedding_service pinecone_service request s -> job_waits s.
Proof.
  induction 1 as [| s s' _ IH Hstep]; [apply waiting_start |].
  now apply waiting_step with s.
Qed.

(** C2, as the code has it.  In a job in which at least one record fails,
    the consumer never leaves its loop: no state the job can reach has the
    consumer finished.  Every batch it hands to the index on the way has
    exactly 100 vectors, so the vectors of a last, shorter batch are never
    sent; and when the job has at most 100 records, the consumer is still
    running in every such state and nothing has been sent to the vector
    store. *)
Theorem batch_upsert_waits_forever (s : pipeline) :
  reachable templates embedding_service pinecone_service request s ->
  state (cons s) <> Finished /\
  Forall (fun call => List.length (fst call) = 100) (index_upserts (sent (cons s))) /\
  (N <= 100 -> state (cons s) = Running /\ sent (cons s) = [] /\ upserted s = []).
Proof.
  intros Hreach.
  destruct (reachable_waiting s Hreach) as (_ & _ & Hstate & _ & Hfull & Hsmall).
  split; [assumption |]. split; [exact Hfull |]. intros Hn.
  destruct (Hsmall Hn) as [Hsent Hrun]. unfold upserted. rewrite Hsent.
  repeat split; assumption.
Qed.
End Pipeline.

(** *** The job with one bad record *)

(** The handler has answered with success before any of this happens. *)
Example batch_ingest_documents_answer :
  fst (batch_ingest_documents one_bad_record_job) =
  ([EvLog "info" "Starting background batch ingestion"],
   Ok {| status := "success";
         message := "Batch ingestion of 2 stores documents started in background" |}).
Proof. reflexivity. Qed.

(** The first store goes through; on the second, whose [state] is null,
    [store_to_text] raises and the worker produces nothing. *)
Example one_bad_record_job_records :
  map (fun m => match outcome (generate_text source_templates m STORES) with
               | Ok text => Some text
               | Raise _ => None
               end)
      (br_metadata one_bad_record_job)
    = [Some "Store: Main Street | Type: both"; None] /\
  map (fun m => option_map v_id (produced source_templates example_embedding STORES m))
      (br_metadata one_bad_record_job)
    = [Some "s1"; None].
Proof. split; reflexivity. Qed.

Lemma one_bad_record_job_good :
  good_records source_templates example_embedding (br_type one_bad_record_job)
    (br_metadata one_bad_record_job) = 1.
Proof. reflexivity. Qed.

Lemma stuck_state_reachable :
  reachable source_templates example_embedding example_pinecone
    one_bad_record_job stuck_state.
Proof.
  pose (c0 := cons (start one_bad_record_job)).
  pose (r1 := nth 0 (br_metadata one_bad_record_job) []).
  pose (r2 := nth 1 (br_metadata one_bad_record_job) []).
  pose (v1 := nth 0 (vectors_to_upsert (cons stuck_state))
                {| v_id := ""; v_values := []; v_metadata := [] |}).
  apply reach_step
    with (s := {| pending := []; vector_queue := [v1]; cons := c0 |}).
  apply reach_step
    with (s := {| pending := [r2]; vector_queue := [v1]; cons := c0 |}).
  apply reach_step
    with (s := {| pending := [r1; r2]; vector_queue := []; cons := c0 |}).
  - apply reach_start.
  - exact (step_worker source_templates example_embedding example_pinecone
             one_bad_record_job [] r1 [r2] [] c0).
  - exact (step_worker source_templates example_embedding example_pinecone
             one_bad_record_job [] r2 [] [v1] c0).
  - refine (step_get source_templates example_embedding example_pinecone
              one_bad_record_job [] v1 [] c0 eq_refl _).
    cbn. lia.
Qed.

(** From there the only step is the consumer's wake-up on an empty queue,
    which changes nothing: the vector it holds is never sent. *)
Lemma stuck_state_spins (s' : pipeline) :
  step source_templates example_embedding example_pinecone one_bad_record_job
    stuck_state s' ->
  s' = stuck_state.
Proof.
  intros Hstep. inversion Hstep as [l1 m l2 q c Hs | | p c Hrun Hlt Hs | p q c Hrun Hge Hs];
    subst.
  - destruct l1; discriminate.
  - reflexivity.
  - elim Hge. cbn. lia.
Qed.

Lemma batch_upsert_waits_forever_witness :
  good_records source_templates example_embedding (br_type one_bad_record_job)
    (br_metadata one_bad_record_job)
    < List.length (br_metadata one_bad_record_job) /\
  reachable source_templates example_embedding example_pinecone
    one_bad_record_job stuck_state /\
  state (cons stuck_state) <> Finished /\
  Forall (fun call => List.length (fst call) = 100)
         (index_upserts (sent (cons stuck_state))) /\
  (List.length (br_metadata one_bad_record_job) <= 100 ->
   state (cons stuck_state) = Running /\ sent (cons stuck_state) = [] /\
   upserted stuck_state = []).
Proof.
  assert (Hbad : good_records source_templates example_embedding
                   (br_type one_bad_record_job) (br_metadata one_bad_record_job)
                 < List.length (br_metadata one_bad_record_job))
    by (rewrite one_bad_record_job_good; cbn; lia).
  split; [exact Hbad |].
  split; [exact stuck_state_reachable |].
  exact (batch_upsert_waits_forever source_templates example_embedding example_pinecone
           one_bad_record_job Hbad stuck_state stuck_state_reachable).
Defined.

(** *** A job without a bad record

    When every record goes through, the consumer does leave its loop, after
    it has sent the two vectors in one batch. *)
Example two_good_records_finish :
  exists s,
    reachable source_templates example_embedding example_pinecone
      two_good_records_job s /\
    state (cons s) = Finished /\
    pending s = [] /\ vector_queue s = [] /\
    map v_id (upserted s) = ["p1"; "p2"] /\
    map snd (index_upserts (sent (cons s))) = [Some "loc1-products"].
Proof.
  pose (c0 := cons (start two_good_records_job)).
  pose (r1 := nth 0 (br_metadata two_good_records_job) []).
  pose (r2 := nth 1 (br_metadata two_good_records_job) []).
  pose (v1 := make_vector r1 [0.5%float]).
  pose (v2 := make_vector r2 [0.5%float]).
  pose (c1 := batch_upsert_body example_pinecone 2 "loc1-products" c0 (Some v1)).
  pose (c2 := batch_upsert_body example_pinecone 2 "loc1-products" c1 (Some v2)).
  exists {| pending := []; vector_queue := []; cons := with_state c2 Finished |}.
  split; [| repeat split].
  apply reach_step with (s := {| pending := []; vector_queue := []; cons := c2 |}).
  apply reach_step with (s := {| pending := []; vector_queue := [v2]; cons := c1 |}).
  apply reach_step with (s := {| pending := []; vector_queue := [v1; v2]; cons := c0 |}).
  apply reach_step with (s := {| pending := [r2]; vector_queue := [v1]; cons := c0 |}).
  apply reach_step with (s := {| pending := [r1; r2]; vector_queue := []; cons := c0 |}).
  - apply reach_start.
  - exact (step_worker source_templates example_embedding example_pinecone
             two_good_records_job [] r1 [r2] [] c0).
  - exact (step_worker source_templates example_embedding example_pinecone
             two_good_records_job [] r2 [] [v1] c0).
  - refine (step_get source_templates example_embedding example_pinecone
              two_good_records_job [] v1 [v2] c0 eq_refl _).
    cbn. lia.
  - refine (step_get source_templates example_embedding example_pinecone
              two_good_records_job [] v2 [] c1 eq_refl _).
    cbn. lia.
  - refine (step_exit source_templates example_embedding example_pinecone
              two_good_records_job [] [] c2 eq_refl _).
    cbn. lia.
Qed.

(* ================================================================== *)
(** * Further properties *)

(** ** [safe_get] *)

Lemma safe_get_of_default (default : pyval) (keys : list string) :
  is_dict default = false -> safe_get default keys default = default.
Proof.
  intros Hd. destruct keys as [| k r]; [reflexivity |].
  destruct default; try reflexivity. discriminate Hd.
Qed.

Lemma safe_get_split (default : pyval) (ks1 ks2 : list string) :
  is_dict default = false ->
  forall d,
    safe_get d (ks1 ++ ks2) default = safe_get (safe_get d ks1 default) ks2 default.
Proof.
  intros Hd. induction ks1 as [| k r IH]; intros d; [reflexivity |].
  cbn [app safe_get].
  destruct d; try (now rewrite safe_get_of_default).
  destruct (is_None _); [now rewrite safe_get_of_default | apply IH].
Qed.

(** X1.  With a default that is not a dict, drilling along [ks1 ++ ks2] is
    drilling along [ks1] and then, from what that gave, along [ks2]. *)
Theorem safe_get_app (d default : pyval) (ks1 ks2 : list string) :
  is_dict default = false ->
  safe_get d (ks1 ++ ks2) default = safe_get (safe_get d ks1 default) ks2 default.
Proof. intros Hd. now apply safe_get_split. Qed.

Lemma safe_get_app_witness :
  is_dict VNone = false /\
  safe_get nested_product (["brand"] ++ ["name"]) VNone
    = safe_get (safe_get nested_product ["brand"] VNone) ["name"] VNone.
Proof.
  split; [reflexivity |].
  apply (safe_get_app nested_product VNone ["brand"] ["name"]). reflexivity.
Defined.

(** X2.  With a default that is not a dict, the default is returned as soon
    as the value reached is not a dict, lacks the next key or holds [None]
    under it, whatever keys follow. *)
Theorem safe_get_missing (d default : pyval) (ks : list string) (k : string)
    (rest : list string) :
  is_dict default = false ->
  match safe_get d ks default with
  | VDict m => dict_get m k = VNone
  | _ => True
  end ->
  safe_get d (ks ++ k :: rest) default = default.
Proof.
  intros Hd Hcur. rewrite safe_get_split by assumption.
  destruct (safe_get d ks default) as [| | | | | | | m]; try reflexivity.
  cbn [safe_get]. unfold dict_get in Hcur.
  destruct (dict_lookup m k) as [v |].
  - now rewrite Hcur.
  - destruct (is_None default) eqn:E; [reflexivity |].
    now apply safe_get_of_default.
Qed.

Lemma safe_get_missing_witness :
  is_dict VNone = false /\
  match safe_get nested_product ["strain"] VNone with
  | VDict m => dict_get m "prevalence" = VNone
  | _ => True
  end /\
  safe_get nested_product (["strain"] ++ "prevalence" :: ["name"]) VNone = VNone.
Proof.
  split; [reflexivity |]. split; [reflexivity |].
  apply (safe_get_missing nested_product VNone ["strain"] "prevalence" ["name"]);
    reflexivity.
Defined.

(** A default that is a dict is itself searched for the keys that follow a
    missing one. *)
Example safe_get_dict_default :
  safe_get (VDict []) ["a"; "b"] (VDict [("b", VInt 1)]) = VInt 1.
Proof. reflexivity. Qed.

(** X3.  Started on a value that is not [None], with a default that is not
    [None], [safe_get] never returns [None]. *)
Theorem safe_get_not_None (default : pyval) (keys : list string) (d : pyval) :
  is_None default = false -> is_None d = false ->
  is_None (safe_get d keys default) = false.
Proof.
  intros Hdef. revert d. induction keys as [| k r IH]; intros d Hd; [exact Hd |].
  cbn [safe_get]. destruct d as [| | | | | | | m]; try assumption.
  destruct (is_None (match dict_lookup m k with Some v => v | None => default end)) eqn:E;
    [assumption | now apply IH].
Qed.

Lemma safe_get_not_None_witness :
  is_None (VList []) = false /\ is_None nested_product = false /\
  is_None (safe_get nested_product ["strain"; "prevalence"; "name"] (VList [])) = false.
Proof.
  split; [reflexivity |]. split; [reflexivity |].
  apply (safe_get_not_None (VList []) ["strain"; "prevalence"; "name"] nested_product);
    reflexivity.
Defined.

(* ------------------------------------------------------------------ *)
(** ** The sanitizer keeps every leaf *)

Lemma dict_mem_true (d : dict) (k : string) : dict_mem d k = true -> In k (keys d).
Proof.
  intros Hm. destruct (in_dec string_dec k (keys d)) as [Hin | Hn]; [assumption |].
  apply dict_mem_false in Hn. congruence.
Qed.

Lemma dict_set_keeps (d : dict) (k0 : string) (v0 : pyval) (k : string) :
  In k (keys d) -> In k (keys (dict_set d k0 v0)).
Proof.
  intros Hin. rewrite keys_dict_set.
  destruct (dict_mem d k0); [assumption | apply in_or_app; now left].
Qed.

Lemma dict_set_adds (d : dict) (k0 : string) (v0 : pyval) :
  In k0 (keys (dict_set d k0 v0)).
Proof.
  rewrite keys_dict_set. destruct (dict_mem d k0) eqn:E.
  - now apply dict_mem_true.
  - apply in_or_app. right. now left.
Qed.

Lemma dict_update_keeps (new d : dict) (k : string) :
  In k (keys d) -> In k (keys (dict_update d new)).
Proof.
  unfold dict_update. revert d.
  induction new as [| [k1 v1] r IH]; cbn [fold_left fst snd]; intros d Hin; [assumption |].
  apply IH. now apply dict_set_keeps.
Qed.

Lemma dict_update_adds (new d : dict) (k : string) :
  In k (keys new) -> In k (keys (dict_update d new)).
Proof.
  revert d. induction new as [| [k1 v1] r IH]; intros d Hin; [destruct Hin |].
  destruct Hin as [<- | Hin].
  - change (dict_update d ((k1, v1) :: r)) with (dict_update (dict_set d k1 v1) r).
    apply dict_update_keeps, dict_set_adds.
  - change (dict_update d ((k1, v1) :: r)) with (dict_update (dict_set d k1 v1) r).
    now apply IH.
Qed.

Section LoopKeys.
Variable g : string -> pyval -> dict.
Variable h : nat -> pyval -> dict.

Lemma dict_loop_keeps (kvs items : dict) (k : string) :
  In k (keys items) ->
  In k (keys (fold_left (fun items kv => dict_update items (g (fst kv) (snd kv)))
                        kvs items)).
Proof.
  revert items. induction kvs as [| kv r IH]; cbn [fold_left]; intros items Hin;
    [assumption |].
  apply IH. now apply dict_update_keeps.
Qed.

Lemma dict_loop_adds (kvs items : dict) (key : string) (child : pyval) (k : string) :
  In (key, child) kvs -> In k (keys (g key child)) ->
  In k (keys (fold_left (fun items kv => dict_update items (g (fst kv) (snd kv)))
                        kvs items)).
Proof.
  revert items. induction kvs as [| kv r IH]; cbn [fold_left]; intros items Hkv Hin;
    [destruct Hkv |].
  destruct Hkv as [-> | Hkv].
  - apply dict_loop_keeps. now apply dict_update_adds.
  - now apply IH.
Qed.

Lemma list_loop_keeps (l : list pyval) (i0 : nat) (items : dict) (k : string) :
  In k (keys items) ->
  In k (keys (snd (fold_left (fun st value =>
                                (S (fst st), dict_update (snd st) (h (fst st) value)))
                             l (i0, items)))).
Proof.
  revert i0 items. induction l as [| x r IH]; cbn [fold_left fst snd]; intros i0 items Hin;
    [assumption |].
  apply IH. now apply dict_update_keeps.
Qed.

Lemma list_loop_adds (l : list pyval) (i0 : nat) (items : dict) (j : nat)
    (child : pyval) (k : string) :
  nth_error l j = Some child -> In k (keys (h (i0 + j) child)) ->
  In k (keys (snd (fold_left (fun st value =>
                                (S (fst st), dict_update (snd st) (h (fst st) value)))
                             l (i0, items)))).
Proof.
  revert i0 items j. induction l as [| x r IH]; intros i0 items j Hnth Hin.
  - destruct j; discriminate Hnth.
  - cbn [fold_left fst snd]. destruct j as [| j].
    + injection Hnth as ->. rewrite Nat.add_0_r in Hin.
      apply list_loop_keeps. now apply dict_update_adds.
    + apply (IH (S i0) _ j); [exact Hnth |].
      now rewrite Nat.add_succ_comm.
Qed.
End LoopKeys.

Lemma sanitize_metadata_covers (sep : string) (data : pyval) (p : list comp) (v : pyval) :
  leaf_at data p v ->
  forall parent_key,
    In (path_key sep parent_key p) (keys (sanitize_metadata data parent_key sep)).
Proof.
  induction 1 as [v Hv | kvs k child p v Hin _ IH | l i child p v Hnth _ IH];
    intros parent_key.
  - rewrite (sanitize_metadata_scalar _ _ _ Hv). now left.
  - rewrite sanitize_metadata_dict. cbn [path_key].
    apply (dict_loop_adds
             (fun key value =>
                sanitize_metadata value
                  (if nonempty_str parent_key then parent_key ++ sep ++ key else key) sep)
             kvs [] k child); [assumption | apply IH].
  - rewrite sanitize_metadata_list. cbn [path_key].
    apply (list_loop_adds
             (fun i value => sanitize_metadata value (parent_key ++ sep ++ str_nat i) sep)
             l 0 [] i child); [assumption | apply IH].
Qed.

(** X4.  No leaf is lost: for every scalar leaf of the value, the key built
    along its path is a key of the result; on a record that key is the join
    of the path. *)
Theorem sanitize_metadata_complete (data : pyval) (sep : string) (p : list comp)
    (v : pyval) :
  leaf_at data p v ->
  In (path_key sep "" p) (keys (sanitize_metadata data "" sep)) /\
  (record_shaped data -> In (join_path sep p) (keys (sanitize_metadata data "" sep))).
Proof.
  intros Hleaf. split; [now apply sanitize_metadata_covers with v |].
  intros Hshape. rewrite <- (path_key_record sep data p v Hshape Hleaf).
  now apply sanitize_metadata_covers with v.
Qed.

Lemma sanitize_metadata_complete_witness :
  leaf_at nested_record [Key "tags"; Idx 2] (VInt 7) /\
  In (path_key "_" "" [Key "tags"; Idx 2]) (keys (sanitize_metadata nested_record "" "_")) /\
  (record_shaped nested_record ->
   In (join_path "_" [Key "tags"; Idx 2]) (keys (sanitize_metadata nested_record "" "_"))).
Proof.
  assert (Hleaf : leaf_at nested_record [Key "tags"; Idx 2] (VInt 7)).
  { apply leaf_key with (VList [VStr "new"; VNone; VInt 7]).
    - simpl. tauto.
    - apply leaf_idx with (VInt 7); [reflexivity | now constructor]. }
  split; [exact Hleaf |].
  exact (sanitize_metadata_complete nested_record "_" [Key "tags"; Idx 2] (VInt 7) Hleaf).
Defined.

(** X5.  The result is empty exactly when the value has no scalar leaf: only
    nulls and empty containers are dropped without trace. *)
Theorem sanitize_metadata_empty_iff (data : pyval) (parent_key sep : string) :
  sanitize_metadata data parent_key sep = [] <-> (forall p v, ~ leaf_at data p v).
Proof.
  split.
  - intros Hempty p v Hleaf.
    pose proof (sanitize_metadata_covers sep data p v Hleaf parent_key) as Hin.
    rewrite Hempty in Hin. destruct Hin.
  - intros Hnone. destruct (sanitize_metadata data parent_key sep) as [| [k v] r] eqn:E;
      [reflexivity |].
    destruct (sanitize_metadata_paths sep data parent_key k v) as (p & Hp & _).
    { rewrite E. now left. }
    elim (Hnone p v Hp).
Qed.

(** A later leaf with the same key replaces an earlier one. *)
Example sanitize_metadata_collision :
  sanitize_metadata (VDict [("a_b", VInt 1); ("a", VDict [("b", VInt 2)])]) "" "_"
    = [("a_b", VInt 2)].
Proof. reflexivity. Qed.

(* ------------------------------------------------------------------ *)
(** ** Records without an identity key *)

Section NoIdentity.
Context `{PyRuntime}.

(** X6.  Two records in which [id], [databaseId] and [zip] are all absent or
    null get the same vector id, the text ["None"], whatever else they
    hold. *)
Theorem vector_id_collision (m1 m2 : dict) (e1 e2 : list float) :
  Forall (fun v => v = VNone) (identity_candidates m1) ->
  Forall (fun v => v = VNone) (identity_candidates m2) ->
  v_id (make_vector m1 e1) = "None" /\ v_id (make_vector m2 e2) = "None".
Proof.
  unfold identity_candidates.
  intros H1 H2.
  inversion H1 as [| ? ? Ha1 H1']; inversion H1' as [| ? ? Hb1 H1'']; inversion H1'' as [| ? ? Hc1 _].
  inversion H2 as [| ? ? Ha2 H2']; inversion H2' as [| ? ? Hb2 H2'']; inversion H2'' as [| ? ? Hc2 _].
  unfold make_vector, vector_id, identity_value. cbn [v_id].
  rewrite Ha1, Hb1, Hc1, Ha2, Hb2, Hc2. split; reflexivity.
Qed.
End NoIdentity.

Lemma vector_id_collision_witness :
  Forall (fun v => v = VNone) (identity_candidates [("name", VStr "Red Shoes")]) /\
  Forall (fun v => v = VNone) (identity_candidates [("name", VStr "Blue Hat"); ("id", VNone)]) /\
  v_id (make_vector [("name", VStr "Red Shoes")] [0.5%float]) = "None" /\
  v_id (make_vector [("name", VStr "Blue Hat"); ("id", VNone)] []) = "None".
Proof.
  assert (H1 : Forall (fun v => v = VNone) (identity_candidates [("name", VStr "Red Shoes")]))
    by (repeat constructor).
  assert (H2 : Forall (fun v => v = VNone)
                 (identity_candidates [("name", VStr "Blue Hat"); ("id", VNone)]))
    by (repeat constructor).
  split; [exact H1 |]. split; [exact H2 |].
  exact (vector_id_collision [("name", VStr "Red Shoes")]
           [("name", VStr "Blue Hat"); ("id", VNone)] [0.5%float] [] H1 H2).
Defined.

(* ------------------------------------------------------------------ *)
(** ** The embedding service *)

Lemma embed_calls_app (t1 t2 : list event) :
  embed_calls (t1 ++ t2) = (embed_calls t1 ++ embed_calls t2)%list.
Proof. apply flat_map_app. Qed.

Lemma _get_embedding_run (svc : EmbeddingService) (text : string) :
  _get_embedding svc text =
  match embeddings_create svc text with
  | Ok e => ([EvEmbed text], Ok e)
  | Raise x => ([EvEmbed text; EvLog "error" "Error calling OpenAI API"], Raise x)
  end.
Proof.
  unfold _get_embedding, reraise_logged, try_except, call, bind, log, emit, raise.
  cbn [fst snd]. now destruct (embeddings_create svc text).
Qed.

Lemma generate_embedding_run (svc : EmbeddingService) (text : string) :
  generate_embedding svc text =
  match embeddings_create svc text with
  | Ok e => ([EvEmbed text], Ok e)
  | Raise x =>
      ([EvEmbed text; EvLog "error" "Error calling OpenAI API";
        EvLog "error" "Error generating embedding"], Raise x)
  end.
Proof.
  unfold generate_embedding. rewrite _get_embedding_run.
  unfold reraise_logged, try_except, bind, log, emit, raise.
  now destruct (embeddings_create svc text).
Qed.

(** X7.  [generate_embedding] asks the provider exactly once for the text it
    was given, also when the provider fails, and its outcome is the
    provider's: the embedding as returned, or the same exception. *)
Theorem generate_embedding_once (svc : EmbeddingService) (text : string) :
  outcome (generate_embedding svc text) = embeddings_create svc text /\
  embed_calls (trace (generate_embedding svc text)) = [text].
Proof.
  rewrite generate_embedding_run.
  destruct (embeddings_create svc text); split; reflexivity.
Qed.

Lemma embed_calls_map (texts : list string) : embed_calls (map EvEmbed texts) = texts.
Proof.
  induction texts as [| t r IH]; [reflexivity |].
  change (embed_calls (map EvEmbed (t :: r))) with (t :: embed_calls (map EvEmbed r)).
  now rewrite IH.
Qed.

Section EmbeddingsLoop.
Variable svc : EmbeddingService.
Variable body : list (list float) -> string -> Eff (list (list float)).
Hypothesis Hbody : forall embeddings text,
  body embeddings text =
  bind (_get_embedding svc text) (fun embedding => ret (embeddings ++ [embedding])%list).

Lemma embeddings_loop (texts : list string) :
  forall acc,
  exists t o,
    for_each texts body acc = (t, o) /\
    match o with
    | Ok l =>
        exists more,
          l = (acc ++ more)%list /\
          Forall2 (fun text e => embeddings_create svc text = Ok e) texts more /\
          t = map EvEmbed texts
    | Raise x =>
        exists done text rest,
          texts = (done ++ text :: rest)%list /\
          embeddings_create svc text = Raise x /\
          Forall (fun t => exists e, embeddings_create svc t = Ok e) done /\
          embed_calls t = (done ++ [text])%list
    end.
Proof.
  induction texts as [| text r IH]; intros acc.
  - exists [], (Ok acc). split; [reflexivity |].
    exists []. rewrite app_nil_r. repeat split. constructor.
  - rewrite for_each_cons, Hbody, _get_embedding_run.
    destruct (embeddings_create svc text) as [e | x] eqn:E.
    + destruct (IH (acc ++ [e])%list) as (t & o & Hrun & Ho).
      exists (EvEmbed text :: t), o.
      unfold bind, ret. cbn [fst snd app]. rewrite Hrun. cbn [fst snd].
      split; [reflexivity |].
      destruct o as [l | x].
      * destruct Ho as (more & -> & Hall & ->).
        exists (e :: more). rewrite <- app_assoc. repeat split. now constructor.
      * destruct Ho as (done & t' & rest & -> & Hx & Hdone & Hcalls).
        exists (text :: done), t', rest. repeat split; try assumption.
        -- constructor; [now exists e | assumption].
        -- change (embed_calls (EvEmbed text :: t)) with (text :: embed_calls t).
           now rewrite Hcalls.
    + exists [EvEmbed text; EvLog "error" "Error calling OpenAI API"], (Raise x).
      unfold bind. cbn [fst snd]. split; [reflexivity |].
      exists [], text, r. repeat split; try assumption. constructor.
Qed.
End EmbeddingsLoop.

(** X8.  [generate_embeddings] embeds the texts one by one in input order.
    When it returns, the result has one embedding per text, in that order,
    and the provider was asked for exactly these texts; when it raises, the
    exception is the provider's for the first text that failed, and the
    texts after that one were never sent. *)
Theorem generate_embeddings_ordered (svc : EmbeddingService) (texts : list string) :
  match outcome (generate_embeddings svc texts) with
  | Ok l =>
      Forall2 (fun text e => embeddings_create svc text = Ok e) texts l /\
      embed_calls (trace (generate_embeddings svc texts)) = texts
  | Raise x =>
      exists done text rest,
        texts = (done ++ text :: rest)%list /\
        embeddings_create svc text = Raise x /\
        Forall (fun t => exists e, embeddings_create svc t = Ok e) done /\
        embed_calls (trace (generate_embeddings svc texts)) = (done ++ [text])%list
  end.
Proof.
  destruct (embeddings_loop svc _ (fun _ _ => eq_refl) texts []) as (t & o & Hrun & Ho).
  unfold generate_embeddings, reraise_logged, try_except, outcome, trace.
  rewrite Hrun. cbn [fst snd].
  destruct o as [l | x]; cbn [fst snd].
  - destruct Ho as (more & -> & Hall & ->). cbn [app].
    split; [assumption | apply embed_calls_map].
  - destruct Ho as (done & text & rest & Ht & Hx & Hdone & Hcalls).
    exists done, text, rest. repeat split; try assumption.
    rewrite embed_calls_app, Hcalls. cbn. now rewrite app_nil_r.
Qed.

(** Three texts, the second of which the provider rejects. *)
Example generate_embeddings_stops :
  generate_embeddings example_embedding ["a"; ""; "c"] =
  ([EvEmbed "a"; EvEmbed ""; EvLog "error" "Error calling OpenAI API";
    EvLog "error" "Error generating batch embeddings"],
   Raise (PyError "BadRequestError" "empty input")).
Proof. reflexivity. Qed.

(* ------------------------------------------------------------------ *)
(** ** The cache service, for every client *)

Section CacheAny.
Context `{PyRuntime}.

(** X9.  Neither [get] nor [set] ever raises, whatever the client does and
    whether or not there is one. *)
Theorem CacheService_never_raises (self : CacheService) (query : string)
    (value : pyval) :
  (exists r, outcome (CacheService_get self query) = Ok r) /\
  (exists b, outcome (CacheService_set self query value) = Ok b).
Proof.
  unfold CacheService_get, CacheService_set, try_except, bind, call, log, emit, ret,
    raise, outcome.
  destruct (client self) as [c |]; cbn [fst snd].
  - split.
    + destruct (lc_search c query) as [[v |] | e]; cbn [fst snd];
        [destruct (negb _) | |]; eexists; reflexivity.
    + destruct (json_dumps value) as [payload |]; cbn [fst snd];
        [destruct (lc_set c query payload) |]; eexists; reflexivity.
  - split; eexists; reflexivity.
Qed.

(** X10.  [get] returns a value exactly when there is a client whose search
    answered that value and the value holds at least one entry; an answer
    without entries is a miss. *)
Theorem CacheService_get_Some_iff (self : CacheService) (query : string)
    (v : CacheSearchResult) :
  outcome (CacheService_get self query) = Ok (Some v) <->
  exists c, client self = Some c /\ lc_search c query = Ok (Some v) /\ data v <> [].
Proof.
  unfold CacheService_get, try_except, bind, call, log, emit, ret, outcome.
  destruct (client self) as [c |]; cbn [fst snd].
  - split.
    + destruct (lc_search c query) as [[w |] | e] eqn:E; cbn [fst snd];
        try discriminate.
      destruct (data w) as [| x r] eqn:Ew; cbn [List.length Nat.eqb negb fst snd];
        try discriminate.
      intros [= <-]. exists c. split; [reflexivity |]. split; [exact E |].
      rewrite Ew. discriminate.
    + intros (c' & [= <-] & Hs & Hd). rewrite Hs. cbn [fst snd].
      destruct (data v); [now elim Hd | reflexivity].
  - split; [discriminate | intros (c & Hc & _); discriminate Hc].
Qed.

End CacheAny.

(** X12.  The factory builds the cache service once: after a call that
    succeeded, every later call returns the same service without
    connecting again; after a call whose connect failed nothing is kept, so
    the next call connects anew. *)
Theorem get_cache_service_once (first second : result LangCache) :
  match outcome (fst (get_cache_service None first)) with
  | Ok svc =>
      snd (get_cache_service None first) = Some svc /\
      get_cache_service (Some svc) second = (([], Ok svc), Some svc)
  | Raise e =>
      first = Raise e /\
      snd (get_cache_service None first) = None /\
      fst (get_cache_service None second) = CacheService_init second
  end.
Proof.
  destruct first as [c | e]; cbn; repeat split.
Qed.

(* ------------------------------------------------------------------ *)
(** ** The vector store service *)

Lemma index_queries_app (t1 t2 : list event) :
  index_queries (t1 ++ t2) = (index_queries t1 ++ index_queries t2)%list.
Proof. apply flat_map_app. Qed.

Lemma PineconeService_query_run (svc : PineconeService) (v : list float) (k : Z)
    (namespace : option string) :
  PineconeService_query svc v k namespace =
  match index_query svc v k (sent_namespace namespace) with
  | Ok ms =>
      ([EvLog "info" "Querying Pinecone"; EvIndexQuery v k (sent_namespace namespace);
        EvLog "info" "Query completed"], Ok ms)
  | Raise e =>
      ([EvLog "info" "Querying Pinecone"; EvIndexQuery v k (sent_namespace namespace);
        EvLog "error" "Error querying Pinecone"], Raise e)
  end.
Proof.
  unfold PineconeService_query, sent_namespace, reraise_logged, try_except, bind, call,
    log, emit, ret, raise.
  destruct (truthy_namespace namespace); cbn [fst snd];
    match goal with |- context [index_query svc v k ?ns] =>
      destruct (index_query svc v k ns); reflexivity
    end.
Qed.

(** X13.  [query] sends exactly one query to the index, with the namespace
    only when it is neither [None] nor empty, and its outcome is the
    index's: the matches as returned, or the same exception. *)
Theorem PineconeService_query_once (svc : PineconeService) (v : list float) (k : Z)
    (namespace : option string) :
  outcome (PineconeService_query svc v k namespace)
    = index_query svc v k (sent_namespace namespace) /\
  index_queries (trace (PineconeService_query svc v k namespace))
    = [(v, k, sent_namespace namespace)].
Proof.
  rewrite PineconeService_query_run.
  destruct (index_query svc v k (sent_namespace namespace)); split; reflexivity.
Qed.

Section UpsertAny.
Variable svc : PineconeService.
Variable vectors : list Vector.
Variable namespace : option string.

Lemma upsert_step_run (size i : nat) (responses : list pyval) :
  size <> 0 ->
  upsert_step svc vectors namespace (size, responses) i =
  ([EvLog "debug" "Upserting batch";
    EvIndexUpsert (py_slice vectors i (i + size)) (sent_namespace namespace)],
   match index_upsert svc (py_slice vectors i (i + size)) (sent_namespace namespace) with
   | Ok r => Ok (List.length (py_slice vectors i (i + size)), (responses ++ [r])%list)
   | Raise e => Raise e
   end).
Proof.
  intros Hsize. unfold upsert_step, sent_namespace.
  apply Nat.eqb_neq in Hsize. rewrite Hsize.
  destruct (truthy_namespace namespace);
    unfold bind, ret, log, emit, call; cbn [fst snd];
    match goal with |- context [index_upsert svc ?b ?ns] =>
      destruct (index_upsert svc b ns); reflexivity
    end.
Qed.

#[local] Abbreviation batch_at i := (py_slice vectors i (i + 100)).
#[local] Abbreviation sent_to := (sent_namespace namespace).

Lemma upsert_loop_any (indices : list nat) :
  forall responses,
    full_until_last (List.length vectors) indices ->
    (forall i, In i indices -> i < List.length vectors) ->
    exists t o,
      for_each indices (upsert_step svc vectors namespace) (100, responses) = (t, o) /\
      match o with
      | Ok st =>
          exists more,
            snd st = (responses ++ more)%list /\
            Forall2 (fun i r => index_upsert svc (batch_at i) sent_to = Ok r) indices more /\
            index_upserts t = map (fun i => (batch_at i, sent_to)) indices
      | Raise e =>
          exists done i rest,
            indices = (done ++ i :: rest)%list /\
            Forall (fun j => exists r, index_upsert svc (batch_at j) sent_to = Ok r) done /\
            index_upsert svc (batch_at i) sent_to = Raise e /\
            index_upserts t = map (fun j => (batch_at j, sent_to)) (done ++ [i])
      end.
Proof.
  induction indices as [| i rest IH]; intros responses Hfull Hlt.
  - exists [], (Ok (100, responses)). split; [reflexivity |].
    exists []. cbn [snd]. rewrite app_nil_r. repeat split. constructor.
  - rewrite for_each_cons, (upsert_step_run 100 i responses) by discriminate.
    destruct (index_upsert svc (batch_at i) sent_to) as [r | e] eqn:E.
    + destruct rest as [| i2 rest].
      * exists [EvLog "debug" "Upserting batch"; EvIndexUpsert (batch_at i) sent_to],
               (Ok (List.length (batch_at i), (responses ++ [r])%list)).
        split; [reflexivity |]. exists [r]. repeat split.
        constructor; [exact E | constructor].
      * destruct Hfull as [Hroom Hfull].
        assert (Hlen : List.length (batch_at i) = 100).
        { rewrite py_slice_length. lia. }
        rewrite Hlen.
        destruct (IH (responses ++ [r])%list Hfull) as (t & o & Hrun & Ho).
        { intros j Hj. apply Hlt. now right. }
        exists ([EvLog "debug" "Upserting batch"; EvIndexUpsert (batch_at i) sent_to]
                ++ t)%list, o.
        unfold bind. cbn [fst snd]. rewrite Hrun. cbn [fst snd].
        split; [reflexivity |].
        destruct o as [st | e].
        -- destruct Ho as (more & Hst & Hall & Hcalls).
           exists (r :: more). rewrite Hst, <- app_assoc. split; [reflexivity |].
           split; [constructor; assumption |].
           rewrite index_upserts_app, Hcalls. reflexivity.
        -- destruct Ho as (done & j & rest' & Hsplit & Hdone & Hraise & Hcalls).
           exists (i :: done), j, rest'. rewrite Hsplit. split; [reflexivity |].
           split; [constructor; [now exists r | exact Hdone] |].
           split; [exact Hraise |].
           rewrite index_upserts_app, Hcalls. reflexivity.
    + exists [EvLog "debug" "Upserting batch"; EvIndexUpsert (batch_at i) sent_to],
             (Raise e).
      unfold bind. cbn [fst snd]. split; [reflexivity |].
      exists [], i, rest. repeat split; [constructor | exact E].
Qed.

Lemma Forall2_map_l {A B C : Type} (f : A -> B) (P : B -> C -> Prop) (l : list A)
    (l' : list C) :
  Forall2 (fun a c => P (f a) c) l l' -> Forall2 P (map f l) l'.
Proof. induction 1; constructor; assumption. Qed.

(** X14.  [upsert] sends the consecutive batches of 100 in order and stops
    at the first one the index refuses.  If it returns, the index has
    accepted every batch, each was sent once, in order, the responses
    reported are the index's, in that order, and the count reported is the
    length of the input.  If it raises, the exception is the one the index
    raised for a batch, every batch before that one was accepted, and the
    batches sent are those up to and with the refused one: no batch after
    it was sent. *)
Theorem PineconeService_upsert_stops :
  match outcome (PineconeService_upsert svc vectors namespace) with
  | Ok out =>
      Forall2 (fun b r => index_upsert svc b sent_to = Ok r)
              (consecutive_batches 100 vectors) (batches out) /\
      index_upserts (trace (PineconeService_upsert svc vectors namespace))
        = map (fun b => (b, sent_to)) (consecutive_batches 100 vectors) /\
      total_upserted out = List.length vectors
  | Raise e =>
      exists accepted refused rest,
        consecutive_batches 100 vectors = (accepted ++ refused :: rest)%list /\
        Forall (fun b => exists r, index_upsert svc b sent_to = Ok r) accepted /\
        index_upsert svc refused sent_to = Raise e /\
        index_upserts (trace (PineconeService_upsert svc vectors namespace))
          = map (fun b => (b, sent_to)) (accepted ++ [refused])
  end.
Proof.
  destruct (upsert_loop_any (py_range 0 (List.length vectors) 100) [])
    as (t & o & Hrun & Ho).
  { apply full_until_last_range. }
  { apply py_range_100_In. }
  unfold PineconeService_upsert, reraise_logged, try_except, bind, log, emit, ret, raise,
    outcome, trace.
  cbn [fst snd]. rewrite Hrun. cbn [fst snd].
  unfold consecutive_batches.
  destruct o as [st | e]; cbn [fst snd].
  - destruct Ho as (more & Hst & Hall & Hcalls). cbn [app] in Hst.
    cbn [total_upserted batches]. rewrite Hst.
    split; [now apply Forall2_map_l |]. split; [| reflexivity].
    change (EvLog "info" "Upserting vectors to Pinecone"
              :: t ++ [EvLog "info" "Successfully upserted vectors"] ++ [])%list
      with ([EvLog "info" "Upserting vectors to Pinecone"]
              ++ t ++ [EvLog "info" "Successfully upserted vectors"])%list.
    rewrite !index_upserts_app, Hcalls. cbn [index_upserts flat_map app].
    now rewrite app_nil_r, map_map.
  - destruct Ho as (done & i & rest & Hsplit & Hdone & Hraise & Hcalls).
    exists (map (fun i => batch_at i) done), (batch_at i), (map (fun i => batch_at i) rest).
    split; [now rewrite Hsplit, map_app |].
    split; [now apply Forall_map |]. split; [exact Hraise |].
    change ((EvLog "info" "Upserting vectors to Pinecone" :: t)
              ++ [EvLog "error" "Error upserting vectors to Pinecone"] ++ [])%list
      with ([EvLog "info" "Upserting vectors to Pinecone"]
              ++ t ++ [EvLog "error" "Error upserting vectors to Pinecone"])%list.
    rewrite !index_upserts_app, Hcalls. cbn [index_upserts flat_map app].
    rewrite app_nil_r.
    change [batch_at i] with (map (fun i => batch_at i) [i]).
    now rewrite <- map_app, map_map.
Qed.
End UpsertAny.

(* ------------------------------------------------------------------ *)
(** ** The ingest handlers, case by case *)

Lemma logs_no_embed (t : list event) : Forall is_log t -> embed_calls t = [].
Proof.
  induction 1 as [| e t He _ IH]; [reflexivity |].
  destruct e; try destruct He.
  change (embed_calls (EvLog level msg :: t)) with (embed_calls t). exact IH.
Qed.

Section IngestCases.
Context `{PyRuntime}.
Variable templates : Templates.
Variable embedding_service : EmbeddingService.

Lemma generate_text_logs (metadata : dict) (object_type : OBJECT_TYPE) :
  Forall is_log (trace (generate_text templates metadata object_type)).
Proof. apply trace_generate_text. intros level msg. exact I. Qed.

Lemma generate_text_ALL (metadata : dict) :
  outcome (generate_text templates metadata ALL)
    = Raise (PyError "ValueError" "Unknown object type: all").
Proof. reflexivity. Qed.

Lemma ingest_document_run (request : IngestRequest) :
  ingest_document templates embedding_service request =
  let gen := generate_text templates (ir_metadata request) (ir_type request) in
  match outcome gen with
  | Ok text =>
      match embeddings_create embedding_service text with
      | Ok _ =>
          ((trace gen ++ [EvEmbed text; EvLog "info" "Upserting vector";
                          EvLog "info" "Successfully ingested document"])%list,
           Ok {| status := "success";
                 message := OBJECT_TYPE_value (ir_type request)
                            ++ " ingested successfully" |})
      | Raise e =>
          ((trace gen ++ [EvEmbed text; EvLog "error" "Error calling OpenAI API";
                          EvLog "error" "Error generating embedding";
                          EvLog "error" "Error ingesting document"])%list,
           Raise (HTTPException 500 (exn_str e)))
      end
  | Raise e =>
      ((trace gen ++ [EvLog "error" "Error ingesting document"])%list,
       Raise (HTTPException 500 (exn_str e)))
  end.
Proof.
  unfold ingest_document. cbv zeta.
  destruct (generate_text templates (ir_metadata request) (ir_type request)) as [t o].
  unfold outcome, trace. cbn [fst snd]. destruct o as [text | e].
  - rewrite (bind_ok (t, Ok text) _ text) by reflexivity.
    rewrite generate_embedding_run.
    destruct (embeddings_create embedding_service text) as [emb | e];
      unfold try_except, bind, log, emit, ret, raise, trace, outcome; cbn [fst snd app];
      rewrite <- ?app_assoc; reflexivity.
  - unfold try_except, bind, log, emit, ret, raise; cbn [fst snd app].
    reflexivity.
Qed.

(** X15.  [POST /ingest] answers in one of three ways.  If the text cannot be
    synthesized, it raises the HTTP error 500 with that exception's message
    and the embedding provider is never called.  Otherwise the provider is
    called once, with the synthesized text: if it fails, the handler raises
    the HTTP error 500 with the provider's message; if it answers, the
    handler returns the success response naming the object type. *)
Theorem ingest_document_cases (request : IngestRequest) :
  match outcome (generate_text templates (ir_metadata request) (ir_type request)) with
  | Ok text =>
      embed_calls (trace (ingest_document templates embedding_service request)) = [text] /\
      match embeddings_create embedding_service text with
      | Ok _ =>
          outcome (ingest_document templates embedding_service request)
            = Ok {| status := "success";
                    message := OBJECT_TYPE_value (ir_type request)
                               ++ " ingested successfully" |}
      | Raise e =>
          outcome (ingest_document templates embedding_service request)
            = Raise (HTTPException 500 (exn_str e))
      end
  | Raise e =>
      embed_calls (trace (ingest_document templates embedding_service request)) = [] /\
      outcome (ingest_document templates embedding_service request)
        = Raise (HTTPException 500 (exn_str e))
  end.
Proof.
  rewrite ingest_document_run. cbv zeta.
  pose proof (logs_no_embed _ (generate_text_logs (ir_metadata request) (ir_type request)))
    as Hlogs.
  destruct (outcome (generate_text templates (ir_metadata request) (ir_type request)))
    as [text | e].
  - destruct (embeddings_create embedding_service text);
      unfold trace at 1, outcome; cbn [fst snd];
      rewrite embed_calls_app, Hlogs; split; reflexivity.
  - unfold trace at 1, outcome; cbn [fst snd].
    rewrite embed_calls_app, Hlogs. split; reflexivity.
Qed.

Lemma process_metadata_run (object_type : OBJECT_TYPE) (metadata : dict) :
  outcome (process_metadata templates embedding_service object_type metadata) =
  Ok match outcome (generate_text templates metadata object_type) with
     | Ok text =>
         match embeddings_create embedding_service text with
         | Ok embedding => Some (make_vector metadata embedding)
         | Raise _ => None
         end
     | Raise _ => None
     end.
Proof.
  unfold process_metadata.
  destruct (generate_text templates metadata object_type) as [t o].
  unfold outcome. cbn [snd]. destruct o as [text | e].
  - rewrite (bind_ok (t, Ok text) _ text) by reflexivity.
    unfold try_except. cbn [snd].
    rewrite (bind_ok (log "debug" "Generated text for document") _ tt) by reflexivity.
    cbn [snd]. rewrite generate_embedding_run.
    destruct (embeddings_create embedding_service text); reflexivity.
  - reflexivity.
Qed.

Lemma produced_run (object_type : OBJECT_TYPE) (metadata : dict) :
  produced templates embedding_service object_type metadata =
  match outcome (generate_text templates metadata object_type) with
  | Ok text =>
      match embeddings_create embedding_service text with
      | Ok embedding => Some (make_vector metadata embedding)
      | Raise _ => None
      end
  | Raise _ => None
  end.
Proof.
  unfold produced. rewrite process_metadata_run.
  destruct (outcome (generate_text templates metadata object_type)) as [text | e];
    [destruct (embeddings_create embedding_service text) |]; reflexivity.
Qed.

Lemma produced_Some_iff (object_type : OBJECT_TYPE) (metadata : dict) (v : Vector) :
  produced templates embedding_service object_type metadata = Some v <->
  exists text embedding,
    outcome (generate_text templates metadata object_type) = Ok text /\
    embeddings_create embedding_service text = Ok embedding /\
    v = make_vector metadata embedding.
Proof.
  rewrite produced_run.
  destruct (outcome (generate_text templates metadata object_type)) as [text | e].
  - destruct (embeddings_create embedding_service text) as [emb | e] eqn:E; split.
    + intros [= <-]. now exists text, emb.
    + intros (text' & emb' & [= <-] & Hemb & ->). congruence.
    + discriminate.
    + intros (text' & emb' & [= <-] & Hemb & _). congruence.
  - split; [discriminate | intros (text & emb & Habs & _); discriminate Habs].
Qed.

(** X16.  A worker never raises.  It produces a vector exactly when both the
    synthesis and the embedding of the record succeed; the vector then
    carries the embedding as returned, the record's identity as id, and the
    sanitized record, a flat map, as metadata. *)
Theorem process_metadata_vector (object_type : OBJECT_TYPE) (metadata : dict) :
  (exists r,
     outcome (process_metadata templates embedding_service object_type metadata) = Ok r) /\
  (forall v,
     produced templates embedding_service object_type metadata = Some v <->
     exists text embedding,
       outcome (generate_text templates metadata object_type) = Ok text /\
       embeddings_create embedding_service text = Ok embedding /\
       v = {| v_id := vector_id metadata;
              v_values := embedding;
              v_metadata := sanitize_metadata (VDict metadata) "" "_" |}) /\
  (forall v,
     produced templates embedding_service object_type metadata = Some v ->
     flat (v_metadata v)).
Proof.
  split; [rewrite process_metadata_run; eexists; reflexivity |]. split.
  - intros v. exact (produced_Some_iff object_type metadata v).
  - intros v Hv. apply produced_Some_iff in Hv.
    destruct Hv as (text & emb & _ & _ & ->). apply sanitize_metadata_flat.
Qed.

(** X17.  The object type [all], which the request models accept, is unknown
    to the synthesizer: [POST /ingest] with that type raises the HTTP error
    500 without calling the embedding provider, and a worker of a batch of
    that type produces nothing for any record. *)
Theorem ingest_type_all (request : IngestRequest) (metadata : dict) :
  ir_type request = ALL ->
  outcome (ingest_document templates embedding_service request)
    = Raise (HTTPException 500 "Unknown object type: all") /\
  embed_calls (trace (ingest_document templates embedding_service request)) = [] /\
  produced templates embedding_service ALL metadata = None.
Proof.
  intros Hall. split; [| split].
  - rewrite ingest_document_run, Hall. reflexivity.
  - rewrite ingest_document_run, Hall. reflexivity.
  - rewrite produced_run. reflexivity.
Qed.
End IngestCases.

Lemma ingest_type_all_witness :
  ir_type all_request = ALL /\
  outcome (ingest_document source_templates example_embedding all_request)
    = Raise (HTTPException 500 "Unknown object type: all") /\
  embed_calls (trace (ingest_document source_templates example_embedding all_request)) = [] /\
  produced source_templates example_embedding ALL (ir_metadata all_request) = None.
Proof.
  split; [reflexivity |].
  exact (ingest_type_all source_templates example_embedding all_request
           (ir_metadata all_request) eq_refl).
Defined.

(* ------------------------------------------------------------------ *)
(** ** Search: the miss and the failures *)

Lemma cache_tasks_app (t1 t2 : list event) :
  cache_tasks (t1 ++ t2) = (cache_tasks t1 ++ cache_tasks t2)%list.
Proof. apply flat_map_app. Qed.

Lemma no_cache_task_nil (t : list event) : Forall no_cache_task t -> cache_tasks t = [].
Proof.
  induction 1 as [| e t He _ IH]; [reflexivity |].
  destruct e; try destruct He; exact IH.
Qed.

Lemma search_namespace_nonempty (location_id : option string)
    (namespace : option OBJECT_TYPE) :
  sent_namespace (Some (search_namespace location_id namespace))
    = Some (search_namespace location_id namespace).
Proof.
  unfold sent_namespace, truthy_namespace.
  replace (nonempty_str (search_namespace location_id namespace)) with true; [reflexivity |].
  destruct namespace as [[] |]; try reflexivity.
  unfold search_namespace; cbn. destruct location_id as [[| c s] |]; reflexivity.
Qed.

Lemma bind_Ok_inv {A B : Type} (m : Eff A) (k : A -> Eff B) (b : B) :
  outcome (bind m k) = Ok b -> exists a, outcome m = Ok a /\ outcome (k a) = Ok b.
Proof.
  unfold bind, outcome. destruct (snd m) as [a | e]; cbn [snd]; [| discriminate].
  intros Hk. now exists a.
Qed.

Section Within.
Variable Q : event -> Prop.

Lemma raises_within_all {A : Type} (m : Eff A) :
  Forall Q (trace m) -> raises_within Q m.
Proof. intros Hm e _. exact Hm. Qed.

Lemma raises_within_bind {A B : Type} (m : Eff A) (k : A -> Eff B) :
  Forall Q (trace m) -> (forall a, raises_within Q (k a)) ->
  raises_within Q (bind m k).
Proof.
  intros Hm Hk e. unfold bind, outcome, trace in *.
  destruct (snd m) as [a | e']; cbn [fst snd]; intros He.
  - apply Forall_app. split; [assumption | now apply (Hk a e)].
  - assumption.
Qed.
End Within.

Lemma CacheService_get_no_task (self : CacheService) (query : string) :
  Forall no_cache_task (trace (CacheService_get self query)).
Proof.
  unfold CacheService_get, try_except, bind, call, log, emit, ret, trace.
  destruct (client self) as [c |]; cbn [fst snd]; [| repeat constructor].
  destruct (lc_search c query) as [[v |] | e]; cbn [fst snd];
    [destruct (negb _) | |]; repeat constructor.
Qed.

Lemma CacheService_get_calls (self : CacheService) (query : string) :
  embed_calls (trace (CacheService_get self query)) = [] /\
  index_queries (trace (CacheService_get self query)) = [] /\
  cache_tasks (trace (CacheService_get self query)) = [].
Proof.
  unfold CacheService_get, try_except, bind, call, log, emit, ret, trace.
  destruct (client self) as [c |]; cbn [fst snd]; [| repeat split].
  destruct (lc_search c query) as [[v |] | e]; cbn [fst snd];
    [destruct (negb _) | |]; repeat split.
Qed.

Lemma outcome_bind {A B : Type} (m : Eff A) (k : A -> Eff B) :
  outcome (bind m k) = match outcome m with
                       | Ok a => outcome (k a)
                       | Raise e => Raise e
                       end.
Proof. unfold bind, outcome. now destruct (snd m). Qed.

Lemma trace_of_bind {A B : Type} (m : Eff A) (k : A -> Eff B) :
  trace (bind m k) = (trace m ++ match outcome m with
                                 | Ok a => trace (k a)
                                 | Raise _ => []
                                 end)%list.
Proof.
  unfold bind, outcome, trace. destruct (snd m); cbn [fst]; [reflexivity |].
  now rewrite app_nil_r.
Qed.

Lemma CacheService_get_total (self : CacheService) (query : string) :
  exists cached, outcome (CacheService_get self query) = Ok cached.
Proof.
  unfold CacheService_get, try_except, bind, call, log, emit, ret, outcome.
  destruct (client self) as [c |]; cbn [fst snd]; [| now eexists].
  destruct (lc_search c query) as [[v |] | e]; cbn [fst snd];
    [destruct (negb _) | |]; now eexists.
Qed.

(** *** Calls in the pool *)

Lemma merge_Permutation {A : Type} (t l r : list A) :
  merge t l r -> Permutation (t ++ l) r.
Proof.
  induction 1 as [| x t l r _ IH | x t l r _ IH]; cbn [app].
  - constructor.
  - now constructor.
  - etransitivity; [symmetry; apply Permutation_middle | now constructor].
Qed.

Lemma interleaving_Permutation {A : Type} (ts : list (list A)) (l : list A) :
  interleaving ts l -> Permutation (List.concat ts) l.
Proof.
  induction 1 as [| t ts l r _ IH Hm]; cbn [List.concat]; [constructor |].
  etransitivity; [apply Permutation_app_head; exact IH | now apply merge_Permutation].
Qed.

Lemma raised_In {A : Type} (tasks : list (Eff A)) (e : exn) :
  In e (raised tasks) -> exists task, In task tasks /\ outcome task = Raise e.
Proof.
  unfold raised. rewrite in_flat_map. intros (task & Hin & He).
  exists task. split; [assumption |].
  destruct (outcome task); [destruct He | destruct He as [-> | []]; reflexivity].
Qed.

Lemma returned_In {A : Type} (tasks : list (Eff A)) (a : A) :
  In a (returned tasks) -> exists task, In task tasks /\ outcome task = Ok a.
Proof.
  unfold returned. rewrite in_flat_map. intros (task & Hin & Ha).
  exists task. split; [assumption |].
  destruct (outcome task); [destruct Ha as [-> | []]; reflexivity | destruct Ha].
Qed.

Lemma all_returned {A : Type} (tasks : list (Eff A)) (found : list A) :
  Forall2 (fun task a => outcome task = Ok a) tasks found ->
  raised tasks = [] /\ returned tasks = found.
Proof.
  induction 1 as [| task a tasks found Ha _ [IHr IHf]]; [split; reflexivity |].
  unfold raised, returned in *. cbn [flat_map]. rewrite Ha, IHr, IHf. split; reflexivity.
Qed.

Section Gather.
Variable executor : Executor.
Variable A : Type.
Variable tasks : list (Eff A).

Lemma gather_trace : Permutation (List.concat (map trace tasks)) (trace (gather executor tasks)).
Proof. apply interleaving_Permutation, interleave_ok. Qed.

Lemma gather_Forall (Q : event -> Prop) :
  Forall (fun task => Forall Q (trace task)) tasks ->
  Forall Q (trace (gather executor tasks)).
Proof.
  intros Hall. eapply Permutation_Forall; [apply gather_trace |].
  apply Forall_concat, Forall_map. exact Hall.
Qed.

Lemma gather_Ok (found : list A) :
  Forall2 (fun task a => outcome task = Ok a) tasks found ->
  outcome (gather executor tasks) = Ok found.
Proof.
  intros Hall. destruct (all_returned tasks found Hall) as [Hr Hf].
  unfold gather, outcome. cbn [snd]. now rewrite Hr, Hf.
Qed.

Lemma gather_Ok_In (found : list A) (a : A) :
  outcome (gather executor tasks) = Ok found -> In a found ->
  exists task, In task tasks /\ outcome task = Ok a.
Proof.
  unfold gather, outcome at 1. cbn [snd].
  destruct (raised tasks); [| discriminate]. intros [= <-]. apply returned_In.
Qed.

Lemma gather_Raise (e : exn) :
  outcome (gather executor tasks) = Raise e ->
  exists task, In task tasks /\ outcome task = Raise e.
Proof.
  unfold gather, outcome at 1. cbn [snd].
  destruct (raised tasks) as [| e0 es] eqn:E; [discriminate |].
  intros [= <-]. apply raised_In. rewrite E. apply first_raised_ok.
Qed.
End Gather.

Lemma query_event_calls (t : list event) :
  Forall query_event t -> embed_calls t = [] /\ cache_tasks t = [].
Proof.
  induction 1 as [| e t He _ [IHe IHc]]; [split; reflexivity |].
  unfold embed_calls, cache_tasks in *. cbn [flat_map]. rewrite IHe, IHc.
  destruct e; try destruct He; split; reflexivity.
Qed.

(** *** The queries of a search *)

Section Queries.
Variable pinecone_service : PineconeService.
Variable v : list float.
Variable k : Z.
Variable location_id : option string.

#[local] Abbreviation query_of namespace :=
  (PineconeService_query pinecone_service v k
     (Some (search_namespace location_id namespace))).
#[local] Abbreviation answer_of namespace :=
  (index_query pinecone_service v k (Some (search_namespace location_id namespace))).

Lemma query_of_run (namespace : option OBJECT_TYPE) :
  outcome (query_of namespace) = answer_of namespace /\
  index_queries (trace (query_of namespace))
    = [(v, k, Some (search_namespace location_id namespace))] /\
  Forall query_event (trace (query_of namespace)).
Proof.
  rewrite PineconeService_query_run, search_namespace_nonempty.
  destruct (answer_of namespace); repeat split; repeat constructor.
Qed.

Lemma queries_events (namespaces : list (option OBJECT_TYPE)) :
  Forall (fun task => Forall query_event (trace task)) (map (fun ns => query_of ns) namespaces).
Proof. apply Forall_map, Forall_forall. intros ns _. apply query_of_run. Qed.

Lemma queries_calls (namespaces : list (option OBJECT_TYPE)) :
  index_queries (List.concat (map trace (map (fun ns => query_of ns) namespaces)))
    = map (fun ns => (v, k, Some (search_namespace location_id ns))) namespaces.
Proof.
  induction namespaces as [| ns r IH]; [reflexivity |].
  cbn [map List.concat]. rewrite index_queries_app, IH.
  destruct (query_of_run ns) as (_ & -> & _). reflexivity.
Qed.

Lemma queries_Ok (namespaces : list (option OBJECT_TYPE)) (found : list (list dict)) :
  Forall2 (fun ns ms => answer_of ns = Ok ms) namespaces found ->
  Forall2 (fun task ms => outcome task = Ok ms)
          (map (fun ns => query_of ns) namespaces) found.
Proof.
  induction 1 as [| ns ms r found Hns _ IH]; cbn [map]; constructor; [| exact IH].
  destruct (query_of_run ns) as (-> & _). exact Hns.
Qed.

Lemma queries_In (namespaces : list (option OBJECT_TYPE)) (task : Eff (list dict)) :
  In task (map (fun ns => query_of ns) namespaces) ->
  exists ns, In ns namespaces /\ outcome task = answer_of ns.
Proof.
  rewrite in_map_iff. intros (ns & <- & Hin). exists ns. split; [assumption |].
  apply query_of_run.
Qed.
End Queries.

Section SearchMiss.
Context `{PyRuntime}.
Variable SearchMatch_new : pyval -> pyval -> pyval -> result SearchMatch.
Variable executor : Executor.
Variable embedding_service : EmbeddingService.
Variable pinecone_service : PineconeService.
Variable cache_service : CacheService.
Variable request : SearchRequest.

#[local] Abbreviation searched :=
  (search_documents SearchMatch_new executor embedding_service pinecone_service
     cache_service request).
#[local] Abbreviation namespaces := (query_namespaces (sr_namespace request)).
#[local] Abbreviation queries_with query_embedding :=
  (map (fun namespace =>
          PineconeService_query pinecone_service query_embedding (sr_top_k request)
            (Some (search_namespace (sr_location_id request) namespace)))
       namespaces).
#[local] Abbreviation valid_match :=
  (fun (m : dict) (search_match : SearchMatch) =>
     SearchMatch_new (dict_get m "id") (dict_get m "metadata") (dict_get m "score")
       = Ok search_match).

Lemma search_documents_branches :
  searched
  = try_except
      (bind (CacheService_get cache_service (sr_query request))
         (fun cached_results =>
            match cache_hit cached_results with
            | Some stored => hit_branch SearchMatch_new stored
            | None =>
                miss_branch SearchMatch_new executor embedding_service pinecone_service
                  request
            end))
      (fun e => raise (HTTPException 500 (exn_str e))).
Proof. reflexivity. Qed.

Lemma fresh_match_run (m : dict) :
  fresh_match SearchMatch_new m
  = ([], match SearchMatch_new (dict_get m "id") (dict_get m "metadata")
                 (dict_get m "score") with
         | Ok search_match => Ok (match_record m, search_match)
         | Raise e => Raise e
         end).
Proof.
  unfold fresh_match, bind, lift_result, ret, match_record. cbn [fst snd].
  now destruct (SearchMatch_new _ _ _).
Qed.

Lemma fresh_matches_silent (ms : list dict) :
  trace (map_eff (fresh_match SearchMatch_new) ms) = [].
Proof.
  apply silent_nil, trace_map_eff. intros m. rewrite fresh_match_run. constructor.
Qed.

Lemma fresh_matches_run (ms : list dict) (matches : list SearchMatch) :
  Forall2 valid_match ms matches ->
  exists built,
    outcome (map_eff (fresh_match SearchMatch_new) ms) = Ok built /\
    map fst built = map match_record ms /\ map snd built = matches.
Proof.
  induction 1 as [| m search_match ms matches Hm _ (built & Hrun & Hfst & Hsnd)].
  - exists []. repeat split.
  - exists ((match_record m, search_match) :: built).
    cbn [map_eff map fst snd]. rewrite !outcome_bind, fresh_match_run.
    unfold outcome at 1. cbn [snd]. rewrite Hm, outcome_bind, Hrun, Hfst, Hsnd.
    repeat split.
Qed.

Lemma fresh_matches_raise (ms : list dict) (e : exn) :
  outcome (map_eff (fresh_match SearchMatch_new) ms) = Raise e ->
  exists m, In m ms /\
            SearchMatch_new (dict_get m "id") (dict_get m "metadata") (dict_get m "score")
              = Raise e.
Proof.
  induction ms as [| m ms IH]; [discriminate |].
  cbn [map_eff]. rewrite outcome_bind, fresh_match_run. unfold outcome at 1. cbn [snd].
  destruct (SearchMatch_new _ _ _) as [search_match | e'] eqn:E.
  - rewrite outcome_bind.
    destruct (outcome (map_eff (fresh_match SearchMatch_new) ms)) as [built | e'] eqn:Er;
      [discriminate |].
    intros [= <-]. destruct (IH eq_refl) as (m' & Hin & Hm').
    exists m'. split; [now right | exact Hm'].
  - intros [= <-]. exists m. split; [now left | exact E].
Qed.

(** The run of the miss branch once the query is embedded: the embedding,
    the queries in the order of time the executor gives them, and a cache
    write exactly when the branch returns. *)
Lemma miss_branch_embedded (query_embedding : list float) :
  embeddings_create embedding_service (sr_query request) = Ok query_embedding ->
  let gathered := gather executor (queries_with query_embedding) in
  exists tail,
    trace (miss_branch SearchMatch_new executor embedding_service pinecone_service request)
      = (EvEmbed (sr_query request) :: trace gathered ++ tail)%list /\
    match outcome gathered with
    | Raise e =>
        tail = [] /\
        outcome (miss_branch SearchMatch_new executor embedding_service pinecone_service
                   request) = Raise e
    | Ok found =>
        match outcome (map_eff (fresh_match SearchMatch_new) (List.concat found)) with
        | Raise e =>
            tail = [] /\
            outcome (miss_branch SearchMatch_new executor embedding_service
                       pinecone_service request) = Raise e
        | Ok built =>
            tail = [EvAddTask (sr_query request) (VList (map fst built))] /\
            outcome (miss_branch SearchMatch_new executor embedding_service
                       pinecone_service request)
              = Ok {| results := map snd built;
                      query_rewritten := None;
                      total_results := List.length (map snd built) |}
        end
    end.
Proof.
  intros Hembed gathered. unfold miss_branch.
  rewrite generate_embedding_run, Hembed.
  rewrite (bind_ok _ _ query_embedding) by reflexivity.
  fold gathered. set (rest := bind gathered _).
  assert (Hrest : exists tail,
            trace rest = (trace gathered ++ tail)%list /\
            match outcome gathered with
            | Raise e => tail = [] /\ outcome rest = Raise e
            | Ok found =>
                match outcome (map_eff (fresh_match SearchMatch_new) (List.concat found)) with
                | Raise e => tail = [] /\ outcome rest = Raise e
                | Ok built =>
                    tail = [EvAddTask (sr_query request) (VList (map fst built))] /\
                    outcome rest
                      = Ok {| results := map snd built;
                              query_rewritten := None;
                              total_results := List.length (map snd built) |}
                end
            end).
  { unfold rest. rewrite trace_of_bind, outcome_bind.
    destruct (outcome gathered) as [found | e].
    - rewrite trace_of_bind, outcome_bind, fresh_matches_silent.
      destruct (outcome (map_eff (fresh_match SearchMatch_new) (List.concat found)))
        as [built | e]; eexists; (split; [reflexivity | split; reflexivity]).
    - exists []. split; [reflexivity | split; reflexivity]. }
  destruct Hrest as (tail & Ht & Ho). exists tail.
  change (outcome (_, outcome rest)) with (outcome rest).
  split; [| exact Ho].
  change (trace (?a, outcome rest)) with a.
  change (trace ([EvEmbed (sr_query request)], Ok query_embedding))
    with [EvEmbed (sr_query request)].
  now rewrite Ht.
Qed.

Lemma gathered_quiet (query_embedding : list float) :
  Forall query_event (trace (gather executor (queries_with query_embedding))).
Proof. apply gather_Forall, queries_events. Qed.

(** What the cache answered is a miss, and the provider embeds the query. *)
Variable cached : option CacheSearchResult.
Variable query_embedding : list float.
Hypothesis Hget :
  outcome (CacheService_get cache_service (sr_query request)) = Ok cached.
Hypothesis Hmiss : cache_hit cached = None.
Hypothesis Hembed :
  embeddings_create embedding_service (sr_query request) = Ok query_embedding.

Lemma searched_miss :
  trace searched
    = (trace (CacheService_get cache_service (sr_query request))
         ++ trace (miss_branch SearchMatch_new executor embedding_service pinecone_service
                     request))%list /\
  outcome searched
    = match outcome (miss_branch SearchMatch_new executor embedding_service
                       pinecone_service request) with
      | Ok resp => Ok resp
      | Raise e => Raise (HTTPException 500 (exn_str e))
      end.
Proof.
  rewrite search_documents_branches.
  rewrite (bind_ok _ _ cached) by exact Hget. rewrite Hmiss.
  split.
  - now rewrite try_except_raise_trace.
  - unfold try_except, outcome, raise. cbn [fst snd].
    now destruct (snd (miss_branch _ _ _ _ _)).
Qed.

(** X18.  On a cache miss, when the provider embeds the query, the handler
    embeds the query once and queries the index once per namespace of the
    request, with the embedding and the request's [top_k], in an order of
    time that is not fixed, and also when one of these queries fails.
    When the index answers every namespace and every match it found is
    valid, the handler schedules one cache write of the query with the id,
    metadata and score of every match, and returns the matches of all
    namespaces, in the order of the namespaces, each built from the id,
    metadata and score of the match found, with their number as
    [total_results]. *)
Theorem search_documents_cache_miss :
  embed_calls (trace searched) = [sr_query request] /\
  Permutation
    (index_queries (trace searched))
    (map (fun namespace =>
            (query_embedding, sr_top_k request,
             Some (search_namespace (sr_location_id request) namespace)))
         namespaces) /\
  (forall (found : list (list dict)) (matches : list SearchMatch),
     Forall2 (fun namespace ms =>
                index_query pinecone_service query_embedding (sr_top_k request)
                  (Some (search_namespace (sr_location_id request) namespace)) = Ok ms)
             namespaces found ->
     Forall2 valid_match (List.concat found) matches ->
     outcome searched
       = Ok {| results := matches;
               query_rewritten := None;
               total_results := List.length (List.concat found) |} /\
     cache_tasks (trace searched)
       = [(sr_query request, VList (map match_record (List.concat found)))]).
Proof.
  destruct searched_miss as [Htrace Hout].
  destruct (CacheService_get_calls cache_service (sr_query request)) as (Hc1 & Hc2 & Hc3).
  destruct (miss_branch_embedded query_embedding Hembed) as (tail & Hrun & Htail).
  cbv zeta in Hrun, Htail.
  destruct (query_event_calls _ (gathered_quiet query_embedding)) as [Hq1 Hq3].
  assert (Hembeds : embed_calls tail = [] /\ index_queries tail = []).
  { destruct (outcome (gather executor (queries_with query_embedding))) as [found | e].
    - destruct (outcome (map_eff (fresh_match SearchMatch_new) (List.concat found)))
        as [built | e]; destruct Htail as [-> _]; split; reflexivity.
    - destruct Htail as [-> _]. split; reflexivity. }
  destruct Hembeds as [Ht1 Ht2].
  split; [| split].
  - rewrite Htrace, Hrun, embed_calls_app, Hc1.
    change (embed_calls (EvEmbed (sr_query request) :: ?t))
      with (sr_query request :: embed_calls t).
    now rewrite embed_calls_app, Hq1, Ht1.
  - rewrite Htrace, Hrun, index_queries_app, Hc2.
    change (index_queries (EvEmbed (sr_query request) :: ?t)) with (index_queries t).
    rewrite index_queries_app, Ht2, app_nil_r. cbn [app].
    rewrite <- (queries_calls pinecone_service query_embedding (sr_top_k request)
                  (sr_location_id request) namespaces).
    symmetry. apply Permutation_flat_map, gather_trace.
  - intros found matches Hfound Hvalid.
    rewrite (gather_Ok _ _ _ found) in Htail
      by (apply queries_Ok; exact Hfound).
    destruct (fresh_matches_run _ _ Hvalid) as (built & Hbuilt & Hfst & Hsnd).
    rewrite Hbuilt in Htail. destruct Htail as [-> Hanswer].
    split.
    + rewrite Hout, Hanswer, Hsnd.
      now rewrite <- (Forall2_length Hvalid).
    + rewrite Htrace, Hrun, cache_tasks_app, Hc3.
      change (cache_tasks (EvEmbed (sr_query request) :: ?t)) with (cache_tasks t).
      rewrite cache_tasks_app, Hq3, Hfst. reflexivity.
Qed.
End SearchMiss.

Lemma search_documents_cache_miss_witness :
  outcome (CacheService_get {| client := None |} (sr_query all_search_request)) = Ok None /\
  cache_hit None = None /\
  embeddings_create example_embedding (sr_query all_search_request) = Ok [0.5%float] /\
  embed_calls (trace (search_documents example_SearchMatch_new last_first_executor
                        example_embedding one_match_pinecone {| client := None |}
                        all_search_request))
    = [sr_query all_search_request] /\
  Permutation
    (index_queries (trace (search_documents example_SearchMatch_new last_first_executor
                             example_embedding one_match_pinecone {| client := None |}
                             all_search_request)))
    (map (fun namespace =>
            ([0.5%float], sr_top_k all_search_request,
             Some (search_namespace (sr_location_id all_search_request) namespace)))
         (query_namespaces (sr_namespace all_search_request))) /\
  (forall (found : list (list dict)) (matches : list SearchMatch),
     Forall2 (fun namespace ms =>
                index_query one_match_pinecone [0.5%float] (sr_top_k all_search_request)
                  (Some (search_namespace (sr_location_id all_search_request) namespace))
                  = Ok ms)
             (query_namespaces (sr_namespace all_search_request)) found ->
     Forall2 (fun m search_match =>
                example_SearchMatch_new (dict_get m "id") (dict_get m "metadata")
                  (dict_get m "score") = Ok search_match)
             (List.concat found) matches ->
     outcome (search_documents example_SearchMatch_new last_first_executor
                example_embedding one_match_pinecone {| client := None |}
                all_search_request)
       = Ok {| results := matches;
               query_rewritten := None;
               total_results := List.length (List.concat found) |} /\
     cache_tasks (trace (search_documents example_SearchMatch_new last_first_executor
                           example_embedding one_match_pinecone {| client := None |}
                           all_search_request))
       = [(sr_query all_search_request, VList (map match_record (List.concat found)))]).
Proof.
  split; [reflexivity |]. split; [reflexivity |]. split; [reflexivity |].
  apply (search_documents_cache_miss example_SearchMatch_new last_first_executor
           example_embedding one_match_pinecone {| client := None |} all_search_request
           None [0.5%float]); reflexivity.
Defined.

(** The search over all namespaces of a location asks for its products, the
    blogs and the stores.  The executor decides in which order the queries
    go out; the results come in the order of the namespaces either way. *)
Example search_all_namespaces :
  map snd
    (index_queries (trace (search_documents example_SearchMatch_new in_order_executor
                             example_embedding one_match_pinecone {| client := None |}
                             all_search_request)))
    = [Some "loc1-products"; Some "blogs"; Some "stores"] /\
  map snd
    (index_queries (trace (search_documents example_SearchMatch_new last_first_executor
                             example_embedding one_match_pinecone {| client := None |}
                             all_search_request)))
    = [Some "stores"; Some "blogs"; Some "loc1-products"] /\
  outcome (search_documents example_SearchMatch_new in_order_executor
             example_embedding one_match_pinecone {| client := None |} all_search_request)
    = outcome (search_documents example_SearchMatch_new last_first_executor
                 example_embedding one_match_pinecone {| client := None |}
                 all_search_request).
Proof. repeat split. Qed.

Section SearchTotal.
Context `{PyRuntime}.
Variable SearchMatch_new : pyval -> pyval -> pyval -> result SearchMatch.
Variable executor : Executor.
Variable embedding_service : EmbeddingService.
Variable pinecone_service : PineconeService.
Variable cache_service : CacheService.
Variable request : SearchRequest.

#[local] Abbreviation searched :=
  (search_documents SearchMatch_new executor embedding_service pinecone_service
     cache_service request).
#[local] Abbreviation missed :=
  (miss_branch SearchMatch_new executor embedding_service pinecone_service request).
#[local] Abbreviation stopped :=
  (stopped_by SearchMatch_new embedding_service pinecone_service request).

Lemma miss_branch_raises : raises_within no_cache_task missed.
Proof.
  intros e He.
  destruct (embeddings_create embedding_service (sr_query request))
    as [query_embedding | x] eqn:Hembed.
  - destruct (miss_branch_embedded SearchMatch_new executor embedding_service
                pinecone_service request query_embedding Hembed) as (tail & Hrun & Htail).
    cbv zeta in Hrun, Htail. rewrite Hrun.
    assert (Htl : tail = []).
    { destruct (outcome (gather _ _)) as [found | x].
      - destruct (outcome (map_eff _ _)) as [built | x]; destruct Htail as [Htl Hout];
          [rewrite Hout in He; discriminate | exact Htl].
      - now destruct Htail. }
    rewrite Htl, app_nil_r. constructor; [exact I |].
    eapply Forall_impl; [| apply gathered_quiet].
    intros ev Hev. destruct ev; try destruct Hev; exact I.
  - unfold miss_branch. rewrite generate_embedding_run, Hembed.
    unfold bind, trace. cbn [fst snd]. repeat constructor.
Qed.

Lemma search_shape (resp : SearchResponse) (cached : option CacheSearchResult) :
  outcome match cache_hit cached with
          | Some stored => hit_branch SearchMatch_new stored
          | None => missed
          end = Ok resp ->
  total_results resp = List.length (results resp) /\ query_rewritten resp = None.
Proof.
  destruct (cache_hit cached) as [stored |]; intros Hk.
  - unfold hit_branch in Hk.
    apply bind_Ok_inv in Hk. destruct Hk as (v & _ & Hk).
    apply bind_Ok_inv in Hk. destruct Hk as (entries & _ & Hk).
    apply bind_Ok_inv in Hk. destruct Hk as (ms & _ & Hk).
    injection Hk as <-. split; reflexivity.
  - unfold miss_branch in Hk.
    apply bind_Ok_inv in Hk. destruct Hk as (qe & _ & Hk).
    apply bind_Ok_inv in Hk. destruct Hk as (found & _ & Hk).
    apply bind_Ok_inv in Hk. destruct Hk as (built & _ & Hk).
    apply bind_Ok_inv in Hk. destruct Hk as (u & _ & Hk).
    injection Hk as <-. split; reflexivity.
Qed.

Lemma cached_match_run (entry : pyval) :
  cached_match SearchMatch_new entry
  = ([], match entry with
         | VDict d =>
             SearchMatch_new (dict_get d "id") (dict_get d "metadata") (dict_get d "score")
         | _ => Raise (PyError "AttributeError" "object has no attribute 'get'")
         end).
Proof. unfold cached_match, bind, lift_result. now destruct entry. Qed.

Lemma cached_matches_raise (entries : list pyval) (e : exn) :
  outcome (map_eff (cached_match SearchMatch_new) entries) = Raise e ->
  Exists (fun entry => is_dict entry = false) entries \/
  exists entry, In (VDict entry) entries /\
                SearchMatch_new (dict_get entry "id") (dict_get entry "metadata")
                  (dict_get entry "score") = Raise e.
Proof.
  induction entries as [| entry entries IH]; [discriminate |].
  cbn [map_eff]. rewrite outcome_bind, cached_match_run. unfold outcome at 1. cbn [snd].
  destruct entry as [| | | | | | | d]; try (intros _; left; now constructor).
  destruct (SearchMatch_new _ _ _) as [search_match | e'] eqn:E.
  - rewrite outcome_bind.
    destruct (outcome (map_eff (cached_match SearchMatch_new) entries)) as [ms | e'] eqn:Er;
      [discriminate |].
    intros [= <-]. destruct (IH eq_refl) as [Hex | (entry & Hin & Hentry)].
    + left. now constructor 2.
    + right. exists entry. split; [now right | exact Hentry].
  - intros [= <-]. right. exists d. split; [now left | exact E].
Qed.

Lemma hit_branch_stopped (cached : option CacheSearchResult) (stored : string) (e : exn) :
  cache_hit cached = Some stored ->
  outcome (hit_branch SearchMatch_new stored) = Raise e ->
  stopped cached (exn_str e).
Proof.
  intros Hhit. unfold hit_branch. rewrite outcome_bind.
  destruct (json_loads stored) as [v |] eqn:Hjson.
  - unfold outcome at 1, ret. cbn [snd]. rewrite outcome_bind.
    unfold outcome at 1, lift_result. cbn [snd].
    destruct (py_iter v) as [entries | x] eqn:Hiter.
    + rewrite outcome_bind.
      destruct (outcome (map_eff (cached_match SearchMatch_new) entries))
        as [ms | x] eqn:Hms; [discriminate |].
      intros [= <-].
      destruct (cached_matches_raise entries x Hms) as [Hex | (entry & Hin & Hentry)].
      * apply (stopped_by_stored _ _ _ _ _ stored); [exact Hhit |].
        unfold unreadable. now rewrite Hjson, Hiter.
      * now apply (stopped_by_entry _ _ _ _ _ stored v entries entry).
    + intros _. apply (stopped_by_stored _ _ _ _ _ stored); [exact Hhit |].
      unfold unreadable. now rewrite Hjson, Hiter.
  - intros _. apply (stopped_by_stored _ _ _ _ _ stored); [exact Hhit |].
    unfold unreadable. now rewrite Hjson.
Qed.

Lemma miss_branch_stopped (cached : option CacheSearchResult) (e : exn) :
  cache_hit cached = None ->
  outcome missed = Raise e ->
  stopped cached (exn_str e).
Proof.
  intros Hmiss He.
  destruct (embeddings_create embedding_service (sr_query request))
    as [query_embedding | x] eqn:Hembed.
  - destruct (miss_branch_embedded SearchMatch_new executor embedding_service
                pinecone_service request query_embedding Hembed) as (tail & _ & Htail).
    cbv zeta in Htail.
    destruct (outcome (gather _ _)) as [found | x] eqn:Hg.
    + destruct (outcome (map_eff _ _)) as [built | x] eqn:Hb;
        destruct Htail as [_ Hout]; rewrite Hout in He; [discriminate |].
      injection He as ->.
      destruct (fresh_matches_raise SearchMatch_new _ _ Hb) as (m & Hin & Hm).
      apply in_concat in Hin. destruct Hin as (ms & Hms & Hin).
      destruct (gather_Ok_In _ _ _ _ _ Hg Hms) as (task & Htask & Hanswer).
      destruct (queries_In _ _ _ _ _ _ Htask) as (ns & Hns & Hrun).
      rewrite Hrun in Hanswer.
      now apply (stopped_by_match _ _ _ _ _ query_embedding ns ms m).
    + destruct Htail as [_ Hout]. rewrite Hout in He. injection He as ->.
      destruct (gather_Raise _ _ _ _ Hg) as (task & Htask & Hanswer).
      destruct (queries_In _ _ _ _ _ _ Htask) as (ns & Hns & Hrun).
      rewrite Hrun in Hanswer.
      now apply (stopped_by_index _ _ _ _ _ query_embedding ns).
  - unfold miss_branch in He. rewrite outcome_bind, generate_embedding_run, Hembed in He.
    injection He as ->. now apply stopped_by_embedding.
Qed.

(** X19.  Whatever the collaborators do and in whatever order the executor
    runs the queries, [POST /search] either returns a response whose
    [total_results] is the number of its results and whose
    [query_rewritten] is null, or raises the HTTP error 500 and has
    scheduled no cache write.  The error is then owed to one of five
    things: on a hit, a stored response that cannot be read, or a stored
    entry that is not a valid match; on a miss, the embedding provider
    refusing the query, the index refusing the query of one of the
    namespaces, or a match found that is not valid.  In the last four its
    detail is the message of that exception of the validator, the provider
    or the index. *)
Theorem search_documents_total :
  match outcome searched with
  | Ok resp =>
      total_results resp = List.length (results resp) /\ query_rewritten resp = None
  | Raise x =>
      cache_tasks (trace searched) = [] /\
      exists cached detail,
        outcome (CacheService_get cache_service (sr_query request)) = Ok cached /\
        x = HTTPException 500 detail /\
        stopped cached detail
  end.
Proof.
  destruct (CacheService_get_total cache_service (sr_query request)) as [cached Hget].
  rewrite search_documents_branches.
  set (m := bind (CacheService_get cache_service (sr_query request)) _).
  assert (Hout : outcome m = outcome match cache_hit cached with
                                     | Some stored => hit_branch SearchMatch_new stored
                                     | None => missed
                                     end).
  { unfold m. now rewrite outcome_bind, Hget. }
  assert (Hraise : raises_within no_cache_task m).
  { apply raises_within_bind; [apply CacheService_get_no_task |]. intros c.
    destruct (cache_hit c) as [stored |].
    - apply raises_within_all. rewrite hit_branch_silent. constructor.
    - apply miss_branch_raises. }
  unfold try_except, raise. unfold outcome at 1, trace.
  destruct (snd m) as [resp | e] eqn:E; cbn [fst snd].
  - rewrite E. apply (search_shape resp cached). now rewrite <- Hout.
  - split.
    + rewrite app_nil_r. apply no_cache_task_nil. now apply (Hraise e).
    + exists cached, (exn_str e). split; [exact Hget |]. split; [reflexivity |].
      unfold outcome in Hout at 1. rewrite E in Hout. symmetry in Hout.
      destruct (cache_hit cached) as [stored |] eqn:Hhit.
      * now apply (hit_branch_stopped cached stored).
      * now apply miss_branch_stopped.
Qed.
End SearchTotal.

(** A provider that refuses the query: the search fails before the index is
    asked. *)
Example search_documents_embedding_fails :
  search_documents example_SearchMatch_new in_order_executor
    {| embeddings_create := fun _ => Raise (PyError "RateLimitError" "quota exceeded") |}
    one_match_pinecone {| client := None |} all_search_request =
  ([EvLog "warning" "Cache connection not available, skipping cache get";
    EvEmbed "red shoes"; EvLog "error" "Error calling OpenAI API";
    EvLog "error" "Error generating embedding"],
   Raise (HTTPException 500 "quota exceeded")).
Proof. reflexivity. Qed.

(** An index that refuses the stores: the products and the blogs are
    queried all the same, whichever query goes out first, and the search
    fails with the message of the index. *)
Example search_documents_query_fails :
  search_documents example_SearchMatch_new in_order_executor example_embedding
    no_stores_pinecone {| client := None |} all_search_request =
  ([EvLog "warning" "Cache connection not available, skipping cache get";
    EvEmbed "red shoes";
    EvLog "info" "Querying Pinecone";
    EvIndexQuery [0.5%float] 5 (Some "loc1-products");
    EvLog "info" "Query completed";
    EvLog "info" "Querying Pinecone";
    EvIndexQuery [0.5%float] 5 (Some "blogs");
    EvLog "info" "Query completed";
    EvLog "info" "Querying Pinecone";
    EvIndexQuery [0.5%float] 5 (Some "stores");
    EvLog "error" "Error querying Pinecone"],
   Raise (HTTPException 500 "namespace not found")) /\
  map snd
    (index_queries (trace (search_documents example_SearchMatch_new last_first_executor
                             example_embedding no_stores_pinecone {| client := None |}
                             all_search_request)))
    = [Some "stores"; Some "blogs"; Some "loc1-products"].
Proof. split; reflexivity. Qed.

(* ------------------------------------------------------------------ *)
(** ** The cache that fails *)

Section CacheFails.
Context `{PyRuntime}.
Variable SearchMatch_new : pyval -> pyval -> pyval -> result SearchMatch.
Variable executor : Executor.
Variable embedding_service : EmbeddingService.
Variable pinecone_service : PineconeService.
Variable c : LangCache.
Variable request : SearchRequest.

#[local] Abbreviation search_with cache_service :=
  (search_documents SearchMatch_new executor embedding_service pinecone_service
     cache_service request).


End CacheFails.


(* ------------------------------------------------------------------ *)
(** ** The batch pipeline against an index that answers *)

Lemma consecutive_batches_single {A : Type} (l : list A) :
  0 < List.length l <= 100 -> consecutive_batches 100 l = [l].
Proof.
  intros Hlen. unfold consecutive_batches. rewrite py_range_100.
  replace ((List.length l + 99) / 100) with 1.
  - cbn [seq map]. change (0 * 100) with 0. rewrite py_slice_width. cbn [skipn].
    rewrite firstn_all2 by lia. reflexivity.
  - pose proof (ceil_100_bounds (List.length l)). lia.
Qed.

Lemma PineconeService_upsert_accepted (svc : PineconeService) (vectors : list Vector)
    (namespace : option string) :
  index_accepts svc ->
  exists t out,
    PineconeService_upsert svc vectors namespace = (t, Ok out) /\
    index_upserts t
      = map (fun b => (b, sent_namespace namespace)) (consecutive_batches 100 vectors).
Proof.
  intros Hacc.
  destruct (upsert_loop svc vectors namespace Hacc (py_range 0 (List.length vectors) 100) [])
    as (t & size & more & Hrun & Hcalls & _).
  { apply full_until_last_range. }
  { apply py_range_100_In. }
  exists (EvLog "info" "Upserting vectors to Pinecone" :: t
            ++ [EvLog "info" "Successfully upserted vectors"])%list,
         {| total_upserted := List.length vectors; batches := more |}.
  split.
  - unfold PineconeService_upsert, reraise_logged, try_except, bind, log, emit, ret.
    cbn [fst snd]. rewrite Hrun. cbn [fst snd]. rewrite app_nil_r. reflexivity.
  - change (EvLog "info" "Upserting vectors to Pinecone" :: t
              ++ [EvLog "info" "Successfully upserted vectors"])%list
      with ([EvLog "info" "Upserting vectors to Pinecone"] ++ t
              ++ [EvLog "info" "Successfully upserted vectors"])%list.
    rewrite !index_upserts_app, Hcalls. cbn [index_upserts flat_map app].
    rewrite app_nil_r. unfold consecutive_batches. now rewrite map_map.
Qed.

Section PipelineAccepts.
Context `{PyRuntime}.
Variable templates : Templates.
Variable embedding_service : EmbeddingService.
Variable pinecone_service : PineconeService.
Variable request : BatchIngestRequest.

(** The index answers every upsert. *)
Hypothesis Haccepts : index_accepts pinecone_service.

#[local] Abbreviation n_records := (List.length (br_metadata request)).
#[local] Abbreviation job_namespace :=
  (ingest_namespace (br_type request) (br_location_id request)).
#[local] Abbreviation made := (vectors_of templates embedding_service (br_type request)).
#[local] Abbreviation sent_vectors c := (flat_map fst (index_upserts (sent c))).

Lemma body_get_accepted (c : consumer) (v : Vector) :
  List.length (vectors_to_upsert c) < 100 ->
  let c' := batch_upsert_body pinecone_service n_records job_namespace c (Some v) in
  state c' = Running /\
  total_processed c' = total_processed c + 1 /\
  List.length (vectors_to_upsert c') < 100 /\
  (sent_vectors c' ++ vectors_to_upsert c')%list
    = (sent_vectors c ++ vectors_to_upsert c ++ [v])%list /\
  (total_processed c + 1 = n_records -> vectors_to_upsert c' = []).
Proof.
  intros Hsmall. cbv zeta. unfold batch_upsert_body.
  assert (Hlen : List.length (vectors_to_upsert c ++ [v])
                 = List.length (vectors_to_upsert c) + 1)
    by now rewrite length_app.
  destruct (Nat.leb batch_size (List.length (vectors_to_upsert c ++ [v]))
            || Nat.eqb (total_processed c + 1) n_records) eqn:Hcond.
  - destruct (vectors_to_upsert c ++ [v])%list as [| x vs] eqn:Evs;
      [cbn in Hlen; lia |].
    destruct (PineconeService_upsert_accepted pinecone_service (x :: vs)
                (Some job_namespace) Haccepts) as (t & out & Hrun & Hcalls).
    rewrite consecutive_batches_single in Hcalls by lia.
    rewrite Hrun. unfold outcome, trace. cbn [fst snd sent state total_processed
      vectors_to_upsert].
    split; [reflexivity |]. split; [reflexivity |]. split; [cbn; lia |].
    split; [| reflexivity].
    rewrite index_upserts_app.
    change (index_upserts (EvLog "info" "Upserting batch to Pinecone" :: t))
      with (index_upserts t).
    rewrite Hcalls, flat_map_app. cbn [map flat_map fst app].
    now rewrite !app_nil_r.
  - apply orb_false_iff in Hcond. destruct Hcond as [Hleb Heqb].
    apply Nat.leb_gt in Hleb. apply Nat.eqb_neq in Heqb.
    cbn [sent state total_processed vectors_to_upsert].
    split; [reflexivity |]. split; [reflexivity |]. split; [exact Hleb |].
    split; [reflexivity | intros Hn; now elim Heqb].
Qed.

Lemma vectors_of_app (l1 l2 : list dict) :
  made (l1 ++ l2) = (made l1 ++ made l2)%list.
Proof. apply flat_map_app. Qed.

(** What every state of a job satisfies when the index answers. *)
Lemma reachable_accounted (s : pipeline) :
  reachable templates embedding_service pinecone_service request s ->
  state (cons s) <> Crashed /\
  (state (cons s) = Running -> List.length (vectors_to_upsert (cons s)) < 100) /\
  total_processed (cons s)
    = List.length (upserted s) + List.length (vectors_to_upsert (cons s)) /\
  Permutation
    (upserted s ++ vectors_to_upsert (cons s) ++ vector_queue s ++ made (pending s))
    (made (br_metadata request)).
Proof.
  induction 1 as [| s s' _ IH Hstep].
  - unfold start, upserted. cbn. repeat split; try discriminate; try lia.
    apply Permutation_refl.
  - destruct IH as (Hstate & Hpart & Hcount & Hperm).
    destruct Hstep as [l1 m l2 q c | p v q c Hrun Hlt | p c Hrun Hlt | p q c Hrun Hge];
      unfold upserted in *; cbn [pending vector_queue cons] in *.
    + repeat split; try assumption.
      rewrite vectors_of_app in *.
      change (made (m :: l2))
        with (match produced templates embedding_service (br_type request) m with
              | Some v => [v]
              | None => []
              end ++ made l2)%list in Hperm.
      eapply Permutation_trans; [| exact Hperm].
      apply Permutation_app_head, Permutation_app_head.
      destruct (produced templates embedding_service (br_type request) m) as [v |].
      * rewrite <- app_assoc. apply Permutation_app_head.
        cbn [app]. apply Permutation_middle.
      * apply Permutation_refl.
    + destruct (body_get_accepted c v (Hpart Hrun)) as (Hs & Htp & Hlen & Hvs & _).
      rewrite Hs, Htp.
      split; [discriminate |]. split; [now intros _ |]. split.
      * rewrite <- length_app, Hvs, !length_app, Hcount. cbn [List.length]. lia.
      * rewrite app_assoc, Hvs, <- !app_assoc. exact Hperm.
    + rewrite body_empty_waits by assumption. repeat split; assumption.
    + cbn [with_state state vectors_to_upsert total_processed sent].
      split; [discriminate |]. split; [discriminate |]. split; assumption.
Qed.

(** X20.  Against an index that answers, the vectors of a job are accounted
    for in every state it can reach: what has been upserted, what the
    consumer holds, what waits on the queue and what the pending records
    will produce are together, up to order, exactly the vectors the job
    produces.  No vector is upserted twice, none is upserted that no worker
    produced, and the consumer thread does not die. *)
Theorem batch_vectors_accounted (s : pipeline) :
  reachable templates embedding_service pinecone_service request s ->
  state (cons s) <> Crashed /\
  total_processed (cons s)
    = List.length (upserted s) + List.length (vectors_to_upsert (cons s)) /\
  Permutation
    (upserted s ++ vectors_to_upsert (cons s) ++ vector_queue s ++ made (pending s))
    (made (br_metadata request)).
Proof.
  intros Hreach.
  destruct (reachable_accounted s Hreach) as (Hstate & _ & Hcount & Hperm).
  repeat split; assumption.
Qed.

Lemma workers_first (l : list dict) :
  forall q c,
    reachable templates embedding_service pinecone_service request
      {| pending := l; vector_queue := q; cons := c |} ->
    reachable templates embedding_service pinecone_service request
      {| pending := []; vector_queue := (q ++ made l)%list; cons := c |}.
Proof.
  induction l as [| m r IH]; intros q c Hreach.
  - cbn. now rewrite app_nil_r.
  - change (made (m :: r))
      with (match produced templates embedding_service (br_type request) m with
            | Some v => [v]
            | None => []
            end ++ made r)%list.
    rewrite app_assoc. apply IH.
    apply reach_step with (s := {| pending := m :: r; vector_queue := q; cons := c |});
      [assumption |].
    pose proof (step_worker templates embedding_service pinecone_service request
                  [] m r q c) as Hstep.
    cbn [app] in Hstep.
    destruct (produced templates embedding_service (br_type request) m);
      [exact Hstep | now rewrite app_nil_r].
Qed.

Lemma consumer_drains (q : list Vector) :
  forall c,
    reachable templates embedding_service pinecone_service request
      {| pending := []; vector_queue := q; cons := c |} ->
    state c = Running ->
    List.length (vectors_to_upsert c) < 100 ->
    total_processed c + List.length q = n_records ->
    (total_processed c = n_records -> vectors_to_upsert c = []) ->
    exists c',
      reachable templates embedding_service pinecone_service request
        {| pending := []; vector_queue := []; cons := c' |} /\
      state c' = Running /\
      total_processed c' = n_records /\
      vectors_to_upsert c' = [] /\
      sent_vectors c' = (sent_vectors c ++ vectors_to_upsert c ++ q)%list.
Proof.
  induction q as [| v r IH]; intros c Hreach Hrun Hsmall Htotal Hlast.
  - cbn [List.length] in Htotal. rewrite Nat.add_0_r in Htotal.
    exists c. rewrite (Hlast Htotal), !app_nil_r. repeat split; assumption.
  - cbn [List.length] in Htotal.
    destruct (body_get_accepted c v Hsmall) as (Hs & Htp & Hlen & Hvs & Hend).
    destruct (IH (batch_upsert_body pinecone_service n_records job_namespace c (Some v)))
      as (c' & Hreach' & Hrun' & Htp' & Hvs' & Hsent'); try assumption.
    + apply reach_step with (s := {| pending := []; vector_queue := v :: r; cons := c |});
        [assumption |].
      apply step_get; [assumption | lia].
    + lia.
    + rewrite Htp. exact Hend.
    + exists c'. repeat split; try assumption.
      rewrite Hsent', app_assoc, Hvs, <- !app_assoc. reflexivity.
Qed.

(** X21.  Against an index that answers, a job in which every record goes
    through can run to its end: there is a run after which the consumer has
    left its loop, nothing is pending, queued or held, and the vectors
    upserted are exactly the vectors of the records, in the order of the
    records. *)
Theorem batch_can_finish :
  Forall (fun m => produced templates embedding_service (br_type request) m <> None)
         (br_metadata request) ->
  exists s,
    reachable templates embedding_service pinecone_service request s /\
    state (cons s) = Finished /\
    pending s = [] /\ vector_queue s = [] /\ vectors_to_upsert (cons s) = [] /\
    upserted s = made (br_metadata request) /\
    List.length (upserted s) = n_records.
Proof.
  intros Hgood.
  assert (Hlen : List.length (made (br_metadata request)) = n_records).
  { induction (br_metadata request) as [| m r IH]; [reflexivity |].
    inversion Hgood as [| ? ? Hm Hr]; subst.
    change (made (m :: r))
      with (match produced templates embedding_service (br_type request) m with
            | Some v => [v]
            | None => []
            end ++ made r)%list.
    destruct (produced templates embedding_service (br_type request) m);
      [| now elim Hm].
    cbn [app List.length]. now rewrite IH. }
  destruct (consumer_drains (made (br_metadata request)) (cons (start request)))
    as (c' & Hreach & Hrun & Htp & Hvs & Hsent).
  - exact (workers_first (br_metadata request) [] _
             (reach_start templates embedding_service pinecone_service request)).
  - reflexivity.
  - cbn. lia.
  - cbn [start cons total_processed]. exact Hlen.
  - reflexivity.
  - cbn [start cons sent vectors_to_upsert index_upserts flat_map app] in Hsent.
    exists {| pending := []; vector_queue := []; cons := with_state c' Finished |}.
    split.
    + apply reach_step with (s := {| pending := []; vector_queue := []; cons := c' |});
        [assumption |].
      apply step_exit; [assumption | lia].
    + unfold upserted. cbn [cons pending vector_queue with_state state vectors_to_upsert sent].
      rewrite Hsent, Hlen. repeat split. exact Hvs.
Qed.
End PipelineAccepts.

Lemma example_pinecone_accepts : index_accepts example_pinecone.
Proof. intros b ns. eexists. reflexivity. Qed.

Lemma batch_vectors_accounted_witness :
  index_accepts example_pinecone /\
  reachable source_templates example_embedding example_pinecone one_bad_record_job
    stuck_state /\
  state (cons stuck_state) <> Crashed /\
  total_processed (cons stuck_state)
    = List.length (upserted stuck_state)
      + List.length (vectors_to_upsert (cons stuck_state)) /\
  Permutation
    (upserted stuck_state ++ vectors_to_upsert (cons stuck_state)
       ++ vector_queue stuck_state
       ++ vectors_of source_templates example_embedding (br_type one_bad_record_job)
            (pending stuck_state))
    (vectors_of source_templates example_embedding (br_type one_bad_record_job)
       (br_metadata one_bad_record_job)).
Proof.
  split; [exact example_pinecone_accepts |].
  split; [exact stuck_state_reachable |].
  exact (batch_vectors_accounted source_templates example_embedding example_pinecone
           one_bad_record_job example_pinecone_accepts stuck_state stuck_state_reachable).
Defined.

Lemma two_good_records_good :
  Forall (fun m => produced source_templates example_embedding
                     (br_type two_good_records_job) m <> None)
         (br_metadata two_good_records_job).
Proof. repeat constructor; discriminate. Qed.

Lemma batch_can_finish_witness :
  index_accepts example_pinecone /\
  Forall (fun m => produced source_templates example_embedding
                     (br_type two_good_records_job) m <> None)
         (br_metadata two_good_records_job) /\
  exists s,
    reachable source_templates example_embedding example_pinecone two_good_records_job s /\
    state (cons s) = Finished /\
    pending s = [] /\ vector_queue s = [] /\ vectors_to_upsert (cons s) = [] /\
    upserted s = vectors_of source_templates example_embedding
                   (br_type two_good_records_job) (br_metadata two_good_records_job) /\
    List.length (upserted s) = List.length (br_metadata two_good_records_job).
Proof.
  split; [exact example_pinecone_accepts |].
  split; [exact two_good_records_good |].
  exact (batch_can_finish source_templates example_embedding example_pinecone
           two_good_records_job example_pinecone_accepts two_good_records_good).
Defined.

(* ------------------------------------------------------------------ *)
(** ** The store template *)

Lemma py_join_items_raises (items : list pyval) :
  Exists (fun v => is_str v = false) items ->
  py_join_items items = Raise (PyError "TypeError" "sequence item: expected str instance").
Proof.
  induction 1 as [v r Hv | v r _ IH].
  - destruct v; try reflexivity; discriminate Hv.
  - cbn [py_join_items]. destruct v; try reflexivity; now rewrite IH.
Qed.

Section StoreErrors.
Context `{PyRuntime}.

Lemma address_bit_keeps (store : dict) (key : string) (bits : list pyval) (v : pyval) :
  In v bits -> In v (address_bit store key bits).
Proof.
  intros Hin. unfold address_bit.
  destruct (truthy (dict_get store key)); [apply in_or_app; now left | assumption].
Qed.

Lemma address_bit_adds (store : dict) (key : string) (bits : list pyval) :
  truthy (dict_get store key) = true ->
  In (dict_get store key) (address_bit store key bits).
Proof.
  intros Ht. unfold address_bit. rewrite Ht. apply in_or_app. right. now left.
Qed.

Lemma store_address_bits (store : dict) (key : string) (abbr : pyval) :
  In key address_fields -> truthy (dict_get store key) = true ->
  In (dict_get store key)
     (address_bit store "zip"
        (if truthy abbr
         then (address_bit store "city" (address_bit store "address_1" []) ++ [abbr])%list
         else address_bit store "city" (address_bit store "address_1" []))).
Proof.
  intros Hkey Ht.
  assert (Hcity : key = "address_1" \/ key = "city" ->
                  In (dict_get store key)
                     (address_bit store "city" (address_bit store "address_1" []))).
  { intros [-> | ->];
      [apply address_bit_keeps |]; now apply address_bit_adds. }
  destruct Hkey as [<- | [<- | [<- | []]]].
  - apply address_bit_keeps.
    destruct (truthy abbr); [apply in_or_app; left |]; apply Hcity; now left.
  - apply address_bit_keeps.
    destruct (truthy abbr); [apply in_or_app; left |]; apply Hcity; now right.
  - now apply address_bit_adds.
Qed.

(** X22.  A store whose address line, city or zip is present, truthy and
    not a string (a zip given as a number, say) cannot be synthesized:
    unless the [state] field already stops it, [store_to_text] raises the
    [TypeError] of the join of the address. *)
Theorem store_to_text_address_type (store : dict) (key : string) :
  In key address_fields ->
  truthy (dict_get store key) = true ->
  is_str (dict_get store key) = false ->
  (forall v, dict_lookup store "state" = Some v -> is_dict v = true) ->
  exists msg, source_store_to_text store = Raise (PyError "TypeError" msg).
Proof.
  intros Hkey Ht Hstr Hstate. eexists. unfold source_store_to_text. cbv zeta.
  assert (Habbr : exists abbr,
            py_get (match dict_lookup store "state" with
                    | Some v => v
                    | None => VDict []
                    end) "abbr" = Ok abbr).
  { destruct (dict_lookup store "state") as [v |] eqn:E; [| eexists; reflexivity].
    specialize (Hstate v eq_refl). destruct v; try discriminate Hstate.
    eexists; reflexivity. }
  destruct Habbr as [abbr ->]. cbn [rbind].
  pose proof (store_address_bits store key abbr Hkey Ht) as Hin.
  destruct (address_bit store "zip" _) as [| b bits] eqn:Ebits; [destruct Hin |].
  unfold py_join. rewrite py_join_items_raises; [reflexivity |].
  apply Exists_exists. exists (dict_get store key). split; assumption.
Qed.

(** X23.  A store whose [state] field is present but not a dict, null
    included, cannot be synthesized: [store_to_text] raises the
    [AttributeError] of the [.get] it calls on it. *)
Theorem store_to_text_state_shape (store : dict) (v : pyval) :
  dict_lookup store "state" = Some v -> is_dict v = false ->
  exists msg, source_store_to_text store = Raise (PyError "AttributeError" msg).
Proof.
  intros Hv Hd. eexists. unfold source_store_to_text. cbv zeta. rewrite Hv.
  destruct v; try reflexivity. discriminate Hd.
Qed.

(** X24.  [store_to_text] reads eleven fields of the store and nothing else:
    two stores that agree on these fields get the same text, or the same
    exception, whatever other fields they carry. *)
Theorem store_to_text_fields (s1 s2 : dict) :
  (forall k, In k store_fields -> dict_lookup s1 k = dict_lookup s2 k) ->
  source_store_to_text s1 = source_store_to_text s2.
Proof.
  intros Hsame.
  assert (Hget : forall k, In k store_fields -> dict_get s1 k = dict_get s2 k).
  { intros k Hk. unfold dict_get. now rewrite (Hsame k Hk). }
  unfold source_store_to_text, labelled, address_bit. cbv zeta.
  rewrite (Hsame "state"), (Hsame "hours") by (cbn; tauto).
  rewrite (Hget "title"), (Hget "slug"), (Hget "location_status"), (Hget "address_1"),
    (Hget "city"), (Hget "zip"), (Hget "type"), (Hget "medicalStoreId"),
    (Hget "recreationalStoreId") by (cbn; tauto).
  reflexivity.
Qed.
End StoreErrors.

Lemma store_to_text_address_type_witness :
  In "zip" address_fields /\
  truthy (dict_get numeric_zip_store "zip") = true /\
  is_str (dict_get numeric_zip_store "zip") = false /\
  (forall v, dict_lookup numeric_zip_store "state" = Some v -> is_dict v = true) /\
  exists msg, source_store_to_text numeric_zip_store = Raise (PyError "TypeError" msg).
Proof.
  assert (Hstate : forall v, dict_lookup numeric_zip_store "state" = Some v ->
                             is_dict v = true) by (intros v Hv; discriminate Hv).
  split; [cbn; tauto |]. split; [reflexivity |]. split; [reflexivity |].
  split; [exact Hstate |].
  apply (store_to_text_address_type numeric_zip_store "zip");
    [cbn; tauto | reflexivity | reflexivity | exact Hstate].
Defined.

Lemma store_to_text_state_shape_witness :
  dict_lookup null_state_store "state" = Some VNone /\ is_dict VNone = false /\
  exists msg, source_store_to_text null_state_store = Raise (PyError "AttributeError" msg).
Proof.
  split; [reflexivity |]. split; [reflexivity |].
  apply (store_to_text_state_shape null_state_store VNone); reflexivity.
Defined.

Lemma store_to_text_fields_witness :
  (forall k, In k store_fields ->
             dict_lookup example_store k
             = dict_lookup (("reviews", VList [VInt 5]) :: example_store) k) /\
  source_store_to_text example_store
    = source_store_to_text (("reviews", VList [VInt 5]) :: example_store).
Proof.
  assert (Hsame : forall k, In k store_fields ->
                    dict_lookup example_store k
                    = dict_lookup (("reviews", VList [VInt 5]) :: example_store) k).
  { intros k Hk. cbn in Hk.
    repeat (destruct Hk as [<- | Hk]; [reflexivity |]). destruct Hk. }
  split; [exact Hsame |].
  exact (store_to_text_fields example_store (("reviews", VList [VInt 5]) :: example_store)
           Hsame).
Defined.

(** The text of the example store, and the handler on the store whose zip is
    a number. *)
Example store_to_text_example :
  source_store_to_text example_store =
  Ok "Store: Main Street | Slug: main-street | Address: 1 Main St, Springfield, IL, 62701 | Type: both | Hours: Monday 9am - 9pm".
Proof. reflexivity. Qed.

Example ingest_numeric_zip_store :
  exists detail,
    outcome (ingest_document source_templates example_embedding
               {| ir_location_id := None; ir_id := None; ir_type := STORES;
                  ir_metadata := numeric_zip_store |})
      = Raise (HTTPException 500 detail).
Proof. eexists. reflexivity. Qed.
